(** * MeshLogic SDK: the request / response / error-mapping core

    A shallow embedding of the client core of the TypeScript SDK
    (typescript/src/client.ts, typescript/src/errors.ts) and of the Go SDK
    (meshlogic/client.go, meshlogic/errors.go), and the properties of the
    specification checked against both.

    The HTTP stack, the URL parser and the JSON codec are library code: what
    they answer is an input of the model (Section variables and the fields
    of the response records). *)

From Stdlib Require Import ZArith Lia Ascii DecimalString DecimalPos.
From stdpp Require Import gmap strings list sorting.

Local Open Scope Z_scope.

(** ** Text helpers shared by the two variants *)

Module Text.

(** [includes sub s]: the text [sub] occurs in [s]. *)
Fixpoint includes (sub s : string) : bool :=
  String.prefix sub s ||
  match s with
  | EmptyString => false
  | String _ s' => includes sub s'
  end.

(** Decimal form of an integer: Go's [%d] and [strconv.Itoa], JavaScript's
    conversion of an integral number to a string. *)
Definition decimal (z : Z) : string := NilZero.string_of_int (Z.to_int z).

(** The ASCII characters that [fmt]'s [SkipSpace] and JavaScript's
    [parseInt] both skip in front of a number. *)
Definition is_blank (a : ascii) : bool :=
  match a with
  | " " | "009" | "010" | "011" | "012" | "013" => true
  | _ => false
  end%char.

(** The value of a decimal digit: its distance from the character 0. *)
Definition digit_value (a : ascii) : option Z :=
  let d := Z.of_N (N_of_ascii a) - 48 in
  if (0 <=? d) && (d <=? 9) then Some d else None.

(** The longest run of decimal digits in front of [s]: how many there are
    and their value on top of [acc]. *)
Fixpoint scan_digits (s : string) (acc : Z) (n : nat) : Z * nat :=
  match s with
  | String a s' =>
      match digit_value a with
      | Some d => scan_digits s' (10 * acc + d) (S n)
      | None => (acc, n)
      end
  | EmptyString => (acc, n)
  end.

(** An optional sign, then at least one digit; what follows the digits is
    left unread. [None]: no digit where one is needed. *)
Definition scan_signed (s : string) : option Z :=
  let '(neg, rest) :=
    match s with
    | String "-" s' => (true, s')
    | String "+" s' => (false, s')
    | _ => (false, s)
    end in
  match scan_digits rest 0 0 with
  | (_, O) => None
  | (v, S _) => Some (if neg then - v else v)
  end.

End Text.

(** ** The TypeScript SDK *)

Module TS.

Import Text.

(** *** Values *)

(** The numbers the core handles: integers, and the [NaN] that [parseInt]
    answers when it finds no digit. (Integers are exact up to 2^53.) *)
Inductive number := NaN | Int (z : Z).

Definition number_to_string (n : number) : string :=
  match n with
  | NaN => "NaN"
  | Int z => decimal z
  end.

(** A string operand of [||] or [if]: undefined and the empty string are
    falsy. *)
Definition truthy (o : option string) : bool :=
  match o with
  | Some s => negb (String.eqb s "")
  | None => false
  end.

(** [a || b] *)
Definition or_else (a : option string) (b : string) : string :=
  match a with
  | Some s => if String.eqb s "" then b else s
  | None => b
  end.

(** A thrown value that is not one of the SDK's errors. *)
Record JsError := {
  is_Error : bool;       (* error instanceof Error *)
  err_name : string;     (* error.name *)
  err_text : string;     (* String(error) *)
}.

(** *** errors.ts *)

Inductive MeshLogicError :=
| BaseError (message : string) (code : option string) (statusCode : option Z)
| AuthenticationError (message : string)
| RateLimitError (message : string) (retryAfter : number)
| NotFoundError (message : string)
| ValidationError (message : string) (field : option string).

Definition message (e : MeshLogicError) : string :=
  match e with
  | BaseError m _ _ | AuthenticationError m | RateLimitError m _
  | NotFoundError m | ValidationError m _ => m
  end.

(** The arguments each subclass hands to [super]. *)
Definition code (e : MeshLogicError) : option string :=
  match e with
  | BaseError _ c _ => c
  | AuthenticationError _ => Some "AUTH_ERROR"
  | RateLimitError _ _ => Some "RATE_LIMIT"
  | NotFoundError _ => Some "NOT_FOUND"
  | ValidationError _ _ => Some "VALIDATION_ERROR"
  end.

Definition statusCode (e : MeshLogicError) : option Z :=
  match e with
  | BaseError _ _ s => s
  | AuthenticationError _ => Some 401
  | RateLimitError _ _ => Some 429
  | NotFoundError _ => Some 404
  | ValidationError _ _ => Some 400
  end.

Definition name (e : MeshLogicError) : string :=
  match e with
  | BaseError _ _ _ => "MeshLogicError"
  | AuthenticationError _ => "AuthenticationError"
  | RateLimitError _ _ => "RateLimitError"
  | NotFoundError _ => "NotFoundError"
  | ValidationError _ _ => "ValidationError"
  end.

(** [MeshLogicError.prototype.toString], inherited by the subclasses that
    do not override it. *)
Definition base_toString (e : MeshLogicError) : string :=
  if truthy (code e)
  then "[" +:+ default "" (code e) +:+ "] " +:+ message e
  else message e.

Definition toString (e : MeshLogicError) : string :=
  match e with
  | RateLimitError m r =>
      m +:+ ". Retry after " +:+ number_to_string r +:+ " seconds."
  | ValidationError m f =>
      if truthy f
      then "Validation error on field '" +:+ default "" f +:+ "': " +:+ m
      else "Validation error: " +:+ m
  | _ => base_toString e
  end.

(** *** client.ts: configuration *)

Definition ENDPOINTS : gmap string string :=
  {[ "ap-southeast-2" := "https://api.meshlogic.ai";
     "us-east-1" := "https://api.us.meshlogic.ai";
     "eu-west-1" := "https://api.eu.meshlogic.ai" ]}.

(** [ENDPOINTS] is an object literal: a name that is not its own is looked
    up in [Object.prototype], whose members are functions and objects. *)
Definition Object_prototype : list string :=
  [ "constructor"; "__proto__"; "hasOwnProperty"; "isPrototypeOf";
    "propertyIsEnumerable"; "toLocaleString"; "toString"; "valueOf";
    "__defineGetter__"; "__defineSetter__"; "__lookupGetter__";
    "__lookupSetter__" ].

(** What [this.baseUrl] holds. *)
Inductive BaseUrl :=
| UrlString (s : string)
| PrototypeMember (name : string).

(** [ENDPOINTS[region]]; [None] is undefined. *)
Definition endpoint (region : string) : option BaseUrl :=
  match ENDPOINTS !! region with
  | Some u => Some (UrlString u)
  | None =>
      if bool_decide (region ∈ Object_prototype)
      then Some (PrototypeMember region)
      else None
  end.

Record ClientConfig := {
  cfg_apiKey : option string;
  cfg_region : option string;
  cfg_baseUrl : option string;
  cfg_timeout : option Z;
}.

Record Client := {
  apiKey : string;
  baseUrl : BaseUrl;
  timeout : Z;
}.

Inductive Scalar :=
| SString (s : string)
| SNumber (n : number)
| SBoolean (b : bool).

(** [String(value)] *)
Definition String_of (v : Scalar) : string :=
  match v with
  | SString s => s
  | SNumber n => number_to_string n
  | SBoolean true => "true"
  | SBoolean false => "false"
  end.

(** The part of a [URL] object the core touches. *)
Record URL := {
  location : string;                      (* scheme, host and path *)
  searchParams : list (string * string);
}.

(** [URLSearchParams.set]: the first pair of that name takes the value and
    the others go; a new name is appended. *)
Fixpoint searchParams_set (q : list (string * string)) (k v : string)
  : list (string * string) :=
  match q with
  | [] => [(k, v)]
  | (k', v') :: q' =>
      if decide (k' = k)
      then (k, v) :: filter (λ p, p.1 ≠ k) q'
      else (k', v') :: searchParams_set q' k v
  end.

(** The [forEach] over [Object.entries(params)]. *)
Definition set_entry (q : list (string * string))
    (entry : string * option Scalar) : list (string * string) :=
  match entry.2 with
  | Some value => searchParams_set q entry.1 (String_of value)
  | None => q
  end.

Definition set_entries (q : list (string * string))
    (params : option (list (string * option Scalar)))
  : list (string * string) :=
  match params with
  | Some entries => foldl set_entry q entries
  | None => q
  end.

(** The [body] argument: falsy or left out, a value with its JSON text, or
    a value [JSON.stringify] throws on. *)
Inductive BodyArg :=
| NoBody
| BodyText (text : string)
| BodyThrows (e : JsError).

Record FetchInit := {
  f_url : URL;
  f_method : string;
  f_headers : list (string * string);
  f_body : option string;
}.

(** The white space [parseInt] skips in front of a number, among the
    characters a header value holds (one per byte): the ASCII blanks and the
    no-break space. *)
Definition is_white (a : ascii) : bool :=
  is_blank a || (Z.of_N (N_of_ascii a) =? 160).

Fixpoint skip_white (s : string) : string :=
  match s with
  | String a s' => if is_white a then skip_white s' else s
  | EmptyString => s
  end.

(** [parseInt(s, 10)] *)
Definition parseInt (s : string) : number :=
  match scan_signed (skip_white s) with
  | Some v => Int v
  | None => NaN
  end.

(** The members of a parsed error payload the core reads, as the strings
    an error payload makes them; a member that is missing is undefined. *)
Record ErrorData := {
  d_message : option string;
  d_code : option string;
}.

Definition empty_object : ErrorData := {| d_message := None; d_code := None |}.

Definition AbortError : JsError :=
  {| is_Error := true; err_name := "AbortError";
     err_text := "AbortError: This operation was aborted" |}.

(** Reading a member of [null]. *)
Definition null_member_error : JsError :=
  {| is_Error := true; err_name := "TypeError";
     err_text :=
       "TypeError: Cannot read properties of null (reading 'message')" |}.

Definition api_key_required : string :=
  "API key required. Provide via apiKey option or MESHLOGIC_API_KEY environment variable.".

Section Core.

(** The values JSON text parses to. *)
Context {Json : Type}.

(** What [response.json()] settles to on a value: the value, and its
    members [message] and [code] ([None] for [null], which has none). *)
Record Parsed := {
  p_value : Json;
  p_members : option ErrorData;
}.

Record Response := {
  status : Z;
  headers : gmap string string;      (* by lower-case name *)
  json : JsError + Parsed;           (* left: the promise rejects *)
}.

(** [response.ok] *)
Definition ok (r : Response) : bool :=
  (200 <=? status r) && (status r <=? 299).

(** How the network answers one [fetch] while the timer runs. *)
Inductive Network :=
| Responds (r : Response)
| Silent                      (* the timer fires first *)
| Breaks (e : JsError).       (* fetch rejects: DNS, refused connection, ... *)

Inductive Effect :=
| ReadEnv (var : string)
| SetTimeout (ms : Z)
| ClearTimeout
| Abort
| Fetch (init : FetchInit).

Inductive Outcome (A : Type) :=
| Returns (a : A)
| ThrowsSdk (e : MeshLogicError)
| ThrowsJs (e : JsError).
Global Arguments Returns {A} a.
Global Arguments ThrowsSdk {A} e.
Global Arguments ThrowsJs {A} e.

(** [new MeshLogicClient(config)] under the environment [env]. *)
Definition constructor (env : gmap string string) (config : ClientConfig)
  : Outcome Client * list Effect :=
  let '(key, effects) :=
    if truthy (cfg_apiKey config)
    then (default "" (cfg_apiKey config), [])
    else (or_else (env !! "MESHLOGIC_API_KEY") "", [ReadEnv "MESHLOGIC_API_KEY"]) in
  if negb (truthy (Some key))
  then (ThrowsSdk (AuthenticationError api_key_required), effects)
  else
    let region := or_else (cfg_region config) "ap-southeast-2" in
    let base :=
      if truthy (cfg_baseUrl config)
      then UrlString (default "" (cfg_baseUrl config))
      else match endpoint region with
           | Some u => u
           | None => UrlString (default "" (ENDPOINTS !! "ap-southeast-2"))
           end in
    let t :=
      match cfg_timeout config with
      | Some ms => if ms =? 0 then 30000 else ms
      | None => 30000
      end in
    (Returns {| apiKey := key; baseUrl := base; timeout := t |}, effects).

(** [new URL(path, base)]: a URL, or the TypeError it throws. *)
Variable URL_new : string → BaseUrl → JsError + URL.

(** The network behind [fetch]. *)
Variable network : FetchInit → Network.

(** The [catch] block of [request]. *)
Definition catch {A} (thrown : MeshLogicError + JsError) : Outcome A :=
  match thrown with
  | inl e => ThrowsSdk e
  | inr error =>
      if is_Error error && String.eqb (err_name error) "AbortError"
      then ThrowsSdk (BaseError "Request timeout" (Some "TIMEOUT") None)
      else ThrowsSdk (BaseError (err_text error) (Some "NETWORK_ERROR") None)
  end.

(** [await response.json().catch(() => ({}))]; [None] is [null]. *)
Definition errorData_of (response : Response) : option ErrorData :=
  match json response with
  | inl _ => Some empty_object
  | inr p => p_members p
  end.

(** The [if (!response.ok)] block: what it throws. *)
Definition classify (path : string) (response : Response)
  : MeshLogicError + JsError :=
  match errorData_of response with
  | None => inr null_member_error
  | Some errorData =>
      if status response =? 401 then
        inl (AuthenticationError
               (or_else (d_message errorData) "Invalid or expired API key"))
      else if status response =? 404 then
        inl (NotFoundError
               (or_else (d_message errorData) ("Resource not found: " +:+ path)))
      else if status response =? 429 then
        let retryAfter :=
          parseInt (or_else (headers response !! "retry-after") "60") in
        inl (RateLimitError
               (or_else (d_message errorData) "Rate limit exceeded") retryAfter)
      else
        inl (BaseError (or_else (d_message errorData) "Unknown error")
               (Some (or_else (d_code errorData) "UNKNOWN"))
               (Some (status response)))
  end.

(** [body ? JSON.stringify(body) : undefined], when it does not throw. *)
Definition sent_text (body : BodyArg) : option string :=
  match body with
  | BodyText text => Some text
  | _ => None
  end.

Definition fetch_init (c : Client) (method : string) (url : URL)
    (body : option string) : FetchInit :=
  {| f_url := url;
     f_method := method;
     f_headers :=
       [ ("Authorization", "Bearer " +:+ apiKey c);
         ("Content-Type", "application/json");
         ("User-Agent", "meshlogic-typescript/0.1.0") ];
     f_body := body |}.

(** The URL [request] fetches. *)
Definition build_url (c : Client) (path : string)
    (params : option (list (string * option Scalar))) : JsError + URL :=
  match URL_new path (baseUrl c) with
  | inl e => inl e
  | inr url =>
      inr {| location := location url;
             searchParams := set_entries (searchParams url) params |}
  end.

(** [client.request(method, path, params, body)]: how the promise settles,
    and what the call did on the way. *)
Definition request (c : Client) (method path : string)
    (params : option (list (string * option Scalar))) (body : BodyArg)
  : Outcome Json * list Effect :=
  match build_url c path params with
  | inl e => (ThrowsJs e, [])
  | inr url =>
      let timer := SetTimeout (timeout c) in
      let send (text : option string) :=
        let init := fetch_init c method url text in
        match network init with
        | Silent =>
            (catch (inr AbortError), [timer; Fetch init; Abort; ClearTimeout])
        | Breaks e =>
            (catch (inr e), [timer; Fetch init; ClearTimeout])
        | Responds response =>
            if negb (ok response)
            then (catch (classify path response),
                  [timer; Fetch init; ClearTimeout; ClearTimeout])
            else
              (match json response with
               | inl e => ThrowsJs e
               | inr p => Returns (p_value p)
               end,
               [timer; Fetch init; ClearTimeout])
        end in
      match body with
      | BodyThrows e => (catch (inr e), [timer; ClearTimeout])
      | _ => send (sent_text body)
      end
  end.

End Core.

Global Arguments Parsed : clear implicits.
Global Arguments Response : clear implicits.
Global Arguments Network : clear implicits.

End TS.

(** ** The Go SDK *)

Module Go.

Import Text.

(** *** errors.go *)

Record Error := {
  Code : string;
  Message : string;
  StatusCode : Z;
}.

(** An error of another package (net/url, encoding/json, net/http, io). *)
Record LibError := {
  lib_text : string;      (* its Error() *)
  lib_timeout : bool;     (* its Timeout(), where it has one *)
}.

(** The values of type [error] the package hands out: a pointer to an
    [Error], or the error of a library.

    errors.go declares four more struct types, AuthenticationError,
    NotFoundError, RateLimitError and ValidationError, each embedding
    [Error]. The embedded field is itself named Error, and a field hides a
    promoted method of the same name: pointers to the first two have no
    Error method, so they are no [error] values; the last two declare an
    Error method beside the field Error, which the compiler refuses. None
    of the four is a value of this type. *)
Inductive error :=
| PlainError (e : Error)
| Foreign (e : LibError).

(** The [Error] of an error of the package. *)
Definition embedded (err : error) : option Error :=
  match err with
  | PlainError e => Some e
  | Foreign _ => None
  end.

(** The method [Error] of the base type. *)
Definition Error_Error (e : Error) : string :=
  if String.eqb (Code e) ""
  then Message e
  else "[" +:+ Code e +:+ "] " +:+ Message e.

(** *** client.go: configuration *)

Definition endpoints : gmap string string :=
  {[ "ap-southeast-2" := "https://api.meshlogic.ai";
     "us-east-1" := "https://api.us.meshlogic.ai";
     "eu-west-1" := "https://api.eu.meshlogic.ai" ]}.

Record http_Client := {
  Timeout : Z;     (* nanoseconds *)
}.

Record Client := {
  apiKey : string;
  baseURL : string;
  httpClient : option http_Client;     (* [None]: a nil pointer *)
}.

(** A [ClientOption] is a function on the client. These are the ones a
    caller gets from the five functions of the package, and the nil
    function. (The fields of the client are unexported; a function written
    by the caller is not among these.) *)
Inductive ClientOption :=
| WithAPIKey (apiKey : string)
| WithRegion (region : string)
| WithBaseURL (baseURL : string)
| WithHTTPClient (httpClient : option http_Client)
| WithTimeout (timeout : Z)
| NilOption.

(** [opt(c)]; [None]: the call panics, [opt] being nil or dereferencing a
    nil [httpClient]. *)
Definition apply_option (opt : ClientOption) (c : Client) : option Client :=
  match opt with
  | NilOption => None
  | WithAPIKey k =>
      Some {| apiKey := k; baseURL := baseURL c; httpClient := httpClient c |}
  | WithRegion region =>
      match endpoints !! region with
      | Some endpoint =>
          Some {| apiKey := apiKey c; baseURL := endpoint;
                  httpClient := httpClient c |}
      | None => Some c
      end
  | WithBaseURL u =>
      Some {| apiKey := apiKey c; baseURL := u; httpClient := httpClient c |}
  | WithHTTPClient h =>
      Some {| apiKey := apiKey c; baseURL := baseURL c; httpClient := h |}
  | WithTimeout t =>
      match httpClient c with
      | Some _ =>
          Some {| apiKey := apiKey c; baseURL := baseURL c;
                  httpClient := Some {| Timeout := t |} |}
      | None => None
      end
  end.

(** The loop [for _, opt := range opts { opt(c) }]. *)
Fixpoint apply_options (opts : list ClientOption) (c : Client) : option Client :=
  match opts with
  | [] => Some c
  | opt :: rest =>
      match apply_option opt c with
      | Some c' => apply_options rest c'
      | None => None
      end
  end.

(** How a call ends. [IllTyped]: the branch ends in a return statement
    that does not type-check against errors.go (its operand is no [error]
    value), so that the model has no result to give for it. *)
Inductive Result (A : Type) :=
| Ok (a : A)
| Err (e : error)
| Panic
| IllTyped.
Global Arguments Ok {A} a.
Global Arguments Err {A} e.
Global Arguments Panic {A}.
Global Arguments IllTyped {A}.

Definition second : Z := 1000000000.

Definition initial_client : Client :=
  {| apiKey := "";
     baseURL := default "" (endpoints !! "ap-southeast-2");
     httpClient := Some {| Timeout := 30 * second |} |}.

Definition api_key_required : string :=
  "API key required. Provide via WithAPIKey() or MESHLOGIC_API_KEY environment variable.".

(** [url.Values] *)
Abbreviation Values := (gmap string (list string)).

(** The part of a [*url.URL] the core touches. *)
Record URL := {
  location : string;      (* scheme, host and path *)
  RawQuery : string;
}.

Record Request := {
  Method : string;
  Url : URL;
  Headers : list (string * string);
  ReqBody : option string;
}.

(** The [body] argument: nil, a value with its JSON text, or a value
    [json.Marshal] fails on. *)
Inductive BodyArg :=
| NilBody
| Marshals (text : string)
| MarshalFails (e : LibError).

(** The bytes of a response body, and what [json.Unmarshal] makes of them
    as an [Error]: its [Code] and [Message], or [None] when it reports an
    error. *)
Record Payload := {
  raw : string;
  as_Error : option (string * string);
}.

Record Response := {
  Status : Z;
  Header : gmap string string;     (* by canonical name, first value *)
  Body : LibError + Payload;       (* what io.ReadAll gives *)
}.

Inductive Effect :=
| Getenv (var : string)      (* os.Getenv *)
| Send (req : Request)       (* one call of the HTTP client's Do *)
| Close.                     (* resp.Body.Close *)

(** The value of a byte. *)
Definition byte (a : ascii) : Z := Z.of_N (N_of_ascii a).

(** The white space of [fmt] beyond ASCII, in the UTF-8 of a Go string:
    U+0085 and U+00A0 take two bytes; U+1680, U+2000 to U+200A, U+2028,
    U+2029, U+202F, U+205F and U+3000 take three. *)
Definition two_byte_space (a b : ascii) : bool :=
  (byte a =? 194) && ((byte b =? 133) || (byte b =? 160)).

Definition three_byte_space (a b c : ascii) : bool :=
  ((byte a =? 225) && (byte b =? 154) && (byte c =? 128))
  || ((byte a =? 226) && (byte b =? 128)
      && (((128 <=? byte c) && (byte c <=? 138))
          || (byte c =? 168) || (byte c =? 169) || (byte c =? 175)))
  || ((byte a =? 226) && (byte b =? 129) && (byte c =? 159))
  || ((byte a =? 227) && (byte b =? 128) && (byte c =? 128)).

(** [SkipSpace] of a [Sscanf]: the runes that are white space are passed
    over, a newline is an error. *)
Fixpoint SkipSpace (s : string) : option string :=
  match s with
  | String a s1 =>
      if Ascii.eqb a "010" then None
      else if is_blank a then SkipSpace s1
      else
        match s1 with
        | String b s2 =>
            if two_byte_space a b then SkipSpace s2
            else
              match s2 with
              | String c s3 =>
                  if three_byte_space a b c then SkipSpace s3 else Some s
              | EmptyString => Some s
              end
        | EmptyString => Some s
        end
  | EmptyString => Some s
  end.

(** The range of an [int] of 64 bits. *)
Definition fits_int64 (v : Z) : bool :=
  (- 2 ^ 63 <=? v) && (v <? 2 ^ 63).

(** [fmt.Sscanf(s, "%d", &x)] with [x] holding [current]: the new [x]. *)
Definition Sscanf_d (s : string) (current : Z) : Z :=
  match SkipSpace s with
  | Some s' =>
      match scan_signed s' with
      | Some v => if fits_int64 v then v else current
      | None => current
      end
  | None => current
  end.

(** [NewClient(opts...)] under the environment [env]. *)
Definition NewClient (env : gmap string string) (opts : list ClientOption)
  : Result Client * list Effect :=
  match apply_options opts initial_client with
  | None => (Panic, [])
  | Some c =>
      let '(c, effects) :=
        if String.eqb (apiKey c) ""
        then ({| apiKey := default "" (env !! "MESHLOGIC_API_KEY");
                 baseURL := baseURL c; httpClient := httpClient c |},
              [Getenv "MESHLOGIC_API_KEY"])
        else (c, []) in
      if String.eqb (apiKey c) ""
      then (Err (PlainError {| Code := "AUTH_ERROR";
                               Message := api_key_required;
                               StatusCode := 0 |}), effects)
      else (Ok c, effects)
  end.

Section Core.

(** [url.Parse] *)
Variable url_Parse : string → LibError + URL.

(** [url.QueryEscape] *)
Variable QueryEscape : string → string.

(** The error of [http.NewRequestWithContext], if any. *)
Variable NewRequest_error : string → URL → option LibError.

(** The [Do] of the HTTP client, context and deadline included. *)
Variable Do : http_Client → Request → LibError + Response.

(** The pairs [Values.Encode] writes, in its order: keys sorted, the values
    of a key as they are stored. *)
Definition Values_pairs (v : Values) : list (string * string) :=
  k ← merge_sort String.le (map_to_list v).*1;
  (λ x, (k, x)) <$> default [] (v !! k).

(** [Values.Encode] *)
Definition Encode (v : Values) : string :=
  String.concat "&"
    ((λ p, QueryEscape p.1 +:+ "=" +:+ QueryEscape p.2) <$> Values_pairs v).

(** The first half of [request]: the request handed to [Do]. *)
Definition build_request (c : Client) (method path : string)
    (params : option Values) (body : BodyArg) : LibError + Request :=
  match url_Parse (baseURL c +:+ path) with
  | inl err => inl err
  | inr u =>
      let u :=
        match params with
        | Some v => {| location := location u; RawQuery := Encode v |}
        | None => u
        end in
      let marshalled :=
        match body with
        | NilBody => inr None
        | Marshals text => inr (Some text)
        | MarshalFails err => inl err
        end in
      match marshalled with
      | inl err => inl err
      | inr bodyReader =>
          match NewRequest_error method u with
          | Some err => inl err
          | None =>
              inr {| Method := method;
                     Url := u;
                     Headers :=
                       [ ("Authorization", "Bearer " +:+ apiKey c);
                         ("Content-Type", "application/json");
                         ("User-Agent", "meshlogic-go/0.1.0") ];
                     ReqBody := bodyReader |}
          end
      end
  end.

(** The [apiErr] of the [if resp.StatusCode >= 400] block, as it stands in
    front of the [switch]. *)
Definition apiErr (respBody : Payload) (resp : Response) : Error :=
  let apiErr :=
    match as_Error respBody with
    | Some (code, message) =>
        {| Code := code; Message := message; StatusCode := 0 |}
    | None =>
        {| Code := "UNKNOWN"; Message := raw respBody;
           StatusCode := Status resp |}
    end in
  {| Code := Code apiErr; Message := Message apiErr;
     StatusCode := Status resp |}.

(** The [retryAfter] of the case 429. *)
Definition retryAfter (resp : Response) : Z :=
  let retryAfter := 60 in
  let ra := default "" (Header resp !! "Retry-After") in
  if String.eqb ra "" then retryAfter else Sscanf_d ra retryAfter.

(** The [switch] on the status. Its default case returns [&apiErr]; the
    cases 401, 404 and 429 return a pointer to an AuthenticationError, a
    NotFoundError and a RateLimitError, none of which is an [error]. *)
Definition status_switch (respBody : Payload) (resp : Response) : Result string :=
  if Status resp =? 401 then IllTyped
  else if Status resp =? 404 then IllTyped
  else if Status resp =? 429 then let _ := retryAfter resp in IllTyped
  else Err (PlainError (apiErr respBody resp)).

(** [c.request(ctx, method, path, params, body)]: what it returns, and what
    the call did on the way. *)
Definition request (c : Client) (method path : string)
    (params : option Values) (body : BodyArg)
  : Result string * list Effect :=
  match build_request c method path params body with
  | inl err => (Err (Foreign err), [])
  | inr req =>
      match httpClient c with
      | None => (Panic, [])
      | Some h =>
          match Do h req with
          | inl err => (Err (Foreign err), [Send req])
          | inr resp =>
              match Body resp with
              | inl err => (Err (Foreign err), [Send req; Close])
              | inr respBody =>
                  if Status resp >=? 400
                  then (status_switch respBody resp, [Send req; Close])
                  else (Ok (raw respBody), [Send req; Close])
              end
          end
      end
  end.

End Core.

End Go.

(** ** The Go services (events.go, devices.go, patterns.go) *)

Module GoServices.

Import Text.

(** [v.Set(key, value)] *)
Definition Values_Set (key value : string) (v : Go.Values) : Go.Values :=
  <[key := [value]]> v.

(** [if value != "" { v.Set(key, value) }] *)
Definition Set_nonempty (key value : string) (v : Go.Values) : Go.Values :=
  if String.eqb value "" then v else Values_Set key value v.

Module EventsListParams.
Record t := {
  EventType : string;
  DeviceID : string;
  Since : string;
  Until : string;
  Limit : Z;
  Offset : Z;
}.
Definition zero : t :=
  {| EventType := ""; DeviceID := ""; Since := ""; Until := "";
     Limit := 0; Offset := 0 |}.
End EventsListParams.

Module ExportParams.
Record t := {
  Format : string;
  EventType : string;
  Since : string;
  Until : string;
}.
End ExportParams.

Module DevicesListParams.
Record t := {
  Status : string;
  Platform : string;
  Limit : Z;
  Offset : Z;
}.
Definition zero : t :=
  {| Status := ""; Platform := ""; Limit := 0; Offset := 0 |}.
End DevicesListParams.

Module PatternsListParams.
Record t := {
  Category : string;
  Enabled : option bool;      (* a pointer: [None] is nil *)
}.
Definition zero : t := {| Category := ""; Enabled := None |}.
End PatternsListParams.

Module MatchesParams.
Record t := {
  PatternID : string;
  DeviceID : string;
  Since : string;
  Limit : Z;
}.
Definition zero : t :=
  {| PatternID := ""; DeviceID := ""; Since := ""; Limit := 0 |}.
End MatchesParams.

(** [strconv.FormatBool] *)
Definition FormatBool (b : bool) : string := if b then "true" else "false".

(** The [limit] every list sends: the caller's when positive, else 100. *)
Definition Set_limit (limit : Z) (v : Go.Values) : Go.Values :=
  if 0 <? limit
  then Values_Set "limit" (decimal limit) v
  else Values_Set "limit" "100" v.

(** [if offset > 0 { v.Set("offset", strconv.Itoa(offset)) }] *)
Definition Set_offset (offset : Z) (v : Go.Values) : Go.Values :=
  if 0 <? offset then Values_Set "offset" (decimal offset) v else v.

(** The values [EventsService.List] hands to [request]. *)
Definition EventsService_List_values (params : option EventsListParams.t)
  : Go.Values :=
  let params := default EventsListParams.zero params in
  let v := ∅ in
  let v := Set_nonempty "type" (EventsListParams.EventType params) v in
  let v := Set_nonempty "device_id" (EventsListParams.DeviceID params) v in
  let v := Set_nonempty "since" (EventsListParams.Since params) v in
  let v := Set_nonempty "until" (EventsListParams.Until params) v in
  let v := Set_limit (EventsListParams.Limit params) v in
  Set_offset (EventsListParams.Offset params) v.

(** The values [EventsService.Export] hands to [request]. *)
Definition EventsService_Export_values (params : option ExportParams.t)
  : Go.Values :=
  let params :=
    default {| ExportParams.Format := "json"; ExportParams.EventType := "";
               ExportParams.Since := ""; ExportParams.Until := "" |} params in
  let v := ∅ in
  let v := Values_Set "format" (ExportParams.Format params) v in
  let v := Set_nonempty "type" (ExportParams.EventType params) v in
  let v := Set_nonempty "since" (ExportParams.Since params) v in
  Set_nonempty "until" (ExportParams.Until params) v.

(** The values [DevicesService.List] hands to [request]. *)
Definition DevicesService_List_values (params : option DevicesListParams.t)
  : Go.Values :=
  let params := default DevicesListParams.zero params in
  let v := ∅ in
  let v := Set_nonempty "status" (DevicesListParams.Status params) v in
  let v := Set_nonempty "platform" (DevicesListParams.Platform params) v in
  let v := Set_limit (DevicesListParams.Limit params) v in
  Set_offset (DevicesListParams.Offset params) v.

(** The values [PatternsService.List] hands to [request]. *)
Definition PatternsService_List_values (params : option PatternsListParams.t)
  : Go.Values :=
  let params := default PatternsListParams.zero params in
  let v := ∅ in
  let v := Set_nonempty "category" (PatternsListParams.Category params) v in
  match PatternsListParams.Enabled params with
  | Some enabled => Values_Set "enabled" (FormatBool enabled) v
  | None => v
  end.

(** The values [PatternsService.Matches] hands to [request]. *)
Definition PatternsService_Matches_values (params : option MatchesParams.t)
  : Go.Values :=
  let params := default MatchesParams.zero params in
  let v := ∅ in
  let v := Set_nonempty "pattern_id" (MatchesParams.PatternID params) v in
  let v := Set_nonempty "device_id" (MatchesParams.DeviceID params) v in
  let v := Set_nonempty "since" (MatchesParams.Since params) v in
  Set_limit (MatchesParams.Limit params) v.

Section Methods.

Variable url_Parse : string → Go.LibError + Go.URL.
Variable QueryEscape : string → string.
Variable NewRequest_error : string → Go.URL → option Go.LibError.
Variable Do : Go.http_Client → Go.Request → Go.LibError + Go.Response.

(** The response type of a method, and [json.Unmarshal] of a body into
    it. *)
Context {T : Type}.
Variable Unmarshal : string → Go.LibError + T.

(** The tail every method but [Export] shares: the error of [request] is
    returned as it is, and the body is decoded. *)
Definition decoded (r : Go.Result string * list Go.Effect)
  : Go.Result T * list Go.Effect :=
  match r.1 with
  | Go.Ok body =>
      match Unmarshal body with
      | inl err => (Go.Err (Go.Foreign err), r.2)
      | inr resp => (Go.Ok resp, r.2)
      end
  | Go.Err err => (Go.Err err, r.2)
  | Go.Panic => (Go.Panic, r.2)
  | Go.IllTyped => (Go.IllTyped, r.2)
  end.

Definition EventsService_List (c : Go.Client) (params : option EventsListParams.t)
  : Go.Result T * list Go.Effect :=
  decoded (Go.request url_Parse QueryEscape NewRequest_error Do c
             "GET" "/v1/events" (Some (EventsService_List_values params)) Go.NilBody).

Definition EventsService_Get (c : Go.Client) (eventID : string)
  : Go.Result T * list Go.Effect :=
  decoded (Go.request url_Parse QueryEscape NewRequest_error Do c
             "GET" ("/v1/events/" +:+ eventID) None Go.NilBody).

Definition EventsService_Export (c : Go.Client) (params : option ExportParams.t)
  : Go.Result string * list Go.Effect :=
  Go.request url_Parse QueryEscape NewRequest_error Do c
    "GET" "/v1/events/export" (Some (EventsService_Export_values params)) Go.NilBody.

Definition DevicesService_List (c : Go.Client) (params : option DevicesListParams.t)
  : Go.Result T * list Go.Effect :=
  decoded (Go.request url_Parse QueryEscape NewRequest_error Do c
             "GET" "/v1/devices" (Some (DevicesService_List_values params)) Go.NilBody).

Definition DevicesService_Get (c : Go.Client) (deviceID : string)
  : Go.Result T * list Go.Effect :=
  decoded (Go.request url_Parse QueryEscape NewRequest_error Do c
             "GET" ("/v1/devices/" +:+ deviceID) None Go.NilBody).

Definition DevicesService_Status (c : Go.Client)
  : Go.Result T * list Go.Effect :=
  decoded (Go.request url_Parse QueryEscape NewRequest_error Do c
             "GET" "/v1/devices/status" None Go.NilBody).

Definition PatternsService_List (c : Go.Client) (params : option PatternsListParams.t)
  : Go.Result T * list Go.Effect :=
  decoded (Go.request url_Parse QueryEscape NewRequest_error Do c
             "GET" "/v1/patterns" (Some (PatternsService_List_values params)) Go.NilBody).

Definition PatternsService_Matches (c : Go.Client) (params : option MatchesParams.t)
  : Go.Result T * list Go.Effect :=
  decoded (Go.request url_Parse QueryEscape NewRequest_error Do c
             "GET" "/v1/patterns/matches"
             (Some (PatternsService_Matches_values params)) Go.NilBody).

End Methods.

End GoServices.

(** ** The TypeScript resources (client.ts) *)

Module TSResources.

Import Text.

(** [n || d] on a number: zero and NaN are falsy. *)
Definition number_or (n : option TS.number) (d : Z) : TS.number :=
  match n with
  | Some (TS.Int z) => if z =? 0 then TS.Int d else TS.Int z
  | Some TS.NaN | None => TS.Int d
  end.

Module EventsListParams.
Record t := {
  eventType : option string;
  deviceId : option string;
  since : option string;
  until : option string;
  limit : option TS.number;
  offset : option TS.number;
}.
End EventsListParams.

Module ExportParams.
Record t := {
  format : option string;
  eventType : option string;
  since : option string;
  until : option string;
}.
End ExportParams.

Module DevicesListParams.
Record t := {
  status : option string;
  platform : option string;
  limit : option TS.number;
  offset : option TS.number;
}.
End DevicesListParams.

Module PatternsListParams.
Record t := {
  category : option string;
  enabled : option bool;
}.
End PatternsListParams.

Module MatchesParams.
Record t := {
  patternId : option string;
  deviceId : option string;
  since : option string;
  limit : option TS.number;
}.
End MatchesParams.

(** The object [EventsResource.list] hands to [request], as its entries. *)
Definition EventsResource_list_params (params : EventsListParams.t)
  : list (string * option TS.Scalar) :=
  [ ("type", TS.SString <$> EventsListParams.eventType params);
    ("device_id", TS.SString <$> EventsListParams.deviceId params);
    ("since", TS.SString <$> EventsListParams.since params);
    ("until", TS.SString <$> EventsListParams.until params);
    ("limit", Some (TS.SNumber (number_or (EventsListParams.limit params) 100)));
    ("offset", Some (TS.SNumber (number_or (EventsListParams.offset params) 0))) ].

Definition DevicesResource_list_params (params : DevicesListParams.t)
  : list (string * option TS.Scalar) :=
  [ ("status", TS.SString <$> DevicesListParams.status params);
    ("platform", TS.SString <$> DevicesListParams.platform params);
    ("limit", Some (TS.SNumber (number_or (DevicesListParams.limit params) 100)));
    ("offset", Some (TS.SNumber (number_or (DevicesListParams.offset params) 0))) ].

Definition PatternsResource_list_params (params : PatternsListParams.t)
  : list (string * option TS.Scalar) :=
  [ ("category", TS.SString <$> PatternsListParams.category params);
    ("enabled", TS.SBoolean <$> PatternsListParams.enabled params) ].

Definition PatternsResource_matches_params (params : MatchesParams.t)
  : list (string * option TS.Scalar) :=
  [ ("pattern_id", TS.SString <$> MatchesParams.patternId params);
    ("device_id", TS.SString <$> MatchesParams.deviceId params);
    ("since", TS.SString <$> MatchesParams.since params);
    ("limit", Some (TS.SNumber (number_or (MatchesParams.limit params) 100))) ].

(** [if (value) url.searchParams.set(key, value)] *)
Definition set_truthy (q : list (string * string)) (key : string)
    (value : option string) : list (string * string) :=
  if TS.truthy value then TS.searchParams_set q key (default "" value) else q.

Section Methods.

Context {Json Blob : Type}.
Variable URL_new : string → TS.BaseUrl → TS.JsError + TS.URL.
Variable network : TS.FetchInit → TS.Network Json.

(** [response.blob()] *)
Variable blob_of : TS.Response Json → TS.JsError + Blob.

Definition EventsResource_list (c : TS.Client) (params : EventsListParams.t)
  : TS.Outcome Json * list TS.Effect :=
  TS.request URL_new network c "GET" "/v1/events"
    (Some (EventsResource_list_params params)) TS.NoBody.

Definition EventsResource_get (c : TS.Client) (eventId : string)
  : TS.Outcome Json * list TS.Effect :=
  TS.request URL_new network c "GET" ("/v1/events/" +:+ eventId) None TS.NoBody.

Definition DevicesResource_list (c : TS.Client) (params : DevicesListParams.t)
  : TS.Outcome Json * list TS.Effect :=
  TS.request URL_new network c "GET" "/v1/devices"
    (Some (DevicesResource_list_params params)) TS.NoBody.

Definition DevicesResource_get (c : TS.Client) (deviceId : string)
  : TS.Outcome Json * list TS.Effect :=
  TS.request URL_new network c "GET" ("/v1/devices/" +:+ deviceId) None TS.NoBody.

Definition DevicesResource_status (c : TS.Client)
  : TS.Outcome Json * list TS.Effect :=
  TS.request URL_new network c "GET" "/v1/devices/status" None TS.NoBody.

Definition PatternsResource_list (c : TS.Client) (params : PatternsListParams.t)
  : TS.Outcome Json * list TS.Effect :=
  TS.request URL_new network c "GET" "/v1/patterns"
    (Some (PatternsResource_list_params params)) TS.NoBody.

Definition PatternsResource_matches (c : TS.Client) (params : MatchesParams.t)
  : TS.Outcome Json * list TS.Effect :=
  TS.request URL_new network c "GET" "/v1/patterns/matches"
    (Some (PatternsResource_matches_params params)) TS.NoBody.

(** The URL [EventsResource.export] fetches. *)
Definition export_url (c : TS.Client) (params : ExportParams.t)
  : TS.JsError + TS.URL :=
  match URL_new "/v1/events/export" (TS.baseUrl c) with
  | inl e => inl e
  | inr url =>
      let q := TS.searchParams url in
      let q := set_truthy q "format" (ExportParams.format params) in
      let q := set_truthy q "type" (ExportParams.eventType params) in
      let q := set_truthy q "since" (ExportParams.since params) in
      let q := set_truthy q "until" (ExportParams.until params) in
      inr {| TS.location := TS.location url; TS.searchParams := q |}
  end.

(** What [EventsResource.export] hands to [fetch]: the method is fetch's
    default, and there is no abort signal. *)
Definition export_init (c : TS.Client) (url : TS.URL) : TS.FetchInit :=
  {| TS.f_url := url;
     TS.f_method := "GET";
     TS.f_headers := [ ("Authorization", "Bearer " +:+ TS.apiKey c) ];
     TS.f_body := None |}.

(** [events.export(params)]: how the promise settles ([None]: it never
    does, the network staying silent with no timer running), and what the
    call did. *)
Definition EventsResource_export (c : TS.Client) (params : ExportParams.t)
  : option (TS.Outcome Blob) * list TS.Effect :=
  match export_url c params with
  | inl e => (Some (TS.ThrowsJs e), [])
  | inr url =>
      let init := export_init c url in
      match network init with
      | TS.Silent => (None, [TS.Fetch init])
      | TS.Breaks e => (Some (TS.ThrowsJs e), [TS.Fetch init])
      | TS.Responds response =>
          if negb (TS.ok response)
          then (Some (TS.ThrowsSdk
                        (TS.BaseError "Export failed" (Some "EXPORT_ERROR")
                           (Some (TS.status response)))),
                [TS.Fetch init])
          else (Some match blob_of response with
                     | inl e => TS.ThrowsJs e
                     | inr b => TS.Returns b
                     end,
                [TS.Fetch init])
      end
  end.

End Methods.

End TSResources.

(** ** Notions the statements use *)

(** The TypeScript classes that keep the [toString] of the base class. *)
Definition inherits_toString (e : TS.MeshLogicError) : bool :=
  match e with
  | TS.RateLimitError _ _ | TS.ValidationError _ _ => false
  | _ => true
  end.

(** The Go options that write [baseURL]: [WithBaseURL], and [WithRegion]
    with a region of the table. *)
Definition sets_url (opt : Go.ClientOption) : bool :=
  match opt with
  | Go.WithBaseURL _ => true
  | Go.WithRegion region => bool_decide (is_Some (Go.endpoints !! region))
  | _ => false
  end.

(** The class the specification names for a status. *)
Definition ts_class_of_status (status : Z) : string :=
  if status =? 401 then "AuthenticationError"
  else if status =? 404 then "NotFoundError"
  else if status =? 429 then "RateLimitError"
  else "MeshLogicError".

(** The dynamic type of a Go error: that of the package, or one of a
    library. *)
Definition go_type (err : Go.error) : string :=
  match err with
  | Go.PlainError _ => "*Error"
  | Go.Foreign _ => "other"
  end.

(** The values a query holds under the key [k], in order. *)
Definition values_of (k : string) (q : list (string * string)) : list string :=
  (filter (λ p, p.1 = k) q).*2.

(** The last defined value among the entries of key [k]. *)
Definition last_defined (k : string) (entries : list (string * option TS.Scalar))
  : option TS.Scalar :=
  last (omap (λ entry, if decide (entry.1 = k) then entry.2 else None) entries).

(** A text without the character [c]. *)
Fixpoint free_of (c : ascii) (s : string) : bool :=
  match s with
  | String a s' => negb (Ascii.eqb a c) && free_of c s'
  | EmptyString => true
  end.

(** The text in front of the first [c] of [s], and the text after it. *)
Fixpoint cut (c : ascii) (s : string) : string * string :=
  match s with
  | String a s' =>
      if Ascii.eqb a c then ("", s')
      else let '(front, back) := cut c s' in (String a front, back)
  | EmptyString => ("", "")
  end.

(** The pieces of [s] between the occurrences of [c]. *)
Fixpoint pieces (c : ascii) (s : string) : list string :=
  match s with
  | String a s' =>
      if Ascii.eqb a c then "" :: pieces c s'
      else match pieces c s' with
           | piece :: rest => String a piece :: rest
           | [] => [String a ""]
           end
  | EmptyString => [""]
  end.

(** The pairs a query text holds: its pieces between the ampersands, each
    cut at its first equals sign. An empty text holds none. *)
Definition query_pairs (q : string) : list (string * string) :=
  match q with
  | EmptyString => []
  | _ => cut "=" <$> pieces "&" q
  end.

(** A pair whose escaped key holds neither an ampersand nor an equals sign
    and whose escaped value holds no ampersand, as it is with
    [url.QueryEscape]. *)
Definition well_escaped (escape : string → string) (p : string * string) : bool :=
  free_of "&" (escape p.1) && free_of "=" (escape p.1) && free_of "&" (escape p.2).

(** Every key of the values holds exactly one text. *)
Definition single_valued (v : gmap string (list string)) : Prop :=
  ∀ k xs, v !! k = Some xs → ∃ x, xs = [x].

(** No key of the values holds an empty text. *)
Definition no_empty_value (v : gmap string (list string)) : Prop :=
  ∀ k xs, v !! k = Some xs → "" ∉ xs.

Definition is_Send (e : Go.Effect) : bool :=
  match e with Go.Send _ => true | _ => false end.

Definition is_Fetch (e : TS.Effect) : bool :=
  match e with TS.Fetch _ => true | _ => false end.

Definition is_SetTimeout (e : TS.Effect) : bool :=
  match e with TS.SetTimeout _ => true | _ => false end.

(** The entries with a defined value, as the pairs of a query. *)
Definition defined_pairs (entries : list (string * option TS.Scalar))
  : list (string * string) :=
  omap (λ entry, (λ value, (entry.1, TS.String_of value)) <$> entry.2) entries.

(** The truthy ones among optional texts, as the pairs of a query. *)
Definition truthy_pairs (entries : list (string * option string))
  : list (string * string) :=
  omap (λ entry, if TS.truthy entry.2
                 then Some (entry.1, default "" entry.2) else None) entries.

(** The Go options that write the HTTP client or its timeout. *)
Definition sets_http (opt : Go.ClientOption) : bool :=
  match opt with
  | Go.WithHTTPClient _ | Go.WithTimeout _ => true
  | _ => false
  end.

(** A text that does not start with a decimal digit. *)
Definition no_digit_ahead (s : string) : bool :=
  match s with
  | String a _ => match Text.digit_value a with Some _ => false | None => true end
  | EmptyString => true
  end.

(** A text made of decimal digits only. *)
Fixpoint all_digits (s : string) : bool :=
  match s with
  | String a s' =>
      match Text.digit_value a with Some _ => true | None => false end
      && all_digits s'
  | EmptyString => true
  end.

(** ** The setting of the examples *)

Definition ts_client : TS.Client :=
  {| TS.apiKey := "ml-key-1";
     TS.baseUrl := TS.UrlString "https://api.meshlogic.ai";
     TS.timeout := 30000 |}.

(** [new URL(path, base)] for an absolute path without a query, under a
    base that is an origin. *)
Definition URL_of (path : string) (base : TS.BaseUrl) : TS.JsError + TS.URL :=
  match base with
  | TS.UrlString origin =>
      inr {| TS.location := origin +:+ path; TS.searchParams := [] |}
  | TS.PrototypeMember _ =>
      inl {| TS.is_Error := true; TS.err_name := "TypeError";
             TS.err_text := "TypeError: Invalid URL" |}
  end.

(** [new URL("/v1/events?cursor=abc", base)]. *)
Definition URL_with_cursor (path : string) (base : TS.BaseUrl) : TS.JsError + TS.URL :=
  inr {| TS.location := "https://api.meshlogic.ai/v1/events";
         TS.searchParams := [("cursor", "abc")] |}.

(** What [response.json()] rejects with on an empty body. *)
Definition not_json : TS.JsError :=
  {| TS.is_Error := true; TS.err_name := "SyntaxError";
     TS.err_text := "SyntaxError: Unexpected end of JSON input" |}.

(** A network on which every request gets the response [r]; the parsed
    values are named by their text. *)
Definition answers (r : TS.Response string) : TS.FetchInit → TS.Network string :=
  λ _, TS.Responds r.

Definition go_client : Go.Client :=
  {| Go.apiKey := "ml-key-1";
     Go.baseURL := "https://api.meshlogic.ai";
     Go.httpClient := Some {| Go.Timeout := 30 * Go.second |} |}.

(** [url.Parse] of an address without a query. *)
Definition go_Parse (address : string) : Go.LibError + Go.URL :=
  inr {| Go.location := address; Go.RawQuery := "" |}.

(** [url.QueryEscape] of a text made of letters and digits. *)
Definition go_escape (s : string) : string := s.

Definition go_valid (method : string) (u : Go.URL) : option Go.LibError := None.

Definition go_answers (resp : Go.Response)
  : Go.http_Client → Go.Request → Go.LibError + Go.Response :=
  λ _ _, inr resp.

Definition go_deadline : Go.LibError :=
  {| Go.lib_text := "context deadline exceeded (Client.Timeout exceeded while awaiting headers)";
     Go.lib_timeout := true |}.

(** An effect that is none of those listed. *)
Ltac not_listed :=
  let H := fresh "H" in
  intros H;
  repeat (apply elem_of_cons in H as [H|H]; [discriminate H|]);
  by apply elem_of_nil in H.

(** ** Facts about the text helpers *)

Section TextFacts.

Import Text.

Lemma append_cons (a : ascii) (s t : string) :
  String a s +:+ t = String a (s +:+ t).
Proof. reflexivity. Qed.

Lemma prefix_append (sub rest : string) :
  String.prefix sub (sub +:+ rest) = true.
Proof.
  induction sub as [|a sub IH].
  - by destruct rest.
  - rewrite append_cons. cbn [String.prefix].
    destruct (ascii_dec a a) as [_|Hne]; [exact IH | by destruct Hne].
Qed.

Lemma includes_prefix (sub s : string) :
  String.prefix sub s = true → includes sub s = true.
Proof. intros H. destruct s; cbn [includes]; by rewrite H. Qed.

Lemma includes_cons (sub : string) (a : ascii) (s : string) :
  includes sub s = true → includes sub (String a s) = true.
Proof. intros H. cbn [includes]. rewrite H. apply orb_true_r. Qed.

(** A text occurs in whatever is written around it. *)
Lemma includes_head (sub post : string) : includes sub (sub +:+ post) = true.
Proof. apply includes_prefix, prefix_append. Qed.

Lemma includes_after (pre sub s : string) :
  includes sub s = true → includes sub (pre +:+ s) = true.
Proof.
  intros H. induction pre as [|a pre IH]; [exact H|].
  rewrite append_cons. by apply includes_cons.
Qed.

Lemma includes_middle (pre sub post : string) :
  includes sub (pre +:+ sub +:+ post) = true.
Proof. apply includes_after, includes_head. Qed.

Lemma eqb_empty_false (s : string) : s ≠ "" → String.eqb s "" = false.
Proof. intros H. by apply String.eqb_neq. Qed.

End TextFacts.

(** ** The string form of the errors *)

(** C9, as stated, fails in TypeScript: a rate-limit error always has a
    code, and its string form leaves it out; so does the string form of a
    validation error. *)
Lemma string_form_without_code :
  (let e := TS.RateLimitError "Rate limit exceeded" (TS.Int 60) in
   TS.code e = Some "RATE_LIMIT" ∧
   TS.toString e = "Rate limit exceeded. Retry after 60 seconds." ∧
   Text.includes "RATE_LIMIT" (TS.toString e) = false) ∧
  (let e := TS.ValidationError "must be positive" (Some "limit") in
   TS.code e = Some "VALIDATION_ERROR" ∧
   Text.includes "VALIDATION_ERROR" (TS.toString e) = false).
Proof. vm_compute. repeat split. Qed.

(** C9, amended. TypeScript: the string form includes the code, when there
    is one, for the errors that keep the base string form (the base error,
    the authentication and the not-found error); the rate-limit error's
    string form is made of the message and the retry delay, and the
    validation error's of the message and, when known, the field, so that
    the one includes the delay and the other the field, and the code is no
    part of either. Go: the string form of an [Error] includes the code
    when it is not empty. *)
Theorem string_form_contents :
  (∀ e c, inherits_toString e = true → TS.code e = Some c → c ≠ "" →
     Text.includes c (TS.toString e) = true) ∧
  (∀ m r, Text.includes (TS.number_to_string r)
            (TS.toString (TS.RateLimitError m r)) = true) ∧
  (∀ m f, f ≠ "" →
     Text.includes f (TS.toString (TS.ValidationError m (Some f))) = true) ∧
  (∀ m r, TS.toString (TS.RateLimitError m r)
          = m +:+ ". Retry after " +:+ TS.number_to_string r +:+ " seconds.") ∧
  (∀ m f, TS.toString (TS.ValidationError m f)
          = match f with
            | Some field =>
                if String.eqb field ""
                then "Validation error: " +:+ m
                else "Validation error on field '" +:+ field +:+ "': " +:+ m
            | None => "Validation error: " +:+ m
            end) ∧
  (∀ e, Go.Code e ≠ "" →
     Text.includes (Go.Code e) (Go.Error_Error e) = true).
Proof.
  split; [|split; [|split; [|split; [|split]]]].
  - intros e c Hin Hc Hne.
    assert (TS.toString e = "[" +:+ c +:+ "] " +:+ TS.message e) as ->.
    { destruct e; try discriminate Hin; cbn [TS.toString];
        unfold TS.base_toString; rewrite Hc; cbn [TS.truthy default];
        by rewrite eqb_empty_false. }
    apply includes_middle.
  - intros m r. cbn [TS.toString].
    apply includes_after, includes_after, includes_head.
  - intros m f Hf. cbn [TS.toString TS.truthy default].
    rewrite eqb_empty_false by done. cbn [negb].
    apply includes_after, includes_head.
  - reflexivity.
  - intros m [field|]; cbn [TS.toString TS.truthy]; [|reflexivity].
    by destruct (String.eqb field "").
  - intros e Hne. unfold Go.Error_Error. rewrite eqb_empty_false by done.
    apply includes_middle.
Qed.

(** The amended C9 on a not-found error, a validation error and a Go
    error. *)
Lemma string_form_contents_witness :
  Text.includes "NOT_FOUND" (TS.toString (TS.NotFoundError "No such device")) = true ∧
  Text.includes "limit"
    (TS.toString (TS.ValidationError "must be positive" (Some "limit"))) = true ∧
  Text.includes "DEVICE_GONE"
    (Go.Error_Error {| Go.Code := "DEVICE_GONE"; Go.Message := "No such device";
                       Go.StatusCode := 404 |}) = true.
Proof.
  destruct string_form_contents as (Hts & _ & Hfield & _ & _ & Hgo).
  split; [|split].
  - apply (Hts (TS.NotFoundError "No such device") "NOT_FOUND");
      [reflexivity | reflexivity | discriminate].
  - apply (Hfield "must be positive" "limit"). discriminate.
  - apply (Hgo {| Go.Code := "DEVICE_GONE"; Go.Message := "No such device";
                  Go.StatusCode := 404 |}). discriminate.
Defined.

(** ** Construction: the API key *)

Lemma truthy_Some (s : string) : TS.truthy (Some s) = negb (String.eqb s "").
Proof. reflexivity. Qed.

Lemma truthy_or_else (a : option string) :
  TS.truthy (Some (TS.or_else a "")) = TS.truthy a.
Proof.
  destruct a as [s|]; [|reflexivity]. cbn [TS.or_else].
  destruct (String.eqb s "") eqn:E; cbn [TS.truthy]; by rewrite ?E.
Qed.

(** The key the TypeScript constructor settles on. *)
Lemma ts_constructor_key env cfg c effects :
  TS.constructor env cfg = (TS.Returns c, effects) → TS.apiKey c ≠ "".
Proof.
  unfold TS.constructor.
  destruct (TS.truthy (TS.cfg_apiKey cfg)) eqn:Hk.
  - destruct (TS.cfg_apiKey cfg) as [k|]; [|discriminate Hk].
    cbn [default from_option id]. rewrite Hk. cbn [negb]. intros [= <- _]. cbn.
    intros ->. discriminate Hk.
  - rewrite truthy_or_else.
    destruct (env !! "MESHLOGIC_API_KEY") as [k|] eqn:He; [|discriminate].
    cbn [TS.truthy TS.or_else].
    destruct (String.eqb k "") eqn:Ek; [discriminate|].
    cbn [negb]. intros [= <- _]. cbn. intros ->. discriminate Ek.
Qed.

Lemma go_NewClient_key env opts c effects :
  Go.NewClient env opts = (Go.Ok c, effects) → Go.apiKey c ≠ "".
Proof.
  unfold Go.NewClient.
  destruct (Go.apply_options opts Go.initial_client) as [c0|]; [|discriminate].
  destruct (String.eqb (Go.apiKey c0) "") eqn:E0.
  - cbn [Go.apiKey].
    destruct (String.eqb (default "" (env !! "MESHLOGIC_API_KEY")) "") eqn:E1;
      [discriminate|].
    intros [= <- _]. cbn. intros H. rewrite H in E1. discriminate E1.
  - rewrite E0. intros [= <- _]. intros H. rewrite H in E0. discriminate E0.
Qed.

(** C10: an empty API key counts as none. Construction with the key set to
    the empty string is construction without a key; the key then comes
    from MESHLOGIC_API_KEY, construction fails when that is unset or empty,
    and no client ever holds an empty key. *)
Theorem empty_api_key_is_absent :
  (∀ env region baseUrl timeout,
     TS.constructor env
       {| TS.cfg_apiKey := Some ""; TS.cfg_region := region;
          TS.cfg_baseUrl := baseUrl; TS.cfg_timeout := timeout |}
     = TS.constructor env
       {| TS.cfg_apiKey := None; TS.cfg_region := region;
          TS.cfg_baseUrl := baseUrl; TS.cfg_timeout := timeout |}) ∧
  (∀ env region baseUrl timeout k,
     env !! "MESHLOGIC_API_KEY" = Some k → k ≠ "" →
     ∃ c, (TS.constructor env
             {| TS.cfg_apiKey := Some ""; TS.cfg_region := region;
                TS.cfg_baseUrl := baseUrl; TS.cfg_timeout := timeout |}).1
          = TS.Returns c ∧ TS.apiKey c = k) ∧
  (∀ env region baseUrl timeout,
     env !! "MESHLOGIC_API_KEY" = None ∨ env !! "MESHLOGIC_API_KEY" = Some "" →
     (TS.constructor env
        {| TS.cfg_apiKey := Some ""; TS.cfg_region := region;
           TS.cfg_baseUrl := baseUrl; TS.cfg_timeout := timeout |}).1
     = TS.ThrowsSdk (TS.AuthenticationError TS.api_key_required)) ∧
  (∀ env cfg c effects,
     TS.constructor env cfg = (TS.Returns c, effects) → TS.apiKey c ≠ "") ∧
  (∀ env opts,
     Go.NewClient env (Go.WithAPIKey "" :: opts) = Go.NewClient env opts) ∧
  (∀ env opts c0 k,
     Go.apply_options opts Go.initial_client = Some c0 → Go.apiKey c0 = "" →
     env !! "MESHLOGIC_API_KEY" = Some k → k ≠ "" →
     (Go.NewClient env opts).1
     = Go.Ok {| Go.apiKey := k; Go.baseURL := Go.baseURL c0;
                Go.httpClient := Go.httpClient c0 |}) ∧
  (∀ env opts c0,
     Go.apply_options opts Go.initial_client = Some c0 → Go.apiKey c0 = "" →
     env !! "MESHLOGIC_API_KEY" = None ∨ env !! "MESHLOGIC_API_KEY" = Some "" →
     (Go.NewClient env opts).1
     = Go.Err (Go.PlainError {| Go.Code := "AUTH_ERROR";
                                Go.Message := Go.api_key_required;
                                Go.StatusCode := 0 |})) ∧
  (∀ env opts c effects,
     Go.NewClient env opts = (Go.Ok c, effects) → Go.apiKey c ≠ "").
Proof.
  split; [|split; [|split; [|split; [|split; [|split; [|split]]]]]].
  - reflexivity.
  - intros env region baseUrl timeout k Hk Hne.
    unfold TS.constructor. cbn [TS.cfg_apiKey TS.truthy String.eqb negb].
    rewrite Hk. cbn [TS.or_else TS.truthy].
    rewrite !(eqb_empty_false k) by done. cbn [negb]. eexists. split; reflexivity.
  - intros env region baseUrl timeout [H|H]; unfold TS.constructor;
      cbn [TS.cfg_apiKey TS.truthy String.eqb negb]; by rewrite H.
  - exact ts_constructor_key.
  - reflexivity.
  - intros env opts c0 k Hc0 Hempty Hk Hne. unfold Go.NewClient.
    rewrite Hc0, Hempty, Hk. cbn [String.eqb default from_option id Go.apiKey].
    by rewrite eqb_empty_false.
  - intros env opts c0 Hc0 Hempty [H|H]; unfold Go.NewClient;
      by rewrite Hc0, Hempty, H.
  - exact go_NewClient_key.
Qed.

(** C10 on an empty key with and without MESHLOGIC_API_KEY, in both
    variants. *)
Lemma empty_api_key_is_absent_witness :
  (∃ c, (TS.constructor {[ "MESHLOGIC_API_KEY" := "ml-key-1" ]}
           {| TS.cfg_apiKey := Some ""; TS.cfg_region := None;
              TS.cfg_baseUrl := None; TS.cfg_timeout := None |}).1
        = TS.Returns c ∧ TS.apiKey c = "ml-key-1") ∧
  (TS.constructor ∅
     {| TS.cfg_apiKey := Some ""; TS.cfg_region := Some "us-east-1";
        TS.cfg_baseUrl := None; TS.cfg_timeout := None |}).1
  = TS.ThrowsSdk (TS.AuthenticationError TS.api_key_required) ∧
  (Go.NewClient {[ "MESHLOGIC_API_KEY" := "ml-key-1" ]}
     [Go.WithRegion "eu-west-1"; Go.WithAPIKey ""]).1
  = Go.Ok {| Go.apiKey := "ml-key-1";
             Go.baseURL := "https://api.eu.meshlogic.ai";
             Go.httpClient := Some {| Go.Timeout := 30000000000 |} |} ∧
  (Go.NewClient {[ "MESHLOGIC_API_KEY" := "" ]} [Go.WithAPIKey ""]).1
  = Go.Err (Go.PlainError {| Go.Code := "AUTH_ERROR";
                             Go.Message := Go.api_key_required;
                             Go.StatusCode := 0 |}).
Proof.
  destruct empty_api_key_is_absent
    as (_ & Hts_env & Hts_fail & _ & _ & Hgo_env & Hgo_fail & _).
  split; [|split; [|split]].
  - apply Hts_env; [reflexivity | discriminate].
  - apply Hts_fail. left. reflexivity.
  - apply (Hgo_env _ _ {| Go.apiKey := ""; Go.baseURL := "https://api.eu.meshlogic.ai";
                          Go.httpClient := Some {| Go.Timeout := 30000000000 |} |});
      [reflexivity | reflexivity | reflexivity | discriminate].
  - apply (Hgo_fail _ _ Go.initial_client); [reflexivity | reflexivity |].
    right. reflexivity.
Defined.

(** ** Construction without a key *)

(** Options that write no key but an empty one leave an empty key
    empty. *)
Lemma apply_options_keeps_key opts c c' :
  (∀ k, Go.WithAPIKey k ∈ opts → k = "") →
  Go.apiKey c = "" →
  Go.apply_options opts c = Some c' → Go.apiKey c' = "".
Proof.
  revert c. induction opts as [|opt opts IH]; intros c Hno Hc; cbn [Go.apply_options].
  - by intros [= <-].
  - destruct (Go.apply_option opt c) as [c1|] eqn:H1; [|discriminate].
    apply IH; [intros k Hk; apply Hno; by right|].
    destruct opt as [k|r|u|h|t|]; cbn [Go.apply_option] in H1.
    + injection H1 as <-. cbn. apply Hno. by left.
    + destruct (Go.endpoints !! r); by injection H1 as <-.
    + by injection H1 as <-.
    + by injection H1 as <-.
    + destruct (Go.httpClient c); [by injection H1 as <-|discriminate].
    + discriminate.
Qed.

(** Construction sends nothing, whatever its outcome. *)
Lemma ts_constructor_offline env cfg init :
  TS.Fetch init ∉ (TS.constructor env cfg).2.
Proof.
  unfold TS.constructor.
  destruct (TS.truthy (TS.cfg_apiKey cfg));
    match goal with |- context [if negb ?b then _ else _] => destruct b end;
    cbn; not_listed.
Qed.

Lemma go_NewClient_offline env opts req :
  Go.Send req ∉ (Go.NewClient env opts).2.
Proof.
  unfold Go.NewClient.
  destruct (Go.apply_options opts Go.initial_client) as [c|]; [|cbn; not_listed].
  destruct (String.eqb (Go.apiKey c) "") eqn:E.
  - match goal with |- context [if ?b then _ else _] => destruct b end;
      cbn; not_listed.
  - rewrite E. cbn. not_listed.
Qed.

(** C4, as stated, fails in Go: without a key [NewClient] returns a bare
    [Error] with the code AUTH_ERROR, a value of the type *Error and not of
    the type *AuthenticationError. *)
Lemma go_missing_key_error_type :
  ∃ err,
    (Go.NewClient ∅ []).1 = Go.Err err ∧
    err = Go.PlainError {| Go.Code := "AUTH_ERROR";
                           Go.Message := Go.api_key_required;
                           Go.StatusCode := 0 |} ∧
    go_type err = "*Error" ∧ go_type err ≠ "*AuthenticationError".
Proof. eexists. split; [reflexivity|]. split; [reflexivity|]. by split. Qed.

(** C4, amended: with no key in the configuration, or only an empty one,
    and MESHLOGIC_API_KEY unset or empty, construction fails without
    returning a client or sending anything: the TypeScript constructor
    throws an AuthenticationError, and Go's [NewClient], once the options
    have run, returns a bare [Error] with the code AUTH_ERROR. In Go it is
    the key the options leave that counts: construction fails in this way
    whenever that key is empty. *)
Theorem construction_without_key :
  (∀ env cfg,
     TS.truthy (TS.cfg_apiKey cfg) = false →
     TS.truthy (env !! "MESHLOGIC_API_KEY") = false →
     TS.constructor env cfg
     = (TS.ThrowsSdk (TS.AuthenticationError TS.api_key_required),
        [TS.ReadEnv "MESHLOGIC_API_KEY"])) ∧
  (∀ env opts c0,
     (∀ k, Go.WithAPIKey k ∈ opts → k = "") →
     Go.apply_options opts Go.initial_client = Some c0 →
     env !! "MESHLOGIC_API_KEY" = None ∨ env !! "MESHLOGIC_API_KEY" = Some "" →
     Go.NewClient env opts
     = (Go.Err (Go.PlainError {| Go.Code := "AUTH_ERROR";
                                 Go.Message := Go.api_key_required;
                                 Go.StatusCode := 0 |}),
        [Go.Getenv "MESHLOGIC_API_KEY"])) ∧
  (∀ env opts c0,
     Go.apply_options opts Go.initial_client = Some c0 →
     Go.apiKey c0 = "" →
     env !! "MESHLOGIC_API_KEY" = None ∨ env !! "MESHLOGIC_API_KEY" = Some "" →
     Go.NewClient env opts
     = (Go.Err (Go.PlainError {| Go.Code := "AUTH_ERROR";
                                 Go.Message := Go.api_key_required;
                                 Go.StatusCode := 0 |}),
        [Go.Getenv "MESHLOGIC_API_KEY"])) ∧
  (∀ env cfg init, TS.Fetch init ∉ (TS.constructor env cfg).2) ∧
  (∀ env opts req, Go.Send req ∉ (Go.NewClient env opts).2).
Proof.
  assert (Hgo : ∀ env opts c0,
            Go.apply_options opts Go.initial_client = Some c0 →
            Go.apiKey c0 = "" →
            env !! "MESHLOGIC_API_KEY" = None ∨ env !! "MESHLOGIC_API_KEY" = Some "" →
            Go.NewClient env opts
            = (Go.Err (Go.PlainError {| Go.Code := "AUTH_ERROR";
                                        Go.Message := Go.api_key_required;
                                        Go.StatusCode := 0 |}),
               [Go.Getenv "MESHLOGIC_API_KEY"])).
  { intros env opts c0 Hc0 Hkey He. unfold Go.NewClient. rewrite Hc0, Hkey.
    by destruct He as [-> | ->]. }
  split; [|split; [|split; [|split]]].
  - intros env cfg Hk He. unfold TS.constructor.
    rewrite Hk, truthy_or_else, He. reflexivity.
  - intros env opts c0 Hno Hc0 He. apply (Hgo env opts c0 Hc0); [|exact He].
    by apply (apply_options_keeps_key opts Go.initial_client).
  - exact Hgo.
  - exact ts_constructor_offline.
  - exact go_NewClient_offline.
Qed.

(** The amended C4 on a configuration that names only a region, on an
    empty key beside an empty MESHLOGIC_API_KEY, and on a key that a later
    option empties. *)
Lemma construction_without_key_witness :
  TS.constructor ∅
    {| TS.cfg_apiKey := None; TS.cfg_region := Some "eu-west-1";
       TS.cfg_baseUrl := None; TS.cfg_timeout := None |}
  = (TS.ThrowsSdk (TS.AuthenticationError TS.api_key_required),
     [TS.ReadEnv "MESHLOGIC_API_KEY"]) ∧
  TS.constructor {[ "MESHLOGIC_API_KEY" := "" ]}
    {| TS.cfg_apiKey := Some ""; TS.cfg_region := None;
       TS.cfg_baseUrl := None; TS.cfg_timeout := None |}
  = (TS.ThrowsSdk (TS.AuthenticationError TS.api_key_required),
     [TS.ReadEnv "MESHLOGIC_API_KEY"]) ∧
  Go.NewClient ∅ [Go.WithRegion "eu-west-1"]
  = (Go.Err (Go.PlainError {| Go.Code := "AUTH_ERROR";
                              Go.Message := Go.api_key_required;
                              Go.StatusCode := 0 |}),
     [Go.Getenv "MESHLOGIC_API_KEY"]) ∧
  Go.NewClient {[ "MESHLOGIC_API_KEY" := "" ]}
    [Go.WithAPIKey ""; Go.WithRegion "eu-west-1"]
  = (Go.Err (Go.PlainError {| Go.Code := "AUTH_ERROR";
                              Go.Message := Go.api_key_required;
                              Go.StatusCode := 0 |}),
     [Go.Getenv "MESHLOGIC_API_KEY"]) ∧
  Go.NewClient ∅ [Go.WithAPIKey "ml-key-1"; Go.WithAPIKey ""]
  = (Go.Err (Go.PlainError {| Go.Code := "AUTH_ERROR";
                              Go.Message := Go.api_key_required;
                              Go.StatusCode := 0 |}),
     [Go.Getenv "MESHLOGIC_API_KEY"]).
Proof.
  destruct construction_without_key as (Hts & Hgo & Hleft & _).
  split; [|split; [|split; [|split]]].
  - apply Hts; reflexivity.
  - apply Hts; reflexivity.
  - apply (Hgo ∅ [Go.WithRegion "eu-west-1"]
             {| Go.apiKey := ""; Go.baseURL := "https://api.eu.meshlogic.ai";
                Go.httpClient := Some {| Go.Timeout := 30000000000 |} |}).
    + intros k Hk. apply list_elem_of_singleton in Hk. discriminate Hk.
    + reflexivity.
    + left. reflexivity.
  - apply (Hgo {[ "MESHLOGIC_API_KEY" := "" ]}
             [Go.WithAPIKey ""; Go.WithRegion "eu-west-1"]
             {| Go.apiKey := ""; Go.baseURL := "https://api.eu.meshlogic.ai";
                Go.httpClient := Some {| Go.Timeout := 30000000000 |} |}).
    + intros k Hk. apply elem_of_cons in Hk as [Hk|Hk]; [by injection Hk|].
      apply list_elem_of_singleton in Hk. discriminate Hk.
    + reflexivity.
    + right. reflexivity.
  - apply (Hleft ∅ [Go.WithAPIKey "ml-key-1"; Go.WithAPIKey ""]
             {| Go.apiKey := ""; Go.baseURL := "https://api.meshlogic.ai";
                Go.httpClient := Some {| Go.Timeout := 30000000000 |} |}).
    + reflexivity.
    + reflexivity.
    + left. reflexivity.
Defined.

(** ** Construction: the base URL *)

Lemma apply_options_app opts1 opts2 c :
  Go.apply_options (opts1 ++ opts2) c
  = Go.apply_options opts1 c ≫= Go.apply_options opts2.
Proof.
  revert c. induction opts1 as [|opt opts1 IH]; intros c; [reflexivity|].
  cbn [app Go.apply_options].
  destruct (Go.apply_option opt c) as [c1|]; [apply IH | reflexivity].
Qed.

Lemma apply_option_keeps_url opt c c' :
  sets_url opt = false →
  Go.apply_option opt c = Some c' → Go.baseURL c' = Go.baseURL c.
Proof.
  destruct opt as [k|r|u|h|t|]; cbn [sets_url Go.apply_option]; intros Hs H.
  - by injection H as <-.
  - destruct (Go.endpoints !! r) as [u|] eqn:Hr.
    + apply bool_decide_eq_false in Hs. destruct Hs. by exists u.
    + by injection H as <-.
  - discriminate Hs.
  - by injection H as <-.
  - destruct (Go.httpClient c); [by injection H as <-|discriminate].
  - discriminate H.
Qed.

Lemma apply_options_keeps_url opts c c' :
  Forall (λ opt, sets_url opt = false) opts →
  Go.apply_options opts c = Some c' → Go.baseURL c' = Go.baseURL c.
Proof.
  intros Hall. revert c.
  induction Hall as [|opt opts Hopt _ IH]; intros c; cbn [Go.apply_options].
  - by intros [= <-].
  - destruct (Go.apply_option opt c) as [c1|] eqn:H1; [|discriminate].
    intros H. rewrite (IH _ H). by apply apply_option_keeps_url with opt.
Qed.

(** The option that wrote the base URL last decides it. *)
Lemma apply_options_last_url before opt after c c' u :
  (∀ c0 c1, Go.apply_option opt c0 = Some c1 → Go.baseURL c1 = u) →
  Forall (λ opt, sets_url opt = false) after →
  Go.apply_options (before ++ opt :: after) c = Some c' →
  Go.baseURL c' = u.
Proof.
  intros Hopt Hafter. rewrite apply_options_app.
  destruct (Go.apply_options before c) as [c0|]; [|discriminate].
  cbn [mbind option_bind Go.apply_options].
  destruct (Go.apply_option opt c0) as [c1|] eqn:H1; [|discriminate].
  intros H. rewrite (apply_options_keeps_url _ _ _ Hafter H). by apply Hopt with c0.
Qed.

(** C5, as stated, fails. In Go a [WithRegion] after a [WithBaseURL]
    replaces the explicit URL, and an unknown region keeps the URL an
    earlier option chose instead of the default region's. In TypeScript a
    region named like a member of [Object.prototype] is found there. *)
Lemma base_url_precedence_broken :
  (∃ c effects,
     Go.NewClient ∅
       [Go.WithAPIKey "ml-key-1"; Go.WithBaseURL "http://localhost:8080";
        Go.WithRegion "us-east-1"] = (Go.Ok c, effects) ∧
     Go.baseURL c = "https://api.us.meshlogic.ai") ∧
  (∃ c effects,
     Go.NewClient ∅
       [Go.WithAPIKey "ml-key-1"; Go.WithRegion "us-east-1";
        Go.WithRegion "mars-1"] = (Go.Ok c, effects) ∧
     Go.endpoints !! "mars-1" = None ∧
     Go.baseURL c = "https://api.us.meshlogic.ai") ∧
  (∃ c effects,
     TS.constructor ∅
       {| TS.cfg_apiKey := Some "ml-key-1"; TS.cfg_region := Some "constructor";
          TS.cfg_baseUrl := None; TS.cfg_timeout := None |}
     = (TS.Returns c, effects) ∧
     TS.ENDPOINTS !! "constructor" = None ∧
     TS.baseUrl c = TS.PrototypeMember "constructor").
Proof.
  split; [|split]; eexists _, _; repeat split; reflexivity.
Qed.

(** C5, amended. The table of regions has three entries in both variants.
    TypeScript: a non-empty [baseUrl] wins over any region; without one the
    region ([ap-southeast-2] when none is given) is looked up in the table,
    and a region that is neither in the table nor a member of
    [Object.prototype] gives the URL of [ap-southeast-2]. Go: options apply
    in order, so the base URL is that of the last [WithBaseURL] or
    [WithRegion] of a known region; [WithRegion] of an unknown region
    changes nothing, and with no such option the URL is that of
    [ap-southeast-2]. *)
Theorem base_url_resolution :
  size TS.ENDPOINTS = 3%nat ∧ size Go.endpoints = 3%nat ∧
  TS.ENDPOINTS !! "ap-southeast-2" = Some "https://api.meshlogic.ai" ∧
  Go.endpoints !! "ap-southeast-2" = Some "https://api.meshlogic.ai" ∧
  (∀ env cfg c effects u,
     TS.constructor env cfg = (TS.Returns c, effects) →
     TS.cfg_baseUrl cfg = Some u → u ≠ "" →
     TS.baseUrl c = TS.UrlString u) ∧
  (∀ env cfg c effects u,
     TS.constructor env cfg = (TS.Returns c, effects) →
     TS.truthy (TS.cfg_baseUrl cfg) = false →
     TS.ENDPOINTS !! TS.or_else (TS.cfg_region cfg) "ap-southeast-2" = Some u →
     TS.baseUrl c = TS.UrlString u) ∧
  (∀ env cfg c effects,
     TS.constructor env cfg = (TS.Returns c, effects) →
     TS.truthy (TS.cfg_baseUrl cfg) = false →
     TS.ENDPOINTS !! TS.or_else (TS.cfg_region cfg) "ap-southeast-2" = None →
     TS.or_else (TS.cfg_region cfg) "ap-southeast-2" ∉ TS.Object_prototype →
     TS.baseUrl c = TS.UrlString "https://api.meshlogic.ai") ∧
  (∀ before u after c,
     Forall (λ opt, sets_url opt = false) after →
     Go.apply_options (before ++ Go.WithBaseURL u :: after) Go.initial_client
     = Some c →
     Go.baseURL c = u) ∧
  (∀ before region u after c,
     Go.endpoints !! region = Some u →
     Forall (λ opt, sets_url opt = false) after →
     Go.apply_options (before ++ Go.WithRegion region :: after) Go.initial_client
     = Some c →
     Go.baseURL c = u) ∧
  (∀ opts c,
     Forall (λ opt, sets_url opt = false) opts →
     Go.apply_options opts Go.initial_client = Some c →
     Go.baseURL c = "https://api.meshlogic.ai").
Proof.
  assert (Hbase : ∀ env cfg c effects,
            TS.constructor env cfg = (TS.Returns c, effects) →
            TS.baseUrl c =
              if TS.truthy (TS.cfg_baseUrl cfg)
              then TS.UrlString (default "" (TS.cfg_baseUrl cfg))
              else match TS.endpoint (TS.or_else (TS.cfg_region cfg) "ap-southeast-2") with
                   | Some u => u
                   | None => TS.UrlString "https://api.meshlogic.ai"
                   end).
  { intros env cfg c effects. unfold TS.constructor.
    destruct (TS.truthy (TS.cfg_apiKey cfg));
      match goal with |- context [if negb ?b then _ else _] => destruct b end;
      cbn [negb]; try discriminate; by intros [= <- _]. }
  split; [reflexivity|]. split; [reflexivity|].
  split; [reflexivity|]. split; [reflexivity|].
  split; [|split; [|split; [|split; [|split]]]].
  - intros env cfg c effects u Hc Hu Hne. rewrite (Hbase _ _ _ _ Hc), Hu.
    cbn [TS.truthy]. by rewrite eqb_empty_false.
  - intros env cfg c effects u Hc Hb Hr. rewrite (Hbase _ _ _ _ Hc), Hb.
    unfold TS.endpoint. by rewrite Hr.
  - intros env cfg c effects Hc Hb Hr Hproto. rewrite (Hbase _ _ _ _ Hc), Hb.
    unfold TS.endpoint. rewrite Hr. by rewrite bool_decide_eq_false_2.
  - intros before u after c Hafter. apply apply_options_last_url; [|exact Hafter].
    cbn [Go.apply_option]. by intros c0 c1 [= <-].
  - intros before region u after c Hr Hafter.
    apply apply_options_last_url; [|exact Hafter].
    cbn [Go.apply_option]. rewrite Hr. by intros c0 c1 [= <-].
  - intros opts c Hall H. by rewrite (apply_options_keeps_url _ _ _ Hall H).
Qed.

(** The amended C5 on an explicit URL next to a region, and on an unknown
    region. *)
Lemma base_url_resolution_witness :
  (∃ c effects,
     TS.constructor ∅
       {| TS.cfg_apiKey := Some "ml-key-1"; TS.cfg_region := Some "us-east-1";
          TS.cfg_baseUrl := Some "http://localhost:8080"; TS.cfg_timeout := None |}
     = (TS.Returns c, effects) ∧
     TS.baseUrl c = TS.UrlString "http://localhost:8080") ∧
  (∃ c effects,
     TS.constructor ∅
       {| TS.cfg_apiKey := Some "ml-key-1"; TS.cfg_region := Some "mars-1";
          TS.cfg_baseUrl := None; TS.cfg_timeout := None |}
     = (TS.Returns c, effects) ∧
     TS.baseUrl c = TS.UrlString "https://api.meshlogic.ai") ∧
  Go.baseURL
    {| Go.apiKey := "ml-key-1"; Go.baseURL := "http://localhost:8080";
       Go.httpClient := Some {| Go.Timeout := 30000000000 |} |}
  = "http://localhost:8080" ∧
  Go.baseURL
    {| Go.apiKey := "ml-key-1"; Go.baseURL := "https://api.meshlogic.ai";
       Go.httpClient := Some {| Go.Timeout := 30000000000 |} |}
  = "https://api.meshlogic.ai".
Proof.
  destruct base_url_resolution
    as (_ & _ & _ & _ & Hexplicit & _ & Hunknown & Hlast & _ & Hnone).
  assert (Hc1 : TS.constructor ∅
       {| TS.cfg_apiKey := Some "ml-key-1"; TS.cfg_region := Some "us-east-1";
          TS.cfg_baseUrl := Some "http://localhost:8080"; TS.cfg_timeout := None |}
     = (TS.Returns {| TS.apiKey := "ml-key-1";
                      TS.baseUrl := TS.UrlString "http://localhost:8080";
                      TS.timeout := 30000 |}, [])) by reflexivity.
  assert (Hc2 : TS.constructor ∅
       {| TS.cfg_apiKey := Some "ml-key-1"; TS.cfg_region := Some "mars-1";
          TS.cfg_baseUrl := None; TS.cfg_timeout := None |}
     = (TS.Returns {| TS.apiKey := "ml-key-1";
                      TS.baseUrl := TS.UrlString "https://api.meshlogic.ai";
                      TS.timeout := 30000 |}, [])) by reflexivity.
  split; [|split; [|split]].
  - eexists _, _. split; [exact Hc1|].
    apply (Hexplicit _ _ _ _ "http://localhost:8080" Hc1); [reflexivity | discriminate].
  - eexists _, _. split; [exact Hc2|].
    apply (Hunknown _ _ _ _ Hc2); [reflexivity | reflexivity |].
    apply (bool_decide_eq_false _). vm_compute. reflexivity.
  - apply (Hlast [Go.WithRegion "us-east-1"] "http://localhost:8080"
             [Go.WithAPIKey "ml-key-1"; Go.WithRegion "mars-1"]).
    + repeat constructor.
    + reflexivity.
  - apply (Hnone [Go.WithAPIKey "ml-key-1"; Go.WithRegion "mars-1"]).
    + repeat constructor.
    + reflexivity.
Defined.

(** ** One request *)

Section Requests.

Context {Json : Type}.
Variable URL_new : string → TS.BaseUrl → TS.JsError + TS.URL.
Variable network : TS.FetchInit → TS.Network Json.
Variable url_Parse : string → Go.LibError + Go.URL.
Variable QueryEscape : string → string.
Variable NewRequest_error : string → Go.URL → option Go.LibError.
Variable Do : Go.http_Client → Go.Request → Go.LibError + Go.Response.

(** *** How a TypeScript request goes, by what the network does *)

Lemma ts_request_responds c method path params body url r :
  TS.build_url URL_new c path params = inr url →
  (∀ e, body ≠ TS.BodyThrows e) →
  network (TS.fetch_init c method url (TS.sent_text body)) = TS.Responds r →
  TS.request URL_new network c method path params body
  = let init := TS.fetch_init c method url (TS.sent_text body) in
    if negb (TS.ok r)
    then (TS.catch (TS.classify path r),
          [TS.SetTimeout (TS.timeout c); TS.Fetch init; TS.ClearTimeout;
           TS.ClearTimeout])
    else (match TS.json r with
          | inl e => TS.ThrowsJs e
          | inr p => TS.Returns (TS.p_value p)
          end,
          [TS.SetTimeout (TS.timeout c); TS.Fetch init; TS.ClearTimeout]).
Proof.
  intros Hurl Hbody Hnet. unfold TS.request. rewrite Hurl.
  destruct body as [|text|e]; [| |by destruct (Hbody e)];
    cbn [TS.sent_text] in *; by rewrite Hnet.
Qed.

Lemma ts_request_silent c method path params body url :
  TS.build_url URL_new c path params = inr url →
  (∀ e, body ≠ TS.BodyThrows e) →
  network (TS.fetch_init c method url (TS.sent_text body)) = TS.Silent →
  TS.request URL_new network c method path params body
  = (TS.ThrowsSdk (TS.BaseError "Request timeout" (Some "TIMEOUT") None),
     [TS.SetTimeout (TS.timeout c);
      TS.Fetch (TS.fetch_init c method url (TS.sent_text body));
      TS.Abort; TS.ClearTimeout]).
Proof.
  intros Hurl Hbody Hnet. unfold TS.request. rewrite Hurl.
  destruct body as [|text|e]; [| |by destruct (Hbody e)];
    cbn [TS.sent_text] in *; by rewrite Hnet.
Qed.

Lemma ts_request_breaks c method path params body url e :
  TS.build_url URL_new c path params = inr url →
  (∀ e, body ≠ TS.BodyThrows e) →
  network (TS.fetch_init c method url (TS.sent_text body)) = TS.Breaks e →
  TS.request URL_new network c method path params body
  = (TS.catch (inr e),
     [TS.SetTimeout (TS.timeout c);
      TS.Fetch (TS.fetch_init c method url (TS.sent_text body));
      TS.ClearTimeout]).
Proof.
  intros Hurl Hbody Hnet. unfold TS.request. rewrite Hurl.
  destruct body as [|text|e']; [| |by destruct (Hbody e')];
    cbn [TS.sent_text] in *; by rewrite Hnet.
Qed.

(** A status of 400 or more is not [ok]. *)
Lemma ts_not_ok (r : TS.Response Json) : 400 ≤ TS.status r → TS.ok r = false.
Proof. intros H. unfold TS.ok. apply andb_false_iff. right. lia. Qed.

(** *** How a Go request goes, once the response is there *)

Lemma go_request_responds c method path params body req h resp payload :
  Go.build_request url_Parse QueryEscape NewRequest_error c method path params body
  = inr req →
  Go.httpClient c = Some h →
  Do h req = inr resp →
  Go.Body resp = inr payload →
  Go.request url_Parse QueryEscape NewRequest_error Do c method path params body
  = (if Go.Status resp >=? 400
     then Go.status_switch payload resp
     else Go.Ok (Go.raw payload),
     [Go.Send req; Go.Close]).
Proof.
  intros Hreq Hh Hdo Hbody. unfold Go.request.
  rewrite Hreq, Hh, Hdo, Hbody. by destruct (Go.Status resp >=? 400).
Qed.

(** The default case of the [switch]. *)
Lemma status_switch_default payload resp :
  Go.Status resp ≠ 401 → Go.Status resp ≠ 404 → Go.Status resp ≠ 429 →
  Go.status_switch payload resp
  = Go.Err (Go.PlainError (Go.apiErr payload resp)).
Proof.
  intros H1 H2 H3. unfold Go.status_switch.
  by rewrite (proj2 (Z.eqb_neq _ _) H1), (proj2 (Z.eqb_neq _ _) H2),
       (proj2 (Z.eqb_neq _ _) H3).
Qed.


(** *** Fallback messages (C7) *)


(** *** Status 400 and above (C1) *)

Lemma or_else_present (a : option string) (b m : string) :
  a = Some m → m ≠ "" → TS.or_else a b = m.
Proof. intros -> Hm. cbn [TS.or_else]. by rewrite eqb_empty_false. Qed.

(** The TypeScript error for a status of 400 or more, the body being
    anything but [null]. *)
Lemma ts_error_mapping c method path params body url r d :
  TS.build_url URL_new c path params = inr url →
  (∀ e, body ≠ TS.BodyThrows e) →
  network (TS.fetch_init c method url (TS.sent_text body)) = TS.Responds r →
  400 ≤ TS.status r →
  TS.errorData_of r = Some d →
  ∃ e, (TS.request URL_new network c method path params body).1 = TS.ThrowsSdk e ∧
       TS.name e = ts_class_of_status (TS.status r) ∧
       TS.statusCode e = Some (TS.status r) ∧
       (∀ m, TS.d_message d = Some m → m ≠ "" → TS.message e = m) ∧
       (TS.status r = 401 → TS.code e = Some "AUTH_ERROR") ∧
       (TS.status r = 404 → TS.code e = Some "NOT_FOUND") ∧
       (TS.status r = 429 → TS.code e = Some "RATE_LIMIT") ∧
       (TS.status r ≠ 401 → TS.status r ≠ 404 → TS.status r ≠ 429 →
        TS.code e = Some (TS.or_else (TS.d_code d) "UNKNOWN") ∧
        TS.message e = TS.or_else (TS.d_message d) "Unknown error").
Proof.
  intros Hurl Hbody Hnet Hs Hd.
  rewrite (ts_request_responds _ _ _ _ _ _ _ Hurl Hbody Hnet), ts_not_ok by done.
  cbn [negb fst]. unfold TS.classify, ts_class_of_status. rewrite Hd.
  destruct (TS.status r =? 401) eqn:E1;
    [|destruct (TS.status r =? 404) eqn:E2;
      [|destruct (TS.status r =? 429) eqn:E3]];
    cbn [TS.catch]; eexists; (split; [reflexivity|]);
    cbn [TS.name TS.statusCode TS.message TS.code];
    repeat match goal with
           | H : (_ =? _) = true |- _ => apply Z.eqb_eq in H
           | H : (_ =? _) = false |- _ => apply Z.eqb_neq in H
           end;
    repeat split; try congruence; try lia;
    try (intros m Hm Hne; by apply or_else_present).
Qed.

(** The Go error for a status of 400 or more that the [switch] does not
    name. *)
Lemma go_error_mapping c method path params body req h resp payload :
  Go.build_request url_Parse QueryEscape NewRequest_error c method path params body
  = inr req →
  Go.httpClient c = Some h →
  Do h req = inr resp →
  Go.Body resp = inr payload →
  400 ≤ Go.Status resp →
  Go.Status resp ≠ 401 → Go.Status resp ≠ 404 → Go.Status resp ≠ 429 →
  ∃ e,
    (Go.request url_Parse QueryEscape NewRequest_error Do c method path params body).1
    = Go.Err (Go.PlainError e) ∧
    Go.StatusCode e = Go.Status resp ∧
    (∀ code message, Go.as_Error payload = Some (code, message) →
       Go.Code e = code ∧ Go.Message e = message) ∧
    (Go.as_Error payload = None →
       Go.Code e = "UNKNOWN" ∧ Go.Message e = Go.raw payload).
Proof.
  intros Hreq Hh Hdo Hbody Hs H1 H2 H3.
  rewrite (go_request_responds _ _ _ _ _ _ _ _ _ Hreq Hh Hdo Hbody).
  assert ((Go.Status resp >=? 400) = true) as -> by lia.
  cbn [fst]. rewrite status_switch_default by done.
  eexists. split; [reflexivity|]. unfold Go.apiErr. cbn [Go.StatusCode Go.Code Go.Message].
  split; [reflexivity|].
  split; [intros code message -> | intros ->]; by split.
Qed.

(** C1, amended. TypeScript: for a response with a status of 400 or more
    the error kind follows the exact status (401, 404, 429, anything else)
    and the error carries that status; the body not being [null], the
    message is the body's when it has a non-empty one; the code is
    AUTH_ERROR, NOT_FOUND or RATE_LIMIT for 401, 404 and 429 whatever the
    body says, and for any other status the body's code, or UNKNOWN without
    one, the message then falling back to "Unknown error". Go: for a status
    of 400 or more other than 401, 404 and 429 the error is an [Error] that
    carries the status; its code and message are those of the body when it
    decodes, and otherwise UNKNOWN and the raw body. *)
Theorem error_mapping :
  (∀ c method path params body url r d,
     TS.build_url URL_new c path params = inr url →
     (∀ e, body ≠ TS.BodyThrows e) →
     network (TS.fetch_init c method url (TS.sent_text body)) = TS.Responds r →
     400 ≤ TS.status r →
     TS.errorData_of r = Some d →
     ∃ e, (TS.request URL_new network c method path params body).1 = TS.ThrowsSdk e ∧
          TS.name e = ts_class_of_status (TS.status r) ∧
          TS.statusCode e = Some (TS.status r) ∧
          (∀ m, TS.d_message d = Some m → m ≠ "" → TS.message e = m) ∧
          (TS.status r = 401 → TS.code e = Some "AUTH_ERROR") ∧
          (TS.status r = 404 → TS.code e = Some "NOT_FOUND") ∧
          (TS.status r = 429 → TS.code e = Some "RATE_LIMIT") ∧
          (TS.status r ≠ 401 → TS.status r ≠ 404 → TS.status r ≠ 429 →
           TS.code e = Some (TS.or_else (TS.d_code d) "UNKNOWN") ∧
           TS.message e = TS.or_else (TS.d_message d) "Unknown error")) ∧
  (∀ c method path params body req h resp payload,
     Go.build_request url_Parse QueryEscape NewRequest_error c method path params body
     = inr req →
     Go.httpClient c = Some h →
     Do h req = inr resp →
     Go.Body resp = inr payload →
     400 ≤ Go.Status resp →
     Go.Status resp ≠ 401 → Go.Status resp ≠ 404 → Go.Status resp ≠ 429 →
     ∃ e,
       (Go.request url_Parse QueryEscape NewRequest_error Do c method path params body).1
       = Go.Err (Go.PlainError e) ∧
       Go.StatusCode e = Go.Status resp ∧
       (∀ code message, Go.as_Error payload = Some (code, message) →
          Go.Code e = code ∧ Go.Message e = message) ∧
       (Go.as_Error payload = None →
          Go.Code e = "UNKNOWN" ∧ Go.Message e = Go.raw payload)).
Proof.
  split; [exact ts_error_mapping | exact go_error_mapping].
Qed.

(** *** Status below 400 (C8) *)

(** C8, amended. Go: a response with a status below 400 whose body was read
    makes [request] return the raw bytes. TypeScript: a response with a
    status from 200 to 299 makes [request] settle as [response.json()]
    does, with the parsed value or with the parser's own error, which is
    not one of the SDK's; any other status, 300 to 399 included, goes
    through the error classification and ends in one of the SDK's errors. *)
Theorem status_below_400 :
  (∀ c method path params body req h resp payload,
     Go.build_request url_Parse QueryEscape NewRequest_error c method path params body
     = inr req →
     Go.httpClient c = Some h →
     Do h req = inr resp →
     Go.Body resp = inr payload →
     Go.Status resp < 400 →
     Go.request url_Parse QueryEscape NewRequest_error Do c method path params body
     = (Go.Ok (Go.raw payload), [Go.Send req; Go.Close])) ∧
  (∀ c method path params body url r,
     TS.build_url URL_new c path params = inr url →
     (∀ e, body ≠ TS.BodyThrows e) →
     network (TS.fetch_init c method url (TS.sent_text body)) = TS.Responds r →
     (200 ≤ TS.status r ≤ 299 →
      (TS.request URL_new network c method path params body).1
      = match TS.json r with
        | inl e => TS.ThrowsJs e
        | inr p => TS.Returns (TS.p_value p)
        end) ∧
     (¬ 200 ≤ TS.status r ≤ 299 →
      ∃ e, (TS.request URL_new network c method path params body).1
           = TS.ThrowsSdk e)).
Proof.
  split.
  - intros c method path params body req h resp payload Hreq Hh Hdo Hbody Hs.
    rewrite (go_request_responds _ _ _ _ _ _ _ _ _ Hreq Hh Hdo Hbody).
    by assert ((Go.Status resp >=? 400) = false) as -> by lia.
  - intros c method path params body url r Hurl Hbody Hnet.
    rewrite (ts_request_responds _ _ _ _ _ _ _ Hurl Hbody Hnet).
    split; intros Hs.
    + assert (TS.ok r = true) as -> by (unfold TS.ok; lia). reflexivity.
    + assert (TS.ok r = false) as -> by (unfold TS.ok; lia).
      cbn [negb fst]. destruct (TS.classify path r) as [e|e]; cbn [TS.catch].
      * by eexists.
      * destruct (TS.is_Error e && String.eqb (TS.err_name e) "AbortError");
          by eexists.
Qed.

(** *** No response (C3) *)

(** C3, amended. TypeScript: when the timer fires before the network
    answers, the request is aborted and the call fails with the code
    TIMEOUT and no status; when [fetch] fails otherwise, the call fails with
    the code NETWORK_ERROR and the failure's text as message. Go: the
    timeout is the HTTP client's, and the error [Do] returns, timeout or
    not, is handed to the caller as it is. *)
Theorem no_response :
  (∀ c method path params body url,
     TS.build_url URL_new c path params = inr url →
     (∀ e, body ≠ TS.BodyThrows e) →
     network (TS.fetch_init c method url (TS.sent_text body)) = TS.Silent →
     ∃ effects,
       TS.request URL_new network c method path params body
       = (TS.ThrowsSdk (TS.BaseError "Request timeout" (Some "TIMEOUT") None),
          effects) ∧
       TS.Abort ∈ effects) ∧
  (∀ c method path params body url e,
     TS.build_url URL_new c path params = inr url →
     (∀ e, body ≠ TS.BodyThrows e) →
     network (TS.fetch_init c method url (TS.sent_text body)) = TS.Breaks e →
     TS.is_Error e && String.eqb (TS.err_name e) "AbortError" = false →
     (TS.request URL_new network c method path params body).1
     = TS.ThrowsSdk (TS.BaseError (TS.err_text e) (Some "NETWORK_ERROR") None)) ∧
  (∀ c method path params body req h e,
     Go.build_request url_Parse QueryEscape NewRequest_error c method path params body
     = inr req →
     Go.httpClient c = Some h →
     Do h req = inl e →
     Go.request url_Parse QueryEscape NewRequest_error Do c method path params body
     = (Go.Err (Go.Foreign e), [Go.Send req])).
Proof.
  split; [|split].
  - intros c method path params body url Hurl Hbody Hnet.
    rewrite (ts_request_silent _ _ _ _ _ _ Hurl Hbody Hnet).
    eexists. split; [reflexivity|]. do 2 right. by left.
  - intros c method path params body url e Hurl Hbody Hnet He.
    rewrite (ts_request_breaks _ _ _ _ _ _ _ Hurl Hbody Hnet).
    cbn [fst TS.catch]. by rewrite He.
  - intros c method path params body req h e Hreq Hh Hdo.
    unfold Go.request. by rewrite Hreq, Hh, Hdo.
Qed.

(** *** Query parameters (C6) *)

Lemma values_of_cons k p q :
  values_of k (p :: q) = if decide (p.1 = k) then p.2 :: values_of k q else values_of k q.
Proof. unfold values_of. rewrite filter_cons. by destruct (decide (p.1 = k)). Qed.

Lemma values_of_without k q : values_of k (filter (λ p, p.1 ≠ k) q) = [].
Proof.
  induction q as [|p q IH]; [reflexivity|].
  rewrite filter_cons. destruct (decide (p.1 ≠ k)) as [Hne|_]; [|exact IH].
  rewrite values_of_cons. by destruct (decide (p.1 = k)).
Qed.

Lemma values_of_without_other k k' q :
  k' ≠ k → values_of k (filter (λ p, p.1 ≠ k') q) = values_of k q.
Proof.
  intros Hne. induction q as [|p q IH]; [reflexivity|].
  rewrite filter_cons, !values_of_cons.
  destruct (decide (p.1 ≠ k')) as [H1|H1].
  - rewrite values_of_cons. by rewrite IH.
  - destruct (decide (p.1 = k)) as [H2|_]; [|exact IH].
    destruct H1. congruence.
Qed.

(** [set] leaves one pair of the key, with the new value. *)
Lemma values_of_set k v q : values_of k (TS.searchParams_set q k v) = [v].
Proof.
  induction q as [|[k' v'] q IH]; cbn [TS.searchParams_set].
  - rewrite values_of_cons. cbn. by rewrite decide_True.
  - destruct (decide (k' = k)) as [->|Hne].
    + rewrite values_of_cons. cbn [fst snd]. rewrite decide_True by done.
      by rewrite values_of_without.
    + rewrite values_of_cons. cbn [fst]. by rewrite decide_False.
Qed.

(** [set] leaves the other keys as they were. *)
Lemma values_of_set_other k k' v q :
  k' ≠ k → values_of k (TS.searchParams_set q k' v) = values_of k q.
Proof.
  intros Hne. induction q as [|[k0 v0] q IH]; cbn [TS.searchParams_set].
  - rewrite values_of_cons. cbn [fst]. by rewrite decide_False.
  - destruct (decide (k0 = k')) as [->|H0].
    + rewrite !values_of_cons. cbn [fst]. rewrite !decide_False by done.
      by apply values_of_without_other.
    + rewrite !values_of_cons. cbn [fst snd]. by rewrite IH.
Qed.

Lemma last_defined_cons k entry entries :
  last_defined k (entry :: entries)
  = match last_defined k entries with
    | Some v => Some v
    | None => if decide (entry.1 = k) then entry.2 else None
    end.
Proof.
  unfold last_defined. cbn [omap list_omap].
  destruct (if decide (entry.1 = k) then entry.2 else None) as [v|];
    [|by destruct (last _)].
  match goal with |- last (v :: ?rest) = _ => destruct rest as [|w tl] end;
    [reflexivity|].
  rewrite last_cons_cons. by destruct (last (w :: tl)) eqn:E;
    [|apply last_None in E].
Qed.

(** The loop over the entries: under each key, the last defined value wins
    and undefined ones write nothing. *)
Lemma values_of_entries k entries q :
  values_of k (foldl TS.set_entry q entries)
  = match last_defined k entries with
    | Some v => [TS.String_of v]
    | None => values_of k q
    end.
Proof.
  revert q. induction entries as [|[k' o] entries IH]; intros q; [reflexivity|].
  cbn [foldl]. rewrite IH, last_defined_cons.
  destruct (last_defined k entries) as [v|]; [reflexivity|].
  unfold TS.set_entry. cbn [fst snd].
  destruct o as [v|]; destruct (decide (k' = k)) as [->|Hne]; try reflexivity.
  - apply values_of_set.
  - by apply values_of_set_other.
Qed.

Lemma last_defined_Some k entries :
  is_Some (last_defined k entries) ↔ ∃ v, (k, Some v) ∈ entries.
Proof.
  induction entries as [|[k' o] entries IH].
  - split; [intros [v Hv]; discriminate Hv | intros [v Hv]; by apply elem_of_nil in Hv].
  - rewrite last_defined_cons. cbn [fst snd]. split.
    + destruct (last_defined k entries) as [v|] eqn:E.
      * intros _. destruct (proj1 IH) as [w Hw]; [by eexists|].
        exists w. by right.
      * destruct (decide (k' = k)) as [->|Hne]; intros [v Hv]; [|discriminate Hv].
        subst o. exists v. by left.
    + intros [v Hv]. apply elem_of_cons in Hv as [[= <- <-]|Hv].
      * destruct (last_defined k entries); [by eexists|].
        rewrite decide_True by done. by eexists.
      * destruct (proj2 IH) as [w ->]; [by exists v|]. by eexists.
Qed.

Lemma values_of_nil_iff k q : values_of k q = [] ↔ k ∉ q.*1.
Proof.
  induction q as [|[k' v] q IH]; [split; [intros _; apply not_elem_of_nil | done]|].
  rewrite values_of_cons. cbn [fst snd fmap list_fmap].
  rewrite not_elem_of_cons. destruct (decide (k' = k)) as [->|Hne].
  - split; [discriminate | intros [H _]; by destruct H].
  - rewrite IH. split; [by split | by intros [_ H]].
Qed.

Lemma values_of_app k q1 q2 :
  values_of k (q1 ++ q2) = values_of k q1 ++ values_of k q2.
Proof. unfold values_of. by rewrite filter_app, fmap_app. Qed.

Lemma values_of_key k k' (xs : list string) :
  values_of k ((λ x, (k', x)) <$> xs) = if decide (k' = k) then xs else [].
Proof.
  induction xs as [|x xs IH]; [by destruct (decide (k' = k))|].
  rewrite fmap_cons, values_of_cons, IH. cbn [fst snd].
  by destruct (decide (k' = k)).
Qed.

Lemma values_of_keys k (f : string → list string) keys :
  NoDup keys →
  values_of k (k' ← keys; (λ x, (k', x)) <$> f k')
  = if decide (k ∈ keys) then f k else [].
Proof.
  induction 1 as [|k0 keys Hk0 Hnd IH]; [reflexivity|].
  rewrite bind_cons, values_of_app, values_of_key, IH.
  destruct (decide (k0 = k)) as [->|Hne].
  - destruct (decide (k ∈ keys)) as [Hin|_]; [by destruct Hk0|].
    destruct (decide (k ∈ k :: keys)) as [_|Hout]; [by rewrite app_nil_r|].
    destruct Hout. by left.
  - destruct (decide (k ∈ keys)) as [Hin|Hout];
      destruct (decide (k ∈ k0 :: keys)) as [Hin'|Hout']; try reflexivity.
    + destruct Hout'. by right.
    + apply elem_of_cons in Hin' as [->|Hin']; [by destruct Hne | by destruct Hout].
Qed.

(** [Encode] writes every value of every key. *)
Lemma values_of_Values_pairs k (v : gmap string (list string)) :
  values_of k (Go.Values_pairs v) = default [] (v !! k).
Proof.
  unfold Go.Values_pairs. rewrite values_of_keys.
  - destruct (decide (k ∈ merge_sort String.le (map_to_list v).*1)) as [_|Hout];
      [reflexivity|].
    destruct (v !! k) as [xs|] eqn:Hk; [|reflexivity].
    destruct Hout. rewrite merge_sort_Permutation.
    apply list_elem_of_fmap. exists (k, xs). split; [reflexivity|].
    by apply elem_of_map_to_list.
  - rewrite merge_sort_Permutation. apply NoDup_fst_map_to_list.
Qed.

(** *** Reading a query text back *)

Lemma pieces_free c s : free_of c s = true → pieces c s = [s].
Proof.
  induction s as [|a s IH]; [reflexivity|]. cbn [free_of pieces].
  destruct (Ascii.eqb a c); [discriminate|]. cbn [negb andb].
  intros H. by rewrite (IH H).
Qed.

Lemma pieces_app c s t :
  free_of c s = true → pieces c (s +:+ String c t) = s :: pieces c t.
Proof.
  induction s as [|a s IH]; cbn [free_of].
  - intros _. change ("" +:+ String c t) with (String c t). cbn [pieces].
    by rewrite Ascii.eqb_refl.
  - destruct (Ascii.eqb a c) eqn:E; [discriminate|]. cbn [negb andb].
    intros H. rewrite append_cons. cbn [pieces]. by rewrite E, (IH H).
Qed.

Lemma cut_app c k v : free_of c k = true → cut c (k +:+ String c v) = (k, v).
Proof.
  induction k as [|a k IH]; cbn [free_of].
  - intros _. change ("" +:+ String c v) with (String c v). cbn [cut].
    by rewrite Ascii.eqb_refl.
  - destruct (Ascii.eqb a c) eqn:E; [discriminate|]. cbn [negb andb].
    intros H. rewrite append_cons. cbn [cut]. by rewrite E, (IH H).
Qed.

Lemma free_of_app c s t : free_of c (s +:+ t) = free_of c s && free_of c t.
Proof.
  induction s as [|a s IH]; [reflexivity|].
  rewrite append_cons. cbn [free_of]. rewrite IH. by destruct (Ascii.eqb a c).
Qed.

(** The pieces of texts joined by [c] are the texts, when none holds [c]. *)
Lemma pieces_concat c x (l : list string) :
  Forall (λ s, free_of c s = true) (x :: l) →
  pieces c (String.concat (String c "") (x :: l)) = x :: l.
Proof.
  revert x. induction l as [|y l IH]; intros x Hall.
  - cbn [String.concat]. apply pieces_free. by inversion Hall.
  - inversion Hall as [|? ? Hx Hrest]; subst.
    change (String.concat (String c "") (x :: y :: l))
      with (x +:+ String c (String.concat (String c "") (y :: l))).
    by rewrite (pieces_app _ _ _ Hx), (IH y Hrest).
Qed.

(** What [Encode] wrote, read back: the escaped pairs. *)
Lemma query_pairs_Encode (v : gmap string (list string)) :
  Forall (λ p, well_escaped QueryEscape p = true) (Go.Values_pairs v) →
  query_pairs (Go.Encode QueryEscape v)
  = (λ p, (QueryEscape p.1, QueryEscape p.2)) <$> Go.Values_pairs v.
Proof.
  unfold Go.Encode. generalize (Go.Values_pairs v). intros l Hall.
  destruct l as [|p l]; [reflexivity|].
  assert (Hpieces :
            pieces "&" (String.concat "&"
                          ((λ p, QueryEscape p.1 +:+ "=" +:+ QueryEscape p.2) <$> p :: l))
            = (λ p, QueryEscape p.1 +:+ "=" +:+ QueryEscape p.2) <$> p :: l).
  { assert (Hfree : Forall (λ s, free_of "&" s = true)
                        ((λ p, QueryEscape p.1 +:+ "=" +:+ QueryEscape p.2) <$> p :: l)).
    { apply Forall_fmap. eapply Forall_impl; [exact Hall|].
      intros q Hq. unfold well_escaped in Hq. cbn.
      apply andb_prop in Hq as [Hq Hv]. apply andb_prop in Hq as [Hk _].
      rewrite free_of_app, Hk.
      change ("=" +:+ QueryEscape q.2) with (String "=" (QueryEscape q.2)).
      cbn [andb free_of]. exact Hv. }
    rewrite fmap_cons in Hfree |- *. by apply pieces_concat. }
  unfold query_pairs.
  destruct (String.concat "&" _) as [|a q] eqn:Hq.
  - rewrite fmap_cons in Hq. destruct l as [|p' l]; cbn [fmap list_fmap String.concat] in Hq.
    + by destruct (QueryEscape p.1).
    + by destruct (QueryEscape p.1).
  - rewrite Hpieces, <- list_fmap_compose.
    apply Forall_fmap_ext_1. eapply Forall_impl; [exact Hall|].
    intros q' Hq'. unfold well_escaped in Hq'. cbn.
    apply andb_prop in Hq' as [Hq' _]. apply andb_prop in Hq' as [_ Hk].
    by apply cut_app.
Qed.

(** C6, amended. TypeScript: each key that has a defined value among the
    parameters ends up in the query once, with its last defined value as a
    string; a key with only undefined values is not written, so that a path
    without a query of its own yields exactly the keys with a defined
    value. Go: [request] receives [url.Values], in which every value is a
    string, and writes every value of every key: the query text it sets,
    read back, is the escaped pairs of the values, which hold under each
    key all that the values hold; keeping one value per key and leaving
    unset parameters out is the callers' doing. *)
Theorem query_parameters :
  (∀ c path entries url0,
     URL_new path (TS.baseUrl c) = inr url0 →
     ∃ url,
       TS.build_url URL_new c path (Some entries) = inr url ∧
       (∀ k, values_of k (TS.searchParams url)
             = match last_defined k entries with
               | Some v => [TS.String_of v]
               | None => values_of k (TS.searchParams url0)
               end) ∧
       (TS.searchParams url0 = [] →
        ∀ k, k ∈ (TS.searchParams url).*1 ↔ ∃ v, (k, Some v) ∈ entries)) ∧
  (∀ c method path v body req,
     Go.build_request url_Parse QueryEscape NewRequest_error c method path
       (Some v) body = inr req →
     Go.RawQuery (Go.Url req) = Go.Encode QueryEscape v) ∧
  (∀ c method path v body req,
     Forall (λ p, well_escaped QueryEscape p = true) (Go.Values_pairs v) →
     Go.build_request url_Parse QueryEscape NewRequest_error c method path
       (Some v) body = inr req →
     query_pairs (Go.RawQuery (Go.Url req))
     = (λ p, (QueryEscape p.1, QueryEscape p.2)) <$> Go.Values_pairs v) ∧
  (∀ (v : gmap string (list string)) k,
     values_of k (Go.Values_pairs v) = default [] (v !! k)).
Proof.
  assert (Hraw : ∀ c method path v body req,
            Go.build_request url_Parse QueryEscape NewRequest_error c method path
              (Some v) body = inr req →
            Go.RawQuery (Go.Url req) = Go.Encode QueryEscape v).
  { intros c method path v body req. unfold Go.build_request.
    destruct (url_Parse _) as [err|u]; [discriminate|].
    destruct body as [|text|err]; try discriminate;
      destruct (NewRequest_error _ _); try discriminate; by intros [= <-]. }
  split; [|split; [|split]].
  - intros c path entries url0 Hurl. unfold TS.build_url. rewrite Hurl.
    eexists. split; [reflexivity|]. cbn [TS.searchParams TS.set_entries].
    split; [intros k; apply values_of_entries|].
    intros Hq0 k. rewrite <- last_defined_Some.
    pose proof (values_of_entries k entries (TS.searchParams url0)) as Hv.
    rewrite Hq0 in Hv |- *.
    destruct (last_defined k entries) as [v|] eqn:E.
    + split; [by eexists|]. intros _.
      destruct (decide (k ∈ (foldl TS.set_entry [] entries).*1)) as [Hin|Hout];
        [exact Hin|].
      apply values_of_nil_iff in Hout. rewrite Hout in Hv. discriminate Hv.
    + split; [|intros [w Hw]; discriminate Hw].
      intros Hin. by apply values_of_nil_iff in Hv.
  - exact Hraw.
  - intros c method path v body req Hall Hreq.
    rewrite (Hraw _ _ _ _ _ _ Hreq). by apply query_pairs_Encode.
  - intros v k. apply values_of_Values_pairs.
Qed.

End Requests.

(** ** The statements on examples *)

(** C1, as stated, fails in TypeScript: a 401 whose body carries its own
    code ends in an error with the code AUTH_ERROR, not the body's; and a
    500 whose body is not JSON ends in the message "Unknown error", which
    is neither the raw body nor the status text. *)
Lemma ts_error_code_not_from_body :
  (let r := {| TS.status := 401; TS.headers := ∅;
               TS.json := inr {| TS.p_value := "the error payload";
                                 TS.p_members :=
                                   Some {| TS.d_message := Some "Token expired";
                                           TS.d_code := Some "TOKEN_EXPIRED" |} |} |} in
   ∃ e, (TS.request URL_of (answers r) ts_client "GET" "/v1/devices" None TS.NoBody).1
        = TS.ThrowsSdk e ∧
        TS.message e = "Token expired" ∧
        TS.code e = Some "AUTH_ERROR" ∧ TS.code e ≠ Some "TOKEN_EXPIRED") ∧
  (let r := {| TS.status := 500; TS.headers := ∅; TS.json := inl not_json |} in
   (TS.request URL_of (answers r) ts_client "GET" "/v1/devices" None TS.NoBody).1
   = TS.ThrowsSdk (TS.BaseError "Unknown error" (Some "UNKNOWN") (Some 500))).
Proof.
  split; [|reflexivity].
  eexists. split; [reflexivity|]. repeat split. discriminate.
Qed.

(** The amended C1 on a 503 with an error payload, in both variants. *)
Lemma error_mapping_witness :
  (let r := {| TS.status := 503; TS.headers := ∅;
               TS.json := inr {| TS.p_value := "the error payload";
                                 TS.p_members :=
                                   Some {| TS.d_message := Some "Try later";
                                           TS.d_code := Some "UNAVAILABLE" |} |} |} in
   ∃ e, (TS.request URL_of (answers r) ts_client "GET" "/v1/devices" None TS.NoBody).1
        = TS.ThrowsSdk e ∧
        TS.name e = "MeshLogicError" ∧ TS.statusCode e = Some 503 ∧
        TS.message e = "Try later" ∧ TS.code e = Some "UNAVAILABLE") ∧
  (let resp := {| Go.Status := 503; Go.Header := ∅;
                  Go.Body := inr {| Go.raw := "the error payload";
                                    Go.as_Error := Some ("UNAVAILABLE", "Try later") |} |} in
   ∃ e,
     (Go.request go_Parse go_escape go_valid (go_answers resp) go_client
        "GET" "/v1/devices" None Go.NilBody).1 = Go.Err (Go.PlainError e) ∧
     Go.StatusCode e = 503 ∧ Go.Code e = "UNAVAILABLE" ∧ Go.Message e = "Try later").
Proof.
  split.
  - set (d := {| TS.d_message := Some "Try later"; TS.d_code := Some "UNAVAILABLE" |}).
    set (r := {| TS.status := 503; TS.headers := ∅;
                 TS.json := inr {| TS.p_value := "the error payload";
                                   TS.p_members := Some d |} |}).
    destruct (proj1 (error_mapping URL_of (answers r) go_Parse go_escape go_valid
                       (go_answers {| Go.Status := 503; Go.Header := ∅;
                                      Go.Body := inl go_deadline |}))
                ts_client "GET" "/v1/devices" None TS.NoBody
                {| TS.location := "https://api.meshlogic.ai/v1/devices";
                   TS.searchParams := [] |} r d)
      as (e & He & Hname & Hstatus & Hmessage & _ & _ & _ & Hother);
      [reflexivity | discriminate | reflexivity | cbn; lia | reflexivity |].
    exists e. split; [exact He|]. split; [exact Hname|]. split; [exact Hstatus|].
    split; [apply Hmessage; [reflexivity | discriminate]|].
    apply Hother; cbn; lia.
  - set (payload := {| Go.raw := "the error payload";
                       Go.as_Error := Some ("UNAVAILABLE", "Try later") |}).
    set (resp := {| Go.Status := 503; Go.Header := ∅; Go.Body := inr payload |}).
    destruct (proj2 (error_mapping URL_of
                       (answers {| TS.status := 503; TS.headers := ∅;
                                   TS.json := inl not_json |})
                       go_Parse go_escape go_valid (go_answers resp))
                go_client "GET" "/v1/devices" None Go.NilBody
                {| Go.Method := "GET";
                   Go.Url := {| Go.location := "https://api.meshlogic.ai/v1/devices";
                                Go.RawQuery := "" |};
                   Go.Headers := [ ("Authorization", "Bearer ml-key-1");
                                   ("Content-Type", "application/json");
                                   ("User-Agent", "meshlogic-go/0.1.0") ];
                   Go.ReqBody := None |}
                {| Go.Timeout := 30 * Go.second |} resp payload)
      as (e & Herr & Hstatus & Hdecoded & _);
      [reflexivity | reflexivity | reflexivity | reflexivity | cbn; lia
      | discriminate | discriminate | discriminate |].
    exists e. split; [exact Herr|]. split; [exact Hstatus|].
    apply (Hdecoded "UNAVAILABLE" "Try later"). reflexivity.
Defined.


(** C8, as stated, fails in TypeScript: a 304 is below 400, and [request]
    fails on it with one of the SDK's errors. *)
Lemma ts_status_304_is_an_error :
  let r := {| TS.status := 304; TS.headers := ∅; TS.json := inl not_json |} in
  (TS.request URL_of (answers r) ts_client "GET" "/v1/devices" None TS.NoBody).1
  = TS.ThrowsSdk (TS.BaseError "Unknown error" (Some "UNKNOWN") (Some 304)).
Proof. reflexivity. Qed.

(** The amended C8 on a 200, with a JSON body and with one that is not. *)
Lemma status_below_400_witness :
  (let resp := {| Go.Status := 200; Go.Header := ∅;
                  Go.Body := inr {| Go.raw := "the devices"; Go.as_Error := None |} |} in
   Go.request go_Parse go_escape go_valid (go_answers resp) go_client
     "GET" "/v1/devices" None Go.NilBody
   = (Go.Ok "the devices",
      [Go.Send {| Go.Method := "GET";
                  Go.Url := {| Go.location := "https://api.meshlogic.ai/v1/devices";
                               Go.RawQuery := "" |};
                  Go.Headers := [ ("Authorization", "Bearer ml-key-1");
                                  ("Content-Type", "application/json");
                                  ("User-Agent", "meshlogic-go/0.1.0") ];
                  Go.ReqBody := None |};
       Go.Close])) ∧
  (let r := {| TS.status := 200; TS.headers := ∅;
               TS.json := inr {| TS.p_value := "the devices";
                                 TS.p_members := Some TS.empty_object |} |} in
   (TS.request URL_of (answers r) ts_client "GET" "/v1/devices" None TS.NoBody).1
   = TS.Returns "the devices") ∧
  (let r := {| TS.status := 200; TS.headers := ∅; TS.json := inl not_json |} in
   (TS.request URL_of (answers r) ts_client "GET" "/v1/devices" None TS.NoBody).1
   = TS.ThrowsJs not_json).
Proof.
  set (goreq := {| Go.Method := "GET";
                   Go.Url := {| Go.location := "https://api.meshlogic.ai/v1/devices";
                                Go.RawQuery := "" |};
                   Go.Headers := [ ("Authorization", "Bearer ml-key-1");
                                   ("Content-Type", "application/json");
                                   ("User-Agent", "meshlogic-go/0.1.0") ];
                   Go.ReqBody := None |}).
  set (payload := {| Go.raw := "the devices"; Go.as_Error := None |}).
  set (resp := {| Go.Status := 200; Go.Header := ∅; Go.Body := inr payload |}).
  set (url := {| TS.location := "https://api.meshlogic.ai/v1/devices";
                 TS.searchParams := [] |}).
  set (r1 := {| TS.status := 200; TS.headers := ∅;
                TS.json := inr {| TS.p_value := "the devices";
                                  TS.p_members := Some TS.empty_object |} |}).
  set (r2 := {| TS.status := 200; TS.headers := ∅; TS.json := inl not_json |}).
  split; [|split].
  - apply (proj1 (status_below_400 URL_of (answers r1) go_Parse go_escape go_valid
                    (go_answers resp))
             go_client "GET" "/v1/devices" None Go.NilBody goreq
             {| Go.Timeout := 30 * Go.second |} resp payload);
      [reflexivity | reflexivity | reflexivity | reflexivity | cbn; lia].
  - apply (proj2 (status_below_400 URL_of (answers r1) go_Parse go_escape go_valid
                    (go_answers resp))
             ts_client "GET" "/v1/devices" None TS.NoBody url r1);
      [reflexivity | discriminate | reflexivity | cbn; lia].
  - apply (proj2 (status_below_400 URL_of (answers r2) go_Parse go_escape go_valid
                    (go_answers resp))
             ts_client "GET" "/v1/devices" None TS.NoBody url r2);
      [reflexivity | discriminate | reflexivity | cbn; lia].
Defined.

(** C3, as stated, fails in Go: when the HTTP client gives up on its
    timeout, [request] returns that error as it is, a value without any
    code, TIMEOUT or other. *)
Lemma go_timeout_is_not_classified :
  Go.request go_Parse go_escape go_valid (λ _ _, inl go_deadline) go_client
    "GET" "/v1/devices" None Go.NilBody
  = (Go.Err (Go.Foreign go_deadline),
     [Go.Send {| Go.Method := "GET";
                 Go.Url := {| Go.location := "https://api.meshlogic.ai/v1/devices";
                              Go.RawQuery := "" |};
                 Go.Headers := [ ("Authorization", "Bearer ml-key-1");
                                 ("Content-Type", "application/json");
                                 ("User-Agent", "meshlogic-go/0.1.0") ];
                 Go.ReqBody := None |}]) ∧
  Go.embedded (Go.Foreign go_deadline) = None ∧
  Go.lib_timeout go_deadline = true.
Proof. repeat split. Qed.

(** The amended C3 on a network that stays silent and on one that refuses
    the connection. *)
Lemma no_response_witness :
  (∃ effects,
     TS.request (Json := string) URL_of (λ _, TS.Silent) ts_client
       "GET" "/v1/devices" None TS.NoBody
     = (TS.ThrowsSdk (TS.BaseError "Request timeout" (Some "TIMEOUT") None), effects) ∧
     TS.Abort ∈ effects) ∧
  (let e := {| TS.is_Error := true; TS.err_name := "TypeError";
               TS.err_text := "TypeError: fetch failed" |} in
   (TS.request (Json := string) URL_of (λ _, TS.Breaks e) ts_client
      "GET" "/v1/devices" None TS.NoBody).1
   = TS.ThrowsSdk (TS.BaseError "TypeError: fetch failed" (Some "NETWORK_ERROR") None)) ∧
  (let e := {| Go.lib_text := "dial tcp: connection refused"; Go.lib_timeout := false |} in
   (Go.request go_Parse go_escape go_valid (λ _ _, inl e) go_client
      "GET" "/v1/devices" None Go.NilBody).1
   = Go.Err (Go.Foreign e)).
Proof.
  set (goreq := {| Go.Method := "GET";
                   Go.Url := {| Go.location := "https://api.meshlogic.ai/v1/devices";
                                Go.RawQuery := "" |};
                   Go.Headers := [ ("Authorization", "Bearer ml-key-1");
                                   ("Content-Type", "application/json");
                                   ("User-Agent", "meshlogic-go/0.1.0") ];
                   Go.ReqBody := None |}).
  set (url := {| TS.location := "https://api.meshlogic.ai/v1/devices";
                 TS.searchParams := [] |}).
  set (e := {| TS.is_Error := true; TS.err_name := "TypeError";
               TS.err_text := "TypeError: fetch failed" |}).
  set (ge := {| Go.lib_text := "dial tcp: connection refused"; Go.lib_timeout := false |}).
  split; [|split].
  - apply (proj1 (no_response (Json := string) URL_of (λ _, TS.Silent)
                    go_Parse go_escape go_valid (λ _ _, inl ge))
             ts_client "GET" "/v1/devices" None TS.NoBody url);
      [reflexivity | discriminate | reflexivity].
  - apply (proj1 (proj2 (no_response (Json := string) URL_of (λ _, TS.Breaks e)
                           go_Parse go_escape go_valid (λ _ _, inl ge)))
             ts_client "GET" "/v1/devices" None TS.NoBody url e);
      [reflexivity | discriminate | reflexivity | reflexivity].
  - assert (H := proj2 (proj2 (no_response (Json := string) URL_of (λ _, TS.Silent)
                                 go_Parse go_escape go_valid (λ _ _, inl ge)))
                   go_client "GET" "/v1/devices" None Go.NilBody goreq
                   {| Go.Timeout := 30 * Go.second |} ge
                   eq_refl eq_refl eq_refl).
    exact (f_equal fst H).
Defined.

(** C6, as stated, fails. Go: a key with two values is written twice, the
    last value does not replace the first, and an empty value is written as
    an empty string. TypeScript: a key of the path's own query shows up in
    the URL without being a parameter. *)
Lemma query_not_only_last_defined :
  (∃ req,
     Go.build_request go_Parse go_escape go_valid go_client "GET" "/v1/events"
       (Some {[ "type" := ["process"; "file"] ]}) Go.NilBody = inr req ∧
     Go.RawQuery (Go.Url req) = "type=process&type=file") ∧
  (∃ req,
     Go.build_request go_Parse go_escape go_valid go_client "GET" "/v1/events/export"
       (Some {[ "format" := [""] ]}) Go.NilBody = inr req ∧
     Go.RawQuery (Go.Url req) = "format=") ∧
  (∃ url,
     TS.build_url URL_with_cursor ts_client "/v1/events?cursor=abc"
       (Some [("limit", Some (TS.SNumber (TS.Int 10)))]) = inr url ∧
     TS.searchParams url = [("cursor", "abc"); ("limit", "10")]).
Proof.
  split; [|split]; eexists; (split; [vm_compute; reflexivity|]); reflexivity.
Qed.

(** The amended C6 on the parameters [{limit: undefined, status: "online"}]
    and on the Go values [status=online]. *)
Lemma query_parameters_witness :
  (∃ url,
     TS.build_url URL_of ts_client "/v1/devices"
       (Some [("limit", None); ("status", Some (TS.SString "online"))]) = inr url ∧
     values_of "status" (TS.searchParams url) = ["online"] ∧
     "limit" ∉ (TS.searchParams url).*1) ∧
  (let req := {| Go.Method := "GET";
                 Go.Url := {| Go.location := "https://api.meshlogic.ai/v1/devices";
                              Go.RawQuery := "status=online" |};
                 Go.Headers := [ ("Authorization", "Bearer ml-key-1");
                                 ("Content-Type", "application/json");
                                 ("User-Agent", "meshlogic-go/0.1.0") ];
                 Go.ReqBody := None |} in
   Go.RawQuery (Go.Url req) = Go.Encode go_escape {[ "status" := ["online"] ]}) ∧
  (let req := {| Go.Method := "GET";
                 Go.Url := {| Go.location := "https://api.meshlogic.ai/v1/events";
                              Go.RawQuery := "limit=100&type=process&type=file" |};
                 Go.Headers := [ ("Authorization", "Bearer ml-key-1");
                                 ("Content-Type", "application/json");
                                 ("User-Agent", "meshlogic-go/0.1.0") ];
                 Go.ReqBody := None |} in
   query_pairs (Go.RawQuery (Go.Url req))
   = (λ p, (go_escape p.1, go_escape p.2))
       <$> Go.Values_pairs {[ "type" := ["process"; "file"]; "limit" := ["100"] ]}).
Proof.
  destruct (query_parameters URL_of go_Parse go_escape go_valid)
    as (Hts & Hgo & Hback & _).
  split; [|split].
  - destruct (Hts ts_client "/v1/devices"
                [("limit", None); ("status", Some (TS.SString "online"))]
                {| TS.location := "https://api.meshlogic.ai/v1/devices";
                   TS.searchParams := [] |} eq_refl)
      as (url & Hurl & Hvalues & Hkeys).
    exists url. split; [exact Hurl|]. split.
    + rewrite Hvalues. reflexivity.
    + intros Hin. apply (Hkeys eq_refl) in Hin as [v Hv].
      apply elem_of_cons in Hv as [Hv|Hv]; [discriminate Hv|].
      apply list_elem_of_singleton in Hv. discriminate Hv.
  - apply (Hgo go_client "GET" "/v1/devices" {[ "status" := ["online"] ]} Go.NilBody).
    vm_compute. reflexivity.
  - apply (Hback go_client "GET" "/v1/events"
             {[ "type" := ["process"; "file"]; "limit" := ["100"] ]} Go.NilBody).
    + vm_compute. repeat constructor.
    + vm_compute. reflexivity.
Defined.

(** ** The retry delay of a 429 *)

(** C2 on a Retry-After header that is an HTTP date, which the header may
    be: [parseInt] finds no digit in front, and the [retryAfter] of the
    TypeScript error is NaN where the claim says 60. *)
Theorem retry_after_http_date :
  let r := {| TS.status := 429;
              TS.headers := {[ "retry-after" := "Wed, 21 Oct 2015 07:28:00 GMT" ]};
              TS.json := inl not_json |} in
  (TS.request URL_of (answers r) ts_client "GET" "/v1/events" None TS.NoBody).1
  = TS.ThrowsSdk (TS.RateLimitError "Rate limit exceeded" TS.NaN) ∧
  TS.NaN ≠ TS.Int 60.
Proof. split; [vm_compute; reflexivity | discriminate]. Qed.

(** *** A header that is a decimal number *)

Section Decimal.

Import Text.

Local Open Scope Z_scope.

Lemma scan_digits_acc (d : Decimal.uint) (acc : positive) (n : nat) :
  ∃ m, scan_digits (NilEmpty.string_of_uint d) (Z.pos acc) n
       = (Z.pos (Pos.of_uint_acc d acc), m) ∧ (n ≤ m)%nat.
Proof.
  revert acc n.
  induction d as [|d IH|d IH|d IH|d IH|d IH|d IH|d IH|d IH|d IH|d IH];
    intros acc n; cbn [NilEmpty.string_of_uint scan_digits Pos.of_uint_acc];
    [by exists n|..];
    match goal with
    | |- context [digit_value ?a] =>
        let v := eval vm_compute in (digit_value a) in
        change (digit_value a) with v; cbv iota
    end;
    match goal with
    | |- ∃ m, scan_digits _ ?z _ = (Z.pos (Pos.of_uint_acc _ ?p), _) ∧ _ =>
        replace z with (Z.pos p) by lia;
        destruct (IH p (S n)) as (m & -> & Hm);
        exists m; split; [reflexivity | lia]
    end.
Qed.

Lemma scan_digits_uint (d : Decimal.uint) (n : nat) :
  ∃ m, scan_digits (NilEmpty.string_of_uint d) 0 n
       = (Z.of_N (Pos.of_uint d), m) ∧ (n ≤ m)%nat ∧ (d ≠ Decimal.Nil → (n < m)%nat).
Proof.
  revert n.
  induction d as [|d IH|d IH|d IH|d IH|d IH|d IH|d IH|d IH|d IH|d IH];
    intros n; cbn [NilEmpty.string_of_uint scan_digits Pos.of_uint];
    [by exists n|..];
    match goal with
    | |- context [digit_value ?a] =>
        let v := eval vm_compute in (digit_value a) in
        change (digit_value a) with v; cbv iota
    end.
  - change (10 * 0 + 0) with 0.
    destruct (IH (S n)) as (m & -> & Hm & _). exists m. repeat split; lia.
  - destruct (scan_digits_acc d 1 (S n)) as (m & Hs & Hm).
    change (10 * 0 + 1) with (Z.pos 1). rewrite Hs. exists m. repeat split; lia.
  - destruct (scan_digits_acc d 2 (S n)) as (m & Hs & Hm).
    change (10 * 0 + 2) with (Z.pos 2). rewrite Hs. exists m. repeat split; lia.
  - destruct (scan_digits_acc d 3 (S n)) as (m & Hs & Hm).
    change (10 * 0 + 3) with (Z.pos 3). rewrite Hs. exists m. repeat split; lia.
  - destruct (scan_digits_acc d 4 (S n)) as (m & Hs & Hm).
    change (10 * 0 + 4) with (Z.pos 4). rewrite Hs. exists m. repeat split; lia.
  - destruct (scan_digits_acc d 5 (S n)) as (m & Hs & Hm).
    change (10 * 0 + 5) with (Z.pos 5). rewrite Hs. exists m. repeat split; lia.
  - destruct (scan_digits_acc d 6 (S n)) as (m & Hs & Hm).
    change (10 * 0 + 6) with (Z.pos 6). rewrite Hs. exists m. repeat split; lia.
  - destruct (scan_digits_acc d 7 (S n)) as (m & Hs & Hm).
    change (10 * 0 + 7) with (Z.pos 7). rewrite Hs. exists m. repeat split; lia.
  - destruct (scan_digits_acc d 8 (S n)) as (m & Hs & Hm).
    change (10 * 0 + 8) with (Z.pos 8). rewrite Hs. exists m. repeat split; lia.
  - destruct (scan_digits_acc d 9 (S n)) as (m & Hs & Hm).
    change (10 * 0 + 9) with (Z.pos 9). rewrite Hs. exists m. repeat split; lia.
Qed.

Lemma to_uint_not_Nil (p : positive) : Pos.to_uint p ≠ Decimal.Nil.
Proof.
  intros H. pose proof (DecimalPos.Unsigned.of_to p) as Hp.
  rewrite H in Hp. discriminate Hp.
Qed.

(** The digits of a positive number scan back to it. *)
Lemma scan_digits_positive (p : positive) :
  ∃ m, scan_digits (NilEmpty.string_of_uint (Pos.to_uint p)) 0 0
       = (Z.pos p, S m).
Proof.
  destruct (scan_digits_uint (Pos.to_uint p) 0) as (m & Hs & _ & Hm).
  specialize (Hm (to_uint_not_Nil p)).
  rewrite DecimalPos.Unsigned.of_to in Hs.
  destruct m as [|m]; [lia|]. by exists m.
Qed.

(** The text of a positive number starts with a digit. *)
Lemma digits_start_with_digit (p : positive) :
  ∃ a s, NilEmpty.string_of_uint (Pos.to_uint p) = String a s ∧
         is_Some (digit_value a).
Proof.
  pose proof (to_uint_not_Nil p) as H.
  destruct (Pos.to_uint p); [by destruct H|..];
    eexists _, _; (split; [reflexivity|]); by eexists.
Qed.

Lemma digit_is_no_sign a :
  is_Some (digit_value a) → a ≠ "-"%char ∧ a ≠ "+"%char ∧ is_blank a = false.
Proof.
  intros [d Hd]. repeat split; try (intros ->; vm_compute in Hd; discriminate Hd).
  destruct (is_blank a) eqn:E; [|reflexivity].
  unfold is_blank in E.
  destruct a as [[] [] [] [] [] [] [] []]; try discriminate E;
    vm_compute in Hd; discriminate Hd.
Qed.

(** A character of ASCII that is no blank stops [SkipSpace]. *)
Lemma SkipSpace_stops a s :
  Go.byte a < 128 → is_blank a = false →
  Go.SkipSpace (String a s) = Some (String a s).
Proof.
  intros Ha Hblank. cbn [Go.SkipSpace]. rewrite Hblank.
  destruct (Ascii.eqb a "010") eqn:E.
  { apply Ascii.eqb_eq in E. subst a. discriminate Hblank. }
  assert (H2 : ∀ b, Go.two_byte_space a b = false).
  { intros b. unfold Go.two_byte_space.
    by assert ((Go.byte a =? 194) = false) as -> by lia. }
  assert (H3 : ∀ b c, Go.three_byte_space a b c = false).
  { intros b c. unfold Go.three_byte_space.
    assert ((Go.byte a =? 225) = false) as -> by lia.
    assert ((Go.byte a =? 226) = false) as -> by lia.
    by assert ((Go.byte a =? 227) = false) as -> by lia. }
  destruct s as [|b [|c s3]]; rewrite ?H2, ?H3; reflexivity.
Qed.

(** A digit is a character of ASCII, and no white space. *)
Lemma digit_is_plain a :
  is_Some (digit_value a) → Go.byte a < 128 ∧ TS.is_white a = false.
Proof.
  intros Ha. destruct (digit_is_no_sign a Ha) as (_ & _ & Hblank).
  destruct Ha as [d Hd]. unfold digit_value in Hd.
  destruct ((0 <=? Z.of_N (N_of_ascii a) - 48) && (Z.of_N (N_of_ascii a) - 48 <=? 9))
    eqn:E; [|discriminate Hd].
  apply andb_prop in E as [E1 E2].
  unfold Go.byte, TS.is_white. rewrite Hblank. split; [lia|].
  cbn [orb]. lia.
Qed.

(** The decimal text of an integer starts with a digit or a minus sign, and
    scans back to the integer. *)
Lemma decimal_scans (z : Z) :
  scan_signed (decimal z) = Some z ∧
  TS.skip_white (decimal z) = decimal z ∧
  Go.SkipSpace (decimal z) = Some (decimal z) ∧
  decimal z ≠ "".
Proof.
  destruct z as [|p|p]; [by vm_compute|..];
    unfold decimal; cbn [Z.to_int NilZero.string_of_int];
    pose proof (to_uint_not_Nil p) as Hnil;
    assert (NilZero.string_of_uint (Pos.to_uint p)
            = NilEmpty.string_of_uint (Pos.to_uint p)) as ->
      by (by destruct (Pos.to_uint p));
    destruct (digits_start_with_digit p) as (a & s & Hs & Ha);
    destruct (digit_is_no_sign a Ha) as (Hminus & Hplus & Hblank);
    destruct (scan_digits_positive p) as (m & Hscan).
  - split; [|split; [|split]].
    + unfold scan_signed. rewrite Hs.
      assert ((let '(neg, rest) :=
                 match String a s with
                 | String "-" s' => (true, s')
                 | String "+" s' => (false, s')
                 | _ => (false, String a s)
                 end in
               match scan_digits rest 0 0 with
               | (_, O) => None
               | (v, S _) => Some (if neg then - v else v)
               end)
              = match scan_digits (String a s) 0 0 with
                | (_, O) => None
                | (v, S _) => Some v
                end) as ->.
      { destruct a as [[] [] [] [] [] [] [] []]; try reflexivity;
          [by destruct Hplus | by destruct Hminus]. }
      rewrite <- Hs, Hscan. reflexivity.
    + rewrite Hs. cbn [TS.skip_white].
      by rewrite (proj2 (digit_is_plain a Ha)).
    + rewrite Hs. apply SkipSpace_stops; [|exact Hblank].
      exact (proj1 (digit_is_plain a Ha)).
    + rewrite Hs. discriminate.
  - split; [|split; [|split]].
    + unfold scan_signed. rewrite Hscan. reflexivity.
    + reflexivity.
    + apply SkipSpace_stops; [unfold Go.byte; cbn; lia | reflexivity].
    + discriminate.
Qed.

Lemma parseInt_decimal (z : Z) : TS.parseInt (decimal z) = TS.Int z.
Proof.
  destruct (decimal_scans z) as (Hscan & Hskip & _).
  unfold TS.parseInt. by rewrite Hskip, Hscan.
Qed.

Lemma Sscanf_decimal (z current : Z) :
  - 2 ^ 63 ≤ z < 2 ^ 63 → Go.Sscanf_d (decimal z) current = z.
Proof.
  intros Hz. destruct (decimal_scans z) as (Hscan & _ & Hskip & _).
  unfold Go.Sscanf_d. rewrite Hskip, Hscan.
  assert (Go.fits_int64 z = true) as -> by (unfold Go.fits_int64; lia).
  reflexivity.
Qed.

End Decimal.

Section RetryAfter.

Import Text.

Context {Json : Type}.
Variable URL_new : string → TS.BaseUrl → TS.JsError + TS.URL.
Variable network : TS.FetchInit → TS.Network Json.

(** The retry delay of a 429 in the TypeScript variant, where the header
    is no trouble. A 429 ends in a rate-limit error. Its retry delay is the number in the Retry-After
    header when the header is the decimal text of an integer (one that a
    JavaScript number holds exactly), and 60 when the header is missing or
    empty. The body not being [null], the message is the body's, or "Rate
    limit exceeded" without one. *)
Lemma retry_after c method path params body url r d :
  TS.build_url URL_new c path params = inr url →
  (∀ e, body ≠ TS.BodyThrows e) →
  network (TS.fetch_init c method url (TS.sent_text body)) = TS.Responds r →
  TS.status r = 429 →
  TS.errorData_of r = Some d →
  (∀ z, - 2 ^ 53 < z < 2 ^ 53 →
     TS.headers r !! "retry-after" = Some (decimal z) →
     (TS.request URL_new network c method path params body).1
     = TS.ThrowsSdk (TS.RateLimitError
                       (TS.or_else (TS.d_message d) "Rate limit exceeded")
                       (TS.Int z))) ∧
  (TS.truthy (TS.headers r !! "retry-after") = false →
     (TS.request URL_new network c method path params body).1
     = TS.ThrowsSdk (TS.RateLimitError
                       (TS.or_else (TS.d_message d) "Rate limit exceeded")
                       (TS.Int 60))).
Proof.
  intros Hurl Hbody Hnet Hs Hd.
  rewrite (ts_request_responds _ _ _ _ _ _ _ _ _ Hurl Hbody Hnet).
  rewrite ts_not_ok by lia. cbn [negb fst].
  unfold TS.classify. rewrite Hd, Hs. cbn [Z.eqb Pos.eqb TS.catch].
  split.
  - intros z _ Hh. rewrite Hh.
    destruct (decimal_scans z) as (_ & _ & _ & Hne).
    rewrite (or_else_present (Some (decimal z)) "60" (decimal z)) by done.
    by rewrite parseInt_decimal.
  - intros Hh.
    assert (TS.or_else (TS.headers r !! "retry-after") "60" = "60") as ->.
    { destruct (TS.headers r !! "retry-after") as [h|]; [|reflexivity].
      cbn [TS.truthy TS.or_else] in *. by destruct (String.eqb h ""). }
    reflexivity.
Qed.

End RetryAfter.

(** A 429 with [Retry-After: 120] and one without the header. *)
Lemma retry_after_witness :
  (let r := {| TS.status := 429; TS.headers := {[ "retry-after" := "120" ]};
               TS.json := inl not_json |} in
   (TS.request URL_of (answers r) ts_client "GET" "/v1/events" None TS.NoBody).1
   = TS.ThrowsSdk (TS.RateLimitError "Rate limit exceeded" (TS.Int 120))) ∧
  (let r := {| TS.status := 429; TS.headers := ∅; TS.json := inl not_json |} in
   (TS.request URL_of (answers r) ts_client "GET" "/v1/events" None TS.NoBody).1
   = TS.ThrowsSdk (TS.RateLimitError "Rate limit exceeded" (TS.Int 60))).
Proof.
  set (url := {| TS.location := "https://api.meshlogic.ai/v1/events";
                 TS.searchParams := [] |}).
  set (r1 := {| TS.status := 429; TS.headers := {[ "retry-after" := "120" ]};
                TS.json := inl not_json |}).
  set (r2 := {| TS.status := 429; TS.headers := ∅; TS.json := inl not_json |}).
  split.
  - apply (proj1 (retry_after URL_of (answers r1)
                    ts_client "GET" "/v1/events" None TS.NoBody url r1 TS.empty_object
                    eq_refl ltac:(discriminate) eq_refl eq_refl eq_refl) 120);
      [lia | reflexivity].
  - apply (proj2 (retry_after URL_of (answers r2)
                    ts_client "GET" "/v1/events" None TS.NoBody url r2 TS.empty_object
                    eq_refl ltac:(discriminate) eq_refl eq_refl eq_refl)).
    reflexivity.
Defined.

(** ** The Go services: what they put in the query *)

Section GoValues.

Import Text GoServices.

Lemma lookup_Values_Set key value (v : gmap string (list string)) k :
  Values_Set key value v !! k = if decide (key = k) then Some [value] else v !! k.
Proof. unfold Values_Set. apply lookup_insert. Qed.

Lemma lookup_Set_nonempty key value (v : gmap string (list string)) k :
  Set_nonempty key value v !! k
  = if decide (key = k ∧ value ≠ "") then Some [value] else v !! k.
Proof.
  unfold Set_nonempty. destruct (String.eqb value "") eqn:E.
  - apply String.eqb_eq in E. rewrite decide_False; [done|]. by intros [_ H].
  - apply String.eqb_neq in E. rewrite lookup_Values_Set.
    destruct (decide (key = k)) as [->|Hne].
    + by rewrite decide_True.
    + rewrite decide_False; [done|]. by intros [H _].
Qed.

Lemma lookup_Set_limit limit (v : gmap string (list string)) k :
  Set_limit limit v !! k
  = if decide ("limit" = k)
    then Some [if 0 <? limit then decimal limit else "100"]
    else v !! k.
Proof.
  unfold Set_limit. destruct (0 <? limit); apply lookup_Values_Set.
Qed.

Lemma lookup_Set_offset offset (v : gmap string (list string)) k :
  Set_offset offset v !! k
  = if decide ("offset" = k ∧ 0 < offset) then Some [decimal offset] else v !! k.
Proof.
  unfold Set_offset. destruct (0 <? offset) eqn:E.
  - rewrite lookup_Values_Set. destruct (decide ("offset" = k)) as [<-|Hne].
    + rewrite decide_True; [done|]. split; [done|lia].
    + rewrite decide_False; [done|]. by intros [H _].
  - rewrite decide_False; [done|]. intros [_ H]. lia.
Qed.

Lemma decimal_not_empty z : decimal z ≠ "".
Proof. apply decimal_scans. Qed.

(** An entry-wise test of the values a service builds. *)
Lemma single_valued_Set key value v :
  single_valued v → single_valued (Values_Set key value v).
Proof.
  intros Hv k xs. rewrite lookup_Values_Set.
  destruct (decide (key = k)); [intros [= <-]; by eexists | apply Hv].
Qed.

Lemma single_valued_Set_nonempty key value v :
  single_valued v → single_valued (Set_nonempty key value v).
Proof.
  intros Hv. unfold Set_nonempty.
  destruct (String.eqb value ""); [exact Hv | by apply single_valued_Set].
Qed.

Lemma single_valued_Set_limit limit v :
  single_valued v → single_valued (Set_limit limit v).
Proof.
  intros Hv. unfold Set_limit. destruct (0 <? limit); by apply single_valued_Set.
Qed.

Lemma single_valued_Set_offset offset v :
  single_valued v → single_valued (Set_offset offset v).
Proof.
  intros Hv. unfold Set_offset.
  destruct (0 <? offset); [by apply single_valued_Set | exact Hv].
Qed.

Lemma single_valued_empty : single_valued ∅.
Proof. intros k xs H. by rewrite lookup_empty in H. Qed.

Lemma no_empty_value_Set key value v :
  value ≠ "" → no_empty_value v → no_empty_value (Values_Set key value v).
Proof.
  intros Hne Hv k xs. rewrite lookup_Values_Set.
  destruct (decide (key = k)); [|apply Hv].
  intros [= <-] Hin. apply list_elem_of_singleton in Hin. by destruct Hne.
Qed.

Lemma no_empty_value_Set_nonempty key value v :
  no_empty_value v → no_empty_value (Set_nonempty key value v).
Proof.
  intros Hv. unfold Set_nonempty. destruct (String.eqb value "") eqn:E;
    [exact Hv|]. apply no_empty_value_Set; [|exact Hv]. by apply String.eqb_neq.
Qed.

Lemma no_empty_value_Set_limit limit v :
  no_empty_value v → no_empty_value (Set_limit limit v).
Proof.
  intros Hv. unfold Set_limit. destruct (0 <? limit);
    (apply no_empty_value_Set; [|exact Hv]); [apply decimal_not_empty | done].
Qed.

Lemma no_empty_value_Set_offset offset v :
  no_empty_value v → no_empty_value (Set_offset offset v).
Proof.
  intros Hv. unfold Set_offset. destruct (0 <? offset); [|exact Hv].
  apply no_empty_value_Set; [apply decimal_not_empty | exact Hv].
Qed.

Lemma no_empty_value_empty : no_empty_value ∅.
Proof. intros k xs H. by rewrite lookup_empty in H. Qed.

Lemma FormatBool_not_empty b : FormatBool b ≠ "".
Proof. by destruct b. Qed.

Create HintDb go_values discriminated.
#[local] Hint Resolve single_valued_empty single_valued_Set
  single_valued_Set_nonempty single_valued_Set_limit single_valued_Set_offset
  no_empty_value_empty no_empty_value_Set_nonempty no_empty_value_Set_limit
  no_empty_value_Set_offset : go_values.

(** Every service hands [request] values with one text per key, so that
    [Encode] writes each key at most once. *)
Theorem go_services_one_value_per_key (k : string) :
  (∀ p, (length (values_of k (Go.Values_pairs (EventsService_List_values p))) ≤ 1)%nat) ∧
  (∀ p, (length (values_of k (Go.Values_pairs (EventsService_Export_values p))) ≤ 1)%nat) ∧
  (∀ p, (length (values_of k (Go.Values_pairs (DevicesService_List_values p))) ≤ 1)%nat) ∧
  (∀ p, (length (values_of k (Go.Values_pairs (PatternsService_List_values p))) ≤ 1)%nat) ∧
  (∀ p, (length (values_of k (Go.Values_pairs (PatternsService_Matches_values p))) ≤ 1)%nat).
Proof.
  assert (Hone : ∀ v, single_valued v →
            (length (values_of k (Go.Values_pairs v)) ≤ 1)%nat).
  { intros v Hv. rewrite values_of_Values_pairs.
    destruct (v !! k) as [xs|] eqn:E; [|cbn; lia].
    destruct (Hv k xs E) as [x ->]. cbn. lia. }
  repeat split; intros p; apply Hone.
  - unfold EventsService_List_values. auto 10 with go_values.
  - unfold EventsService_Export_values. auto 10 with go_values.
  - unfold DevicesService_List_values. auto 10 with go_values.
  - unfold PatternsService_List_values.
    destruct (PatternsListParams.Enabled _); auto 10 with go_values.
  - unfold PatternsService_Matches_values. auto 10 with go_values.
Qed.

(** The listing services never write an empty value: a filter left empty is
    left out, and the limit is a number. *)
Theorem go_lists_write_no_empty_value (k : string) :
  (∀ p, "" ∉ values_of k (Go.Values_pairs (EventsService_List_values p))) ∧
  (∀ p, "" ∉ values_of k (Go.Values_pairs (DevicesService_List_values p))) ∧
  (∀ p, "" ∉ values_of k (Go.Values_pairs (PatternsService_List_values p))) ∧
  (∀ p, "" ∉ values_of k (Go.Values_pairs (PatternsService_Matches_values p))).
Proof.
  assert (Hnone : ∀ v, no_empty_value v →
            "" ∉ values_of k (Go.Values_pairs v)).
  { intros v Hv. rewrite values_of_Values_pairs.
    destruct (v !! k) as [xs|] eqn:E; [by apply (Hv k) | apply not_elem_of_nil]. }
  repeat split; intros p; apply Hnone.
  - unfold EventsService_List_values. auto 10 with go_values.
  - unfold DevicesService_List_values. auto 10 with go_values.
  - unfold PatternsService_List_values.
    destruct (PatternsListParams.Enabled _) as [b|]; [|auto 10 with go_values].
    apply no_empty_value_Set; [apply FormatBool_not_empty | auto with go_values].
  - unfold PatternsService_Matches_values. auto 10 with go_values.
Qed.

(** Looking a fixed key up in the values a service built. *)
Ltac lookup_key :=
  repeat first
    [ rewrite lookup_Set_offset | rewrite lookup_Set_limit
    | rewrite lookup_Set_nonempty | rewrite lookup_Values_Set
    | rewrite lookup_empty ];
  repeat case_decide; destruct_and?; try discriminate; try done.

(** Every listing sends a limit: the caller's when it is positive, and 100
    otherwise, zero and negative limits included; an offset is sent only
    when it is positive. *)
Theorem go_lists_limit_and_offset :
  (∀ p, let params := default EventsListParams.zero p in
     values_of "limit" (Go.Values_pairs (EventsService_List_values p))
     = [if 0 <? EventsListParams.Limit params
        then decimal (EventsListParams.Limit params) else "100"] ∧
     values_of "offset" (Go.Values_pairs (EventsService_List_values p))
     = if 0 <? EventsListParams.Offset params
       then [decimal (EventsListParams.Offset params)] else []) ∧
  (∀ p, let params := default DevicesListParams.zero p in
     values_of "limit" (Go.Values_pairs (DevicesService_List_values p))
     = [if 0 <? DevicesListParams.Limit params
        then decimal (DevicesListParams.Limit params) else "100"] ∧
     values_of "offset" (Go.Values_pairs (DevicesService_List_values p))
     = if 0 <? DevicesListParams.Offset params
       then [decimal (DevicesListParams.Offset params)] else []) ∧
  (∀ p, let params := default MatchesParams.zero p in
     values_of "limit" (Go.Values_pairs (PatternsService_Matches_values p))
     = [if 0 <? MatchesParams.Limit params
        then decimal (MatchesParams.Limit params) else "100"]).
Proof.
  split; [|split]; intros p params; subst params; rewrite ?values_of_Values_pairs.
  - unfold EventsService_List_values. split.
    + lookup_key.
    + lookup_key;
        destruct (Z.ltb_spec 0 (EventsListParams.Offset (default EventsListParams.zero p)));
        try done; try lia; exfalso; naive_solver.
  - unfold DevicesService_List_values. split.
    + lookup_key.
    + lookup_key;
        destruct (Z.ltb_spec 0 (DevicesListParams.Offset (default DevicesListParams.zero p)));
        try done; try lia; exfalso; naive_solver.
  - unfold PatternsService_Matches_values. lookup_key.
Qed.

(** [Export] always sends a format: json without parameters, and with
    parameters their [Format] as it is, an empty one included. *)
Theorem go_export_format :
  values_of "format" (Go.Values_pairs (EventsService_Export_values None)) = ["json"] ∧
  (∀ p, values_of "format" (Go.Values_pairs (EventsService_Export_values (Some p)))
        = [ExportParams.Format p]).
Proof.
  split; [|intros p]; rewrite values_of_Values_pairs;
    unfold EventsService_Export_values; lookup_key.
Qed.

End GoValues.

(** ** The Go client: construction and calls *)

Section GoCalls.

Import Text GoServices.

Variable url_Parse : string → Go.LibError + Go.URL.
Variable QueryEscape : string → string.
Variable NewRequest_error : string → Go.URL → option Go.LibError.
Variable Do : Go.http_Client → Go.Request → Go.LibError + Go.Response.
Context {T : Type}.
Variable Unmarshal : string → Go.LibError + T.

Lemma go_request_effects c method path params body :
  let r := Go.request url_Parse QueryEscape NewRequest_error Do c method path params body in
  r.2 = [] ∨
  ∃ req, Go.build_request url_Parse QueryEscape NewRequest_error c method path params body
         = inr req ∧
         (r.2 = [Go.Send req] ∨ r.2 = [Go.Send req; Go.Close]).
Proof.
  unfold Go.request.
  destruct (Go.build_request _ _ _ _ _ _ _ _) as [err|req]; [by left|].
  destruct (Go.httpClient c) as [h|]; [|by left].
  right. exists req. split; [reflexivity|].
  destruct (Do h req) as [err|resp]; [by left|]. right.
  destruct (Go.Body resp) as [err|payload]; [reflexivity|].
  by destruct (Go.Status resp >=? 400).
Qed.

Lemma decoded_effects (r : Go.Result string * list Go.Effect) :
  (decoded Unmarshal r).2 = r.2.
Proof.
  unfold decoded. destruct r.1 as [body|err| |]; [|reflexivity..].
  by destruct (Unmarshal body).
Qed.

Lemma at_most_one_Send (effects : list Go.Effect) :
  (effects = [] ∨ ∃ req, effects = [Go.Send req] ∨ effects = [Go.Send req; Go.Close]) →
  (length (filter is_Send effects) ≤ 1)%nat ∧
  (Go.Close ∈ effects → ∃ req, effects = [Go.Send req; Go.Close]).
Proof.
  intros [->|[req [->| ->]]]; (split; [vm_compute; lia|]); intros H.
  - by apply elem_of_nil in H.
  - apply list_elem_of_singleton in H. discriminate H.
  - by exists req.
Qed.

(** One call, one use of the HTTP client: [request] and every service
    method call [Do] at most once, whatever the outcome, so that nothing is
    tried again (what the HTTP client does within one [Do] is its own
    affair); and where [request] closes a body, it is after that one
    [Do]. *)
Theorem go_single_attempt :
  (∀ c method path params body,
     let effects := (Go.request url_Parse QueryEscape NewRequest_error Do c
                       method path params body).2 in
     (length (filter is_Send effects) ≤ 1)%nat ∧
     (Go.Close ∈ effects → ∃ req, effects = [Go.Send req; Go.Close])) ∧
  (∀ c p, (length (filter is_Send
             (EventsService_List url_Parse QueryEscape NewRequest_error Do
                Unmarshal c p).2) ≤ 1)%nat) ∧
  (∀ c id, (length (filter is_Send
             (EventsService_Get url_Parse QueryEscape NewRequest_error Do
                Unmarshal c id).2) ≤ 1)%nat) ∧
  (∀ c p, (length (filter is_Send
             (EventsService_Export url_Parse QueryEscape NewRequest_error Do
                c p).2) ≤ 1)%nat) ∧
  (∀ c p, (length (filter is_Send
             (DevicesService_List url_Parse QueryEscape NewRequest_error Do
                Unmarshal c p).2) ≤ 1)%nat) ∧
  (∀ c id, (length (filter is_Send
             (DevicesService_Get url_Parse QueryEscape NewRequest_error Do
                Unmarshal c id).2) ≤ 1)%nat) ∧
  (∀ c, (length (filter is_Send
             (DevicesService_Status url_Parse QueryEscape NewRequest_error Do
                Unmarshal c).2) ≤ 1)%nat) ∧
  (∀ c p, (length (filter is_Send
             (PatternsService_List url_Parse QueryEscape NewRequest_error Do
                Unmarshal c p).2) ≤ 1)%nat) ∧
  (∀ c p, (length (filter is_Send
             (PatternsService_Matches url_Parse QueryEscape NewRequest_error Do
                Unmarshal c p).2) ≤ 1)%nat).
Proof.
  assert (Hreq : ∀ c method path params body,
            let effects := (Go.request url_Parse QueryEscape NewRequest_error Do c
                              method path params body).2 in
            (length (filter is_Send effects) ≤ 1)%nat ∧
            (Go.Close ∈ effects → ∃ req, effects = [Go.Send req; Go.Close])).
  { intros c method path params body effects. apply at_most_one_Send.
    destruct (go_request_effects c method path params body) as [H|(req & _ & H)];
      [by left | right; by exists req]. }
  split; [exact Hreq|].
  repeat split; intros;
    unfold EventsService_List, EventsService_Get, EventsService_Export,
      DevicesService_List, DevicesService_Get, DevicesService_Status,
      PatternsService_List, PatternsService_Matches;
    rewrite ?decoded_effects; apply Hreq.
Qed.

(** What a service method returns once a response is there: for a status
    below 400 the decoded body, a body that does not decode giving the
    decoder's error; and for a status of 400 or more other than 401, 404
    and 429 the [Error] of [request] as it is. Either way [Do] was called
    once and the body was closed. *)
Theorem go_service_on_response :
  (∀ c p req h resp payload,
     Go.build_request url_Parse QueryEscape NewRequest_error c "GET" "/v1/events"
       (Some (EventsService_List_values p)) Go.NilBody = inr req →
     Go.httpClient c = Some h → Do h req = inr resp →
     Go.Body resp = inr payload →
     Go.Status resp ≠ 401 → Go.Status resp ≠ 404 → Go.Status resp ≠ 429 →
     EventsService_List url_Parse QueryEscape NewRequest_error Do Unmarshal c p
     = (if Go.Status resp >=? 400
        then Go.Err (Go.PlainError (Go.apiErr payload resp))
        else match Unmarshal (Go.raw payload) with
             | inl err => Go.Err (Go.Foreign err)
             | inr v => Go.Ok v
             end,
        [Go.Send req; Go.Close])) ∧
  (∀ c deviceID req h resp payload,
     Go.build_request url_Parse QueryEscape NewRequest_error c "GET"
       ("/v1/devices/" +:+ deviceID) None Go.NilBody = inr req →
     Go.httpClient c = Some h → Do h req = inr resp →
     Go.Body resp = inr payload →
     Go.Status resp ≠ 401 → Go.Status resp ≠ 404 → Go.Status resp ≠ 429 →
     DevicesService_Get url_Parse QueryEscape NewRequest_error Do Unmarshal c deviceID
     = (if Go.Status resp >=? 400
        then Go.Err (Go.PlainError (Go.apiErr payload resp))
        else match Unmarshal (Go.raw payload) with
             | inl err => Go.Err (Go.Foreign err)
             | inr v => Go.Ok v
             end,
        [Go.Send req; Go.Close])).
Proof.
  split.
  - intros c p req h resp payload Hreq Hh Hdo Hbody H1 H2 H3.
    unfold EventsService_List.
    rewrite (go_request_responds _ _ _ _ _ _ _ _ _ _ _ _ _ Hreq Hh Hdo Hbody).
    unfold decoded. cbn [fst snd].
    destruct (Go.Status resp >=? 400).
    + by rewrite status_switch_default.
    + by destruct (Unmarshal (Go.raw payload)).
  - intros c deviceID req h resp payload Hreq Hh Hdo Hbody H1 H2 H3.
    unfold DevicesService_Get.
    rewrite (go_request_responds _ _ _ _ _ _ _ _ _ _ _ _ _ Hreq Hh Hdo Hbody).
    unfold decoded. cbn [fst snd].
    destruct (Go.Status resp >=? 400).
    + by rewrite status_switch_default.
    + by destruct (Unmarshal (Go.raw payload)).
Qed.

End GoCalls.

Section GoConstruction.

Import Text.

(** What a successful [NewClient] did: the options ran, and the key is
    theirs or, when they left none, the environment's. *)
Lemma NewClient_Ok_inv env opts c effects :
  Go.NewClient env opts = (Go.Ok c, effects) →
  ∃ c0, Go.apply_options opts Go.initial_client = Some c0 ∧
        Go.baseURL c = Go.baseURL c0 ∧ Go.httpClient c = Go.httpClient c0 ∧
        Go.apiKey c ≠ "" ∧
        (Go.apiKey c = Go.apiKey c0 ∨
         (Go.apiKey c0 = "" ∧ env !! "MESHLOGIC_API_KEY" = Some (Go.apiKey c))).
Proof.
  intros H. pose proof (go_NewClient_key _ _ _ _ H) as Hkey.
  unfold Go.NewClient in H.
  destruct (Go.apply_options opts Go.initial_client) as [c0|]; [|discriminate].
  exists c0. split; [reflexivity|].
  destruct (String.eqb (Go.apiKey c0) "") eqn:E0.
  - cbn [Go.apiKey] in H.
    destruct (String.eqb (default "" (env !! "MESHLOGIC_API_KEY")) "") eqn:E1;
      [discriminate|].
    injection H as <- _. cbn. repeat split; [exact Hkey|]. right.
    apply String.eqb_eq in E0. split; [exact E0|].
    destruct (env !! "MESHLOGIC_API_KEY"); [reflexivity | discriminate E1].
  - rewrite E0 in H. injection H as <- _. repeat split; [exact Hkey | by left].
Qed.

Lemma apply_options_key_origin opts c c' :
  Go.apply_options opts c = Some c' →
  Go.apiKey c' = Go.apiKey c ∨ Go.WithAPIKey (Go.apiKey c') ∈ opts.
Proof.
  revert c. induction opts as [|opt opts IH]; intros c; cbn [Go.apply_options].
  - intros [= <-]. by left.
  - destruct (Go.apply_option opt c) as [c1|] eqn:H1; [|discriminate].
    intros H. destruct (IH _ H) as [Hk|Hin]; [|right; by right].
    rewrite Hk.
    destruct opt as [k|r|u|h|t|]; cbn [Go.apply_option] in H1;
      try (injection H1 as <-; by left).
    + injection H1 as <-. right. by left.
    + destruct (Go.endpoints !! r); injection H1 as <-; by left.
    + destruct (Go.httpClient c); [injection H1 as <-; by left | discriminate].
    + discriminate.
Qed.

Lemma apply_options_url_origin opts c c' :
  Go.apply_options opts c = Some c' →
  Go.baseURL c' = Go.baseURL c ∨
  (∃ region, Go.endpoints !! region = Some (Go.baseURL c')) ∨
  Go.WithBaseURL (Go.baseURL c') ∈ opts.
Proof.
  revert c. induction opts as [|opt opts IH]; intros c; cbn [Go.apply_options].
  - intros [= <-]. by left.
  - destruct (Go.apply_option opt c) as [c1|] eqn:H1; [|discriminate].
    intros H. destruct (IH _ H) as [Hu|[Hr|Hin]];
      [|right; by left|right; right; by right].
    rewrite Hu.
    destruct opt as [k|r|u|h|t|]; cbn [Go.apply_option] in H1;
      try (injection H1 as <-; by left).
    + destruct (Go.endpoints !! r) as [u|] eqn:Hr; injection H1 as <-;
        [right; left; by exists r | by left].
    + injection H1 as <-. right. right. by left.
    + destruct (Go.httpClient c); [injection H1 as <-; by left | discriminate].
    + discriminate.
Qed.

Lemma apply_options_http_present opts c :
  Go.NilOption ∉ opts → Go.WithHTTPClient None ∉ opts →
  is_Some (Go.httpClient c) →
  ∃ c', Go.apply_options opts c = Some c' ∧ is_Some (Go.httpClient c').
Proof.
  revert c. induction opts as [|opt opts IH]; intros c Hnil Hno Hc;
    cbn [Go.apply_options].
  - by exists c.
  - apply not_elem_of_cons in Hno as [Hopt Hno].
    apply not_elem_of_cons in Hnil as [Hopt' Hnil].
    assert (∃ c1, Go.apply_option opt c = Some c1 ∧ is_Some (Go.httpClient c1))
      as (c1 & -> & Hc1).
    { destruct opt as [k|r|u|h|t|]; cbn [Go.apply_option].
      - by eexists.
      - destruct (Go.endpoints !! r); by eexists.
      - by eexists.
      - destruct h as [h|]; [by eexists | by destruct Hopt].
      - destruct Hc as [h ->]. by eexists.
      - by destruct Hopt'. }
    by apply IH.
Qed.

Lemma apply_option_keeps_http opt c c' :
  sets_http opt = false →
  Go.apply_option opt c = Some c' → Go.httpClient c' = Go.httpClient c.
Proof.
  destruct opt as [k|r|u|h|t|]; cbn [sets_http Go.apply_option]; intros Hs H;
    try discriminate Hs; try discriminate H; try by injection H as <-.
  destruct (Go.endpoints !! r); by injection H as <-.
Qed.

Lemma apply_options_keeps_http opts c c' :
  Forall (λ opt, sets_http opt = false) opts →
  Go.apply_options opts c = Some c' → Go.httpClient c' = Go.httpClient c.
Proof.
  intros Hall. revert c.
  induction Hall as [|opt opts Hopt _ IH]; intros c; cbn [Go.apply_options].
  - by intros [= <-].
  - destruct (Go.apply_option opt c) as [c1|] eqn:H1; [|discriminate].
    intros H. rewrite (IH _ H). by apply apply_option_keeps_http with opt.
Qed.

(** The bearer token of a constructed client is never empty, and it is the
    key of a [WithAPIKey] option or the value of MESHLOGIC_API_KEY; every
    request the client builds carries it. *)
Theorem go_bearer_token env opts c effects :
  Go.NewClient env opts = (Go.Ok c, effects) →
  Go.apiKey c ≠ "" ∧
  (Go.WithAPIKey (Go.apiKey c) ∈ opts ∨
   env !! "MESHLOGIC_API_KEY" = Some (Go.apiKey c)) ∧
  (∀ url_Parse QueryEscape NewRequest_error method path params body req,
     Go.build_request url_Parse QueryEscape NewRequest_error c method path params body
     = inr req →
     ("Authorization", "Bearer " +:+ Go.apiKey c) ∈ Go.Headers req).
Proof.
  intros H. destruct (NewClient_Ok_inv _ _ _ _ H) as (c0 & Hc0 & _ & _ & Hne & Hkey).
  split; [exact Hne|]. split.
  - destruct Hkey as [Hk|[_ Hk]]; [|by right].
    destruct (apply_options_key_origin _ _ _ Hc0) as [H0|Hin].
    + rewrite Hk, H0 in Hne. by destruct Hne.
    + left. by rewrite Hk.
  - intros url_Parse QueryEscape NewRequest_error method path params body req.
    unfold Go.build_request.
    destruct (url_Parse _) as [err|u]; [discriminate|].
    destruct body as [|text|err]; try discriminate;
      destruct (NewRequest_error _ _); try discriminate;
      intros [= <-]; by left.
Qed.

(** The base URL of a constructed client is an entry of the region table or
    the argument of a [WithBaseURL] option. *)
Theorem go_base_url_origin env opts c effects :
  Go.NewClient env opts = (Go.Ok c, effects) →
  (∃ region, Go.endpoints !! region = Some (Go.baseURL c)) ∨
  Go.WithBaseURL (Go.baseURL c) ∈ opts.
Proof.
  intros H. destruct (NewClient_Ok_inv _ _ _ _ H) as (c0 & Hc0 & -> & _).
  destruct (apply_options_url_origin _ _ _ Hc0) as [Hu|[Hr|Hin]];
    [|by left|by right].
  left. exists "ap-southeast-2". by rewrite Hu.
Qed.

(** With options that the five functions of the package gave, none of them
    nil and none a nil HTTP client, [NewClient] does not panic and neither
    does any request of the client it returns. A nil option does make
    [NewClient] panic, and so does a [WithTimeout] after a nil HTTP client,
    before the key is looked at. *)
Theorem go_panic_free env opts :
  Go.NilOption ∉ opts →
  Go.WithHTTPClient None ∉ opts →
  (Go.NewClient env opts).1 ≠ Go.Panic ∧
  (∀ c effects url_Parse QueryEscape NewRequest_error Do method path params body,
     Go.NewClient env opts = (Go.Ok c, effects) →
     (Go.request url_Parse QueryEscape NewRequest_error Do c method path params body).1
     ≠ Go.Panic) ∧
  (∀ after, Go.NewClient env (opts ++ Go.NilOption :: after) = (Go.Panic, [])) ∧
  (∀ timeout, Go.NewClient env (opts ++ [Go.WithHTTPClient None; Go.WithTimeout timeout])
              = (Go.Panic, [])).
Proof.
  intros Hnil Hno.
  destruct (apply_options_http_present opts Go.initial_client Hnil Hno)
    as (c0 & Hc0 & Hh); [by eexists|].
  split; [|split; [|split]].
  - unfold Go.NewClient. rewrite Hc0.
    destruct (String.eqb (Go.apiKey c0) ""); cbn [Go.apiKey];
      by destruct (String.eqb _ "").
  - intros c effects url_Parse QueryEscape NewRequest_error Do method path params body H.
    destruct (NewClient_Ok_inv _ _ _ _ H) as (c1 & Hc1 & _ & Hhttp & _).
    rewrite Hc0 in Hc1. injection Hc1 as <-. rewrite <- Hhttp in Hh.
    destruct Hh as [h Hh]. unfold Go.request. rewrite Hh.
    destruct (Go.build_request _ _ _ _ _ _ _ _) as [err|req]; [discriminate|].
    destruct (Do h req) as [err|resp]; [discriminate|].
    destruct (Go.Body resp); [discriminate|].
    destruct (Go.Status resp >=? 400); [|discriminate].
    unfold Go.status_switch. cbn [fst].
    by repeat destruct (Go.Status resp =? _).
  - intros after. unfold Go.NewClient.
    by rewrite apply_options_app, Hc0.
  - intros timeout. unfold Go.NewClient.
    by rewrite apply_options_app, Hc0.
Qed.

(** The timeout of a constructed client: 30 seconds when no option touches
    the HTTP client, and the argument of a [WithTimeout] that no later
    option overrides. *)
Theorem go_timeout_resolution env :
  (∀ opts c effects,
     Forall (λ opt, sets_http opt = false) opts →
     Go.NewClient env opts = (Go.Ok c, effects) →
     Go.httpClient c = Some {| Go.Timeout := 30000000000 |}) ∧
  (∀ before timeout after c effects,
     Forall (λ opt, sets_http opt = false) after →
     Go.NewClient env (before ++ Go.WithTimeout timeout :: after) = (Go.Ok c, effects) →
     Go.httpClient c = Some {| Go.Timeout := timeout |}).
Proof.
  split.
  - intros opts c effects Hall H.
    destruct (NewClient_Ok_inv _ _ _ _ H) as (c0 & Hc0 & _ & -> & _).
    by rewrite (apply_options_keeps_http _ _ _ Hall Hc0).
  - intros before timeout after c effects Hall H.
    destruct (NewClient_Ok_inv _ _ _ _ H) as (c0 & Hc0 & _ & -> & _).
    rewrite apply_options_app in Hc0.
    destruct (Go.apply_options before Go.initial_client) as [c1|]; [|discriminate].
    cbn [mbind option_bind Go.apply_options Go.apply_option] in Hc0.
    destruct (Go.httpClient c1); [|discriminate].
    by rewrite (apply_options_keeps_http _ _ _ Hall Hc0).
Qed.

End GoConstruction.

(** ** The TypeScript client: construction and calls *)

Section TSConstruction.

(** What a successful construction settled on. *)
Lemma ts_constructor_inv env cfg c effects :
  TS.constructor env cfg = (TS.Returns c, effects) →
  TS.apiKey c = (if TS.truthy (TS.cfg_apiKey cfg)
                 then default "" (TS.cfg_apiKey cfg)
                 else TS.or_else (env !! "MESHLOGIC_API_KEY") "") ∧
  TS.timeout c = match TS.cfg_timeout cfg with
                 | Some ms => if ms =? 0 then 30000 else ms
                 | None => 30000
                 end.
Proof.
  unfold TS.constructor.
  destruct (TS.truthy (TS.cfg_apiKey cfg));
    match goal with |- context [if negb ?b then _ else _] => destruct b end;
    cbn [negb]; try discriminate; by intros [= <- _].
Qed.

(** The bearer token of a constructed client is never empty, and it is the
    configured key or the value of MESHLOGIC_API_KEY; [request] and
    [export] both send it. *)
Theorem ts_bearer_token env cfg c effects :
  TS.constructor env cfg = (TS.Returns c, effects) →
  TS.apiKey c ≠ "" ∧
  (TS.cfg_apiKey cfg = Some (TS.apiKey c) ∨
   env !! "MESHLOGIC_API_KEY" = Some (TS.apiKey c)) ∧
  (∀ method url body,
     ("Authorization", "Bearer " +:+ TS.apiKey c)
     ∈ TS.f_headers (TS.fetch_init c method url body)) ∧
  (∀ url, ("Authorization", "Bearer " +:+ TS.apiKey c)
          ∈ TS.f_headers (TSResources.export_init c url)).
Proof.
  intros H. pose proof (ts_constructor_key _ _ _ _ H) as Hne.
  destruct (ts_constructor_inv _ _ _ _ H) as [Hkey _].
  split; [exact Hne|]. split; [|split; intros; by left].
  destruct (TS.truthy (TS.cfg_apiKey cfg)) eqn:Hk.
  - left. destruct (TS.cfg_apiKey cfg) as [k|]; [|discriminate Hk].
    by rewrite Hkey.
  - right. destruct (env !! "MESHLOGIC_API_KEY") as [k|] eqn:He.
    + cbn [TS.or_else] in Hkey. destruct (String.eqb k ""); [|by rewrite Hkey].
      by destruct Hne.
    + by destruct Hne.
Qed.

(** The timeout of a constructed client is never zero: it is the configured
    one, negative ones included, and 30000 ms when none or zero is
    configured. *)
Theorem ts_timeout_resolution env cfg c effects :
  TS.constructor env cfg = (TS.Returns c, effects) →
  TS.timeout c ≠ 0 ∧
  (∀ ms, TS.cfg_timeout cfg = Some ms → ms ≠ 0 → TS.timeout c = ms) ∧
  (TS.cfg_timeout cfg = None ∨ TS.cfg_timeout cfg = Some 0 → TS.timeout c = 30000).
Proof.
  intros H. destruct (ts_constructor_inv _ _ _ _ H) as [_ ->].
  split; [|split].
  - destruct (TS.cfg_timeout cfg) as [ms|]; [|done].
    destruct (Z.eqb_spec ms 0); [done | assumption].
  - intros ms -> Hms. by destruct (Z.eqb_spec ms 0).
  - by intros [-> | ->].
Qed.

End TSConstruction.

Section TSQuery.

Lemma filter_other_twice (k : string) (q : list (string * string)) :
  filter (λ p, p.1 ≠ k) (filter (λ p, p.1 ≠ k) q) = filter (λ p, p.1 ≠ k) q.
Proof.
  induction q as [|p q IH]; [reflexivity|].
  rewrite (filter_cons _ p q). destruct (decide (p.1 ≠ k)) as [Hne|_]; [|exact IH].
  rewrite filter_cons, decide_True by done. by rewrite IH.
Qed.

(** A second write of a key replaces the first and leaves the rest of the
    query where it was. *)
Theorem ts_set_overwrites (q : list (string * string)) (k v w : string) :
  TS.searchParams_set (TS.searchParams_set q k v) k w = TS.searchParams_set q k w.
Proof.
  induction q as [|[k' v'] q IH]; cbn [TS.searchParams_set].
  - by rewrite decide_True.
  - destruct (decide (k' = k)) as [->|Hne]; cbn [TS.searchParams_set].
    + rewrite decide_True by done. by rewrite filter_other_twice.
    + rewrite decide_False by done. by rewrite IH.
Qed.

Lemma keys_filter_sublist (k : string) (q : list (string * string)) :
  (filter (λ p, p.1 ≠ k) q).*1 `sublist_of` q.*1.
Proof. apply fmap_sublist, sublist_filter. Qed.

Lemma keys_filter_subset (k x : string) (q : list (string * string)) :
  x ∈ (filter (λ p, p.1 ≠ k) q).*1 → x ∈ q.*1.
Proof.
  intros (p & -> & Hin)%list_elem_of_fmap.
  apply list_elem_of_filter in Hin as [_ Hin]. by apply list_elem_of_fmap_2.
Qed.

Lemma keys_filter_without (k : string) (q : list (string * string)) :
  k ∉ (filter (λ p, p.1 ≠ k) q).*1.
Proof.
  intros ((k' & v) & Hk & Hin)%list_elem_of_fmap.
  apply list_elem_of_filter in Hin as [Hne _]. cbn in *. by subst.
Qed.

Lemma keys_set_subset (q : list (string * string)) (k v x : string) :
  x ∈ (TS.searchParams_set q k v).*1 → x = k ∨ x ∈ q.*1.
Proof.
  induction q as [|[k0 v0] q IH]; cbn [TS.searchParams_set].
  - rewrite fmap_cons. intros [->|Hin]%elem_of_cons; [by left|].
    by apply elem_of_nil in Hin.
  - destruct (decide (k0 = k)) as [->|H0]; rewrite !fmap_cons;
      intros [->|Hin]%elem_of_cons.
    + by left.
    + right. right. by apply keys_filter_subset with k.
    + right. by left.
    + destruct (IH Hin) as [->|Hq]; [by left | right; by right].
Qed.

Lemma keys_set_NoDup (q : list (string * string)) (k v : string) :
  NoDup q.*1 → NoDup (TS.searchParams_set q k v).*1.
Proof.
  induction q as [|[k' v'] q IH]; cbn [TS.searchParams_set]; intros Hnd.
  - apply NoDup_singleton.
  - rewrite fmap_cons in Hnd. apply NoDup_cons in Hnd as [Hk' Hnd].
    destruct (decide (k' = k)) as [->|Hne]; rewrite fmap_cons; apply NoDup_cons.
    + split; [apply keys_filter_without|].
      exact (sublist_NoDup _ _ Hnd (keys_filter_sublist k q)).
    + split; [|by apply IH].
      intros [Hin|Hin]%keys_set_subset; [by destruct Hne | by destruct Hk'].
Qed.

Lemma set_fresh (q : list (string * string)) (k v : string) :
  k ∉ q.*1 → TS.searchParams_set q k v = q ++ [(k, v)].
Proof.
  induction q as [|[k' v'] q IH]; [reflexivity|].
  intros [Hne Hq]%not_elem_of_cons. cbn [TS.searchParams_set].
  rewrite decide_False by (cbn in Hne; congruence). by rewrite IH.
Qed.

Lemma entries_in_order (entries : list (string * option TS.Scalar))
    (q : list (string * string)) :
  NoDup (q.*1 ++ entries.*1) →
  foldl TS.set_entry q entries = q ++ defined_pairs entries.
Proof.
  revert q. induction entries as [|[k o] entries IH]; intros q Hnd.
  - by rewrite app_nil_r.
  - cbn [foldl]. unfold TS.set_entry at 2. cbn [fst snd].
    cbn [fmap list_fmap fst] in Hnd.
    apply NoDup_app in Hnd as (Hq & Hdisj & Hrest).
    apply NoDup_cons in Hrest as [Hk Hrest].
    destruct o as [value|]; unfold defined_pairs; cbn [omap list_omap fmap option_fmap option_map fst snd].
    + rewrite set_fresh by (intros Hin; apply (Hdisj _ Hin); by left).
      rewrite IH.
      * by rewrite <- app_assoc.
      * rewrite fmap_app. cbn. rewrite <- app_assoc. cbn.
        apply NoDup_app. split; [exact Hq|]. split; [exact Hdisj|].
        by apply NoDup_cons.
    + apply IH. apply NoDup_app. split; [exact Hq|]. split; [|exact Hrest].
      intros x Hx Hin. apply (Hdisj _ Hx). by right.
Qed.

End TSQuery.

Section TSCalls.

Import TSResources.

Context {Json Blob : Type}.
Variable URL_new : string → TS.BaseUrl → TS.JsError + TS.URL.
Variable network : TS.FetchInit → TS.Network Json.
Variable blob_of : TS.Response Json → TS.JsError + Blob.

Lemma keys_entries_NoDup (entries : list (string * option TS.Scalar))
    (q : list (string * string)) :
  NoDup q.*1 → NoDup (foldl TS.set_entry q entries).*1.
Proof.
  revert q. induction entries as [|[k o] entries IH]; intros q Hq; [exact Hq|].
  cbn [foldl]. apply IH. unfold TS.set_entry. cbn [fst snd].
  destruct o; [by apply keys_set_NoDup | exact Hq].
Qed.

(** The query [request] builds never repeats a key, as long as the path's
    own query does not. *)
Theorem ts_query_distinct_keys c path params url0 :
  URL_new path (TS.baseUrl c) = inr url0 →
  NoDup (TS.searchParams url0).*1 →
  ∃ url, TS.build_url URL_new c path params = inr url ∧
         NoDup (TS.searchParams url).*1.
Proof.
  intros Hurl Hnd. unfold TS.build_url. rewrite Hurl. eexists. split; [reflexivity|].
  cbn [TS.searchParams]. destruct params as [entries|]; [|exact Hnd].
  by apply keys_entries_NoDup.
Qed.

(** For a path without a query and parameters with distinct names, the
    query is the parameters with a defined value, in the order of the
    object, each as a string. *)
Theorem ts_query_in_order c path entries url0 :
  URL_new path (TS.baseUrl c) = inr url0 →
  TS.searchParams url0 = [] →
  NoDup entries.*1 →
  TS.build_url URL_new c path (Some entries)
  = inr {| TS.location := TS.location url0;
           TS.searchParams := defined_pairs entries |}.
Proof.
  intros Hurl Hq Hnd. unfold TS.build_url. rewrite Hurl, Hq.
  cbn [TS.set_entries]. by rewrite entries_in_order.
Qed.


(** The timer of a request: unless the URL cannot be built, in which case
    nothing is set up, [request] starts one timer with the client's
    timeout, fetches at most once, and clears the timer on every way out. *)
Theorem ts_timer_discipline c method path params body :
  let r := TS.request URL_new network c method path params body in
  match TS.build_url URL_new c path params with
  | inl e => r = (TS.ThrowsJs e, [])
  | inr _ =>
      head r.2 = Some (TS.SetTimeout (TS.timeout c)) ∧
      last r.2 = Some TS.ClearTimeout ∧
      (length (filter is_Fetch r.2) ≤ 1)%nat ∧
      length (filter is_SetTimeout r.2) = 1%nat
  end.
Proof.
  unfold TS.request.
  destruct (TS.build_url URL_new c path params) as [e|url]; [reflexivity|].
  destruct body as [|text|e]; cbn [TS.sent_text];
    try (destruct (network _) as [r| |e']; [destruct (negb (TS.ok r))| |]);
    cbn [snd head last]; (split; [reflexivity|]); (split; [reflexivity|]);
    (split; [vm_compute; lia|]); vm_compute; reflexivity.
Qed.

(** [export] does not go through [request]: it runs without a timer, so a
    silent network leaves it pending; a status outside 200 to 299, a 401 or
    a 429 included, gives the code EXPORT_ERROR with that status whatever
    the body says; and a failure of [fetch] reaches the caller as it is. *)
Theorem ts_export_outcomes c p url :
  export_url URL_new c p = inr url →
  let init := export_init c url in
  (∀ r, network init = TS.Responds r → TS.ok r = false →
     EventsResource_export URL_new network blob_of c p
     = (Some (TS.ThrowsSdk (TS.BaseError "Export failed" (Some "EXPORT_ERROR")
                              (Some (TS.status r)))),
        [TS.Fetch init])) ∧
  (∀ e, network init = TS.Breaks e →
     EventsResource_export URL_new network blob_of c p
     = (Some (TS.ThrowsJs e), [TS.Fetch init])) ∧
  (network init = TS.Silent →
     EventsResource_export URL_new network blob_of c p = (None, [TS.Fetch init])).
Proof.
  intros Hurl init. unfold EventsResource_export. rewrite Hurl. fold init.
  split; [|split].
  - intros r -> ->. reflexivity.
  - by intros e ->.
  - by intros ->.
Qed.

(** [export] puts a parameter in the query only when it is truthy: an empty
    text is left out like an undefined one, and no format is sent unless
    one is given. *)
Theorem ts_export_query c p url0 :
  URL_new "/v1/events/export" (TS.baseUrl c) = inr url0 →
  TS.searchParams url0 = [] →
  export_url URL_new c p
  = inr {| TS.location := TS.location url0;
           TS.searchParams :=
             truthy_pairs [ ("format", ExportParams.format p);
                            ("type", ExportParams.eventType p);
                            ("since", ExportParams.since p);
                            ("until", ExportParams.until p) ] |}.
Proof.
  intros Hurl Hq. unfold export_url. rewrite Hurl, Hq. do 2 f_equal.
  destruct p as [[[|a1 s1]|] [[|a2 s2]|] [[|a3 s3]|] [[|a4 s4]|]];
    vm_compute; reflexivity.
Qed.

End TSCalls.

(** ** Reading the retry delay *)

Section Scanning.

Import Text.

Lemma scan_digits_stop rest acc n :
  no_digit_ahead rest = true → scan_digits rest acc n = (acc, n).
Proof.
  destruct rest as [|a rest]; [reflexivity|]. cbn [no_digit_ahead scan_digits].
  by destruct (digit_value a).
Qed.

Lemma scan_digits_append s rest acc n :
  all_digits s = true → no_digit_ahead rest = true →
  scan_digits (s +:+ rest) acc n = scan_digits s acc n.
Proof.
  intros Hs Hrest. revert acc n Hs.
  induction s as [|a s IH]; intros acc n Hs.
  - cbn [scan_digits]. by apply scan_digits_stop.
  - rewrite append_cons. cbn [scan_digits all_digits] in *.
    destruct (digit_value a) as [d|]; [|discriminate Hs]. by apply IH.
Qed.

Lemma all_digits_uint (d : Decimal.uint) :
  all_digits (NilEmpty.string_of_uint d) = true.
Proof.
  induction d; cbn [NilEmpty.string_of_uint all_digits]; [reflexivity|..];
    by rewrite IHd.
Qed.

(** The decimal text of an integer, followed by anything that does not go
    on with a digit, scans to the integer. *)
Lemma decimal_prefix_scans (z : Z) (rest : string) :
  no_digit_ahead rest = true →
  scan_signed (decimal z +:+ rest) = Some z ∧
  TS.skip_white (decimal z +:+ rest) = decimal z +:+ rest ∧
  Go.SkipSpace (decimal z +:+ rest) = Some (decimal z +:+ rest).
Proof.
  intros Hrest.
  destruct z as [|p|p].
  - change (decimal 0) with "0". rewrite append_cons.
    unfold scan_signed. cbn [scan_digits].
    change (digit_value "0") with (Some 0). cbv iota.
    change ("" +:+ rest) with rest. rewrite scan_digits_stop by done.
    split; [reflexivity|]. split; [reflexivity|].
    apply SkipSpace_stops; [unfold Go.byte; cbn; lia | reflexivity].
  - unfold decimal; cbn [Z.to_int NilZero.string_of_int].
    pose proof (to_uint_not_Nil p) as Hnil.
    assert (NilZero.string_of_uint (Pos.to_uint p)
            = NilEmpty.string_of_uint (Pos.to_uint p)) as ->
      by (by destruct (Pos.to_uint p)).
    destruct (digits_start_with_digit p) as (a & s & Hs & Ha).
    destruct (digit_is_no_sign a Ha) as (Hminus & Hplus & Hblank).
    destruct (scan_digits_positive p) as (m & Hscan).
    pose proof (all_digits_uint (Pos.to_uint p)) as Hall.
    pose proof (scan_digits_append _ rest 0 0%nat Hall Hrest) as Happ.
    rewrite Hscan in Happ. rewrite Hs in *. rewrite append_cons in *.
    split; [|split].
    + unfold scan_signed.
      assert ((let '(neg, tl) :=
                 match String a (s +:+ rest) with
                 | String "-" s' => (true, s')
                 | String "+" s' => (false, s')
                 | _ => (false, String a (s +:+ rest))
                 end in
               match scan_digits tl 0 0 with
               | (_, O) => None
               | (v, S _) => Some (if neg then - v else v)
               end)
              = match scan_digits (String a (s +:+ rest)) 0 0 with
                | (_, O) => None
                | (v, S _) => Some v
                end) as ->.
      { destruct a as [[] [] [] [] [] [] [] []]; try reflexivity;
          [by destruct Hplus | by destruct Hminus]. }
      by rewrite Happ.
    + cbn [TS.skip_white]. by rewrite (proj2 (digit_is_plain a Ha)).
    + apply SkipSpace_stops; [|exact Hblank].
      exact (proj1 (digit_is_plain a Ha)).
  - unfold decimal; cbn [Z.to_int NilZero.string_of_int].
    pose proof (to_uint_not_Nil p) as Hnil.
    assert (NilZero.string_of_uint (Pos.to_uint p)
            = NilEmpty.string_of_uint (Pos.to_uint p)) as ->
      by (by destruct (Pos.to_uint p)).
    destruct (scan_digits_positive p) as (m & Hscan).
    pose proof (all_digits_uint (Pos.to_uint p)) as Hall.
    pose proof (scan_digits_append _ rest 0 0%nat Hall Hrest) as Happ.
    rewrite Hscan in Happ. rewrite append_cons.
    split; [|split].
    + unfold scan_signed. by rewrite Happ.
    + reflexivity.
    + apply SkipSpace_stops; [unfold Go.byte; cbn; lia | reflexivity].
Qed.

(** Reading a retry delay takes the number in front and ignores what
    follows it: [parseInt] (for an integer a JavaScript number holds
    exactly) and [Sscanf] both give the integer whose decimal text the
    header starts with; and [Sscanf] keeps the value it had when that
    integer does not fit 64 bits. *)
Theorem retry_delay_is_leading_number (z : Z) (rest : string) :
  no_digit_ahead rest = true →
  (- 2 ^ 53 < z < 2 ^ 53 → TS.parseInt (decimal z +:+ rest) = TS.Int z) ∧
  (∀ current, - 2 ^ 63 ≤ z < 2 ^ 63 →
     Go.Sscanf_d (decimal z +:+ rest) current = z) ∧
  (∀ current, ¬ - 2 ^ 63 ≤ z < 2 ^ 63 →
     Go.Sscanf_d (decimal z +:+ rest) current = current).
Proof.
  intros Hrest. destruct (decimal_prefix_scans z rest Hrest) as (Hscan & Hskip & Hgo).
  split; [|split].
  - intros _. unfold TS.parseInt. by rewrite Hskip, Hscan.
  - intros current Hz. unfold Go.Sscanf_d. rewrite Hgo, Hscan.
    by assert (Go.fits_int64 z = true) as -> by (unfold Go.fits_int64; lia).
  - intros current Hz. unfold Go.Sscanf_d. rewrite Hgo, Hscan.
    by assert (Go.fits_int64 z = false) as -> by (unfold Go.fits_int64; lia).
Qed.

(** White space in front of the number. A no-break space in UTF-8 (the
    bytes 194 and 160) is one white-space rune for [Sscanf]; for [parseInt],
    which reads a header value byte by byte, the byte 160 alone is the
    no-break space, and the byte 194 is a letter. *)
Lemma retry_delay_after_no_break_space :
  Go.Sscanf_d (String "194" (String "160" "5")) 60 = 5 ∧
  Go.Sscanf_d (String "160" "5") 60 = 60 ∧
  TS.parseInt (String "160" "5") = TS.Int 5 ∧
  TS.parseInt (String "194" (String "160" "5")) = TS.NaN.
Proof. vm_compute. by repeat split. Qed.

End Scanning.

(** ** Reading an outcome backwards *)

Section Inversion.

Context {Json : Type}.
Variable URL_new : string → TS.BaseUrl → TS.JsError + TS.URL.
Variable network : TS.FetchInit → TS.Network Json.
Variable url_Parse : string → Go.LibError + Go.URL.
Variable QueryEscape : string → string.
Variable NewRequest_error : string → Go.URL → option Go.LibError.
Variable Do : Go.http_Client → Go.Request → Go.LibError + Go.Response.

Lemma classify_status path (r : TS.Response Json) e s :
  TS.classify path r = inl e → TS.statusCode e = Some s → TS.status r = s.
Proof.
  unfold TS.classify. destruct (TS.errorData_of r) as [d|]; [|discriminate].
  destruct (Z.eqb_spec (TS.status r) 401) as [H1|_];
    [intros [= <-]; cbn; congruence|].
  destruct (Z.eqb_spec (TS.status r) 404) as [H2|_];
    [intros [= <-]; cbn; congruence|].
  destruct (Z.eqb_spec (TS.status r) 429) as [H3|_];
    [intros [= <-]; cbn; congruence|].
  intros [= <-]. cbn. congruence.
Qed.

Lemma catch_status {A} (thrown : TS.MeshLogicError + TS.JsError) e s :
  TS.catch (A := A) thrown = TS.ThrowsSdk e → TS.statusCode e = Some s →
  thrown = inl e.
Proof.
  destruct thrown as [e'|error]; cbn [TS.catch]; [by intros [= ->]|].
  destruct (TS.is_Error error && String.eqb (TS.err_name error) "AbortError");
    intros [= <-]; discriminate.
Qed.

(** What an outcome of the TypeScript [request] tells. A value comes from a
    response with a status from 200 to 299, and is its parsed body. An
    error that is not the SDK's is the one building the URL threw, or the
    one [response.json()] rejected with on such a response, whatever made
    it reject. An SDK error with a status comes from a response of that
    status outside 200 to 299. *)
Theorem ts_request_inversion c method path params body :
  let r := TS.request URL_new network c method path params body in
  (∀ v, r.1 = TS.Returns v →
     ∃ url resp p,
       TS.build_url URL_new c path params = inr url ∧
       network (TS.fetch_init c method url (TS.sent_text body)) = TS.Responds resp ∧
       TS.ok resp = true ∧ TS.json resp = inr p ∧ TS.p_value p = v) ∧
  (∀ e, r.1 = TS.ThrowsJs e →
     TS.build_url URL_new c path params = inl e ∨
     ∃ url resp,
       TS.build_url URL_new c path params = inr url ∧
       network (TS.fetch_init c method url (TS.sent_text body)) = TS.Responds resp ∧
       TS.ok resp = true ∧ TS.json resp = inl e) ∧
  (∀ e s, r.1 = TS.ThrowsSdk e → TS.statusCode e = Some s →
     ∃ url resp,
       TS.build_url URL_new c path params = inr url ∧
       network (TS.fetch_init c method url (TS.sent_text body)) = TS.Responds resp ∧
       TS.ok resp = false ∧ TS.status resp = s).
Proof.
  cbv zeta. unfold TS.request.
  destruct (TS.build_url URL_new c path params) as [e0|url].
  { cbn [fst]. split; [|split].
    - intros v H. discriminate H.
    - intros e [= ->]. by left.
    - intros e s H. discriminate H. }
  assert (Hcatch : ∀ (error : TS.JsError) v,
            TS.catch (A := Json) (inr error) ≠ TS.Returns v).
  { intros error v. cbn [TS.catch]. by destruct (_ && _). }
  assert (Hcatch' : ∀ (error e : TS.JsError),
            TS.catch (A := Json) (inr error) ≠ TS.ThrowsJs e).
  { intros error e. cbn [TS.catch]. by destruct (_ && _). }
  assert (Hcatch'' : ∀ (error : TS.JsError) e s,
            TS.catch (A := Json) (inr error) = TS.ThrowsSdk e →
            TS.statusCode e = Some s → False).
  { intros error e s H Hs. by pose proof (catch_status _ _ _ H Hs). }
  assert (Hsend : ∀ text,
    let r := match network (TS.fetch_init c method url text) with
             | TS.Silent =>
                 (TS.catch (A := Json) (inr TS.AbortError),
                  [TS.SetTimeout (TS.timeout c);
                   TS.Fetch (TS.fetch_init c method url text); TS.Abort; TS.ClearTimeout])
             | TS.Breaks e =>
                 (TS.catch (inr e),
                  [TS.SetTimeout (TS.timeout c);
                   TS.Fetch (TS.fetch_init c method url text); TS.ClearTimeout])
             | TS.Responds response =>
                 if negb (TS.ok response)
                 then (TS.catch (TS.classify path response),
                       [TS.SetTimeout (TS.timeout c);
                        TS.Fetch (TS.fetch_init c method url text);
                        TS.ClearTimeout; TS.ClearTimeout])
                 else (match TS.json response with
                       | inl e => TS.ThrowsJs e
                       | inr p => TS.Returns (TS.p_value p)
                       end,
                       [TS.SetTimeout (TS.timeout c);
                        TS.Fetch (TS.fetch_init c method url text); TS.ClearTimeout])
             end in
    (∀ v, r.1 = TS.Returns v →
       ∃ url' resp p, inr url = inr (A := TS.JsError) url' ∧
         network (TS.fetch_init c method url' text) = TS.Responds resp ∧
         TS.ok resp = true ∧ TS.json resp = inr p ∧ TS.p_value p = v) ∧
    (∀ e, r.1 = TS.ThrowsJs e →
       inr (A := TS.JsError) url = inl e ∨
       ∃ url' resp, inr url = inr (A := TS.JsError) url' ∧
         network (TS.fetch_init c method url' text) = TS.Responds resp ∧
         TS.ok resp = true ∧ TS.json resp = inl e) ∧
    (∀ e s, r.1 = TS.ThrowsSdk e → TS.statusCode e = Some s →
       ∃ url' resp, inr url = inr (A := TS.JsError) url' ∧
         network (TS.fetch_init c method url' text) = TS.Responds resp ∧
         TS.ok resp = false ∧ TS.status resp = s)).
  { intros text.
    destruct (network (TS.fetch_init c method url text)) as [resp| |e0] eqn:Hnet;
      cbn zeta.
    - destruct (TS.ok resp) eqn:Hok; cbn [negb fst].
      + destruct (TS.json resp) as [e0|p] eqn:Hjson; split; [|split| |split];
          try (intros; discriminate).
        * intros e [= <-]. right. by exists url, resp.
        * intros v [= <-]. by exists url, resp, p.
      + split; [|split].
        * intros v H. destruct (TS.classify path resp) as [e0|e0]; cbn [TS.catch] in H;
            [discriminate | by destruct (Hcatch e0 v)].
        * intros e H. destruct (TS.classify path resp) as [e0|e0]; cbn [TS.catch] in H;
            [discriminate | by destruct (Hcatch' e0 e)].
        * intros e s H Hs. pose proof (catch_status _ _ _ H Hs) as Hc.
          exists url, resp. repeat split; try done.
          by apply classify_status with path e.
    - cbn [fst]. split; [|split].
      + intros v H. by destruct (Hcatch _ _ H).
      + intros e H. by destruct (Hcatch' _ _ H).
      + intros e s H Hs. by destruct (Hcatch'' _ _ _ H Hs).
    - cbn [fst]. split; [|split].
      + intros v H. by destruct (Hcatch _ _ H).
      + intros e H. by destruct (Hcatch' _ _ H).
      + intros e s H Hs. by destruct (Hcatch'' _ _ _ H Hs). }
  destruct body as [|text|e0]; cbn [TS.sent_text].
  - apply (Hsend None).
  - apply (Hsend (Some text)).
  - cbn [fst]. split; [|split].
    + intros v H. by destruct (Hcatch _ _ H).
    + intros e H. by destruct (Hcatch' _ _ H).
    + intros e s H Hs. by destruct (Hcatch'' _ _ _ H Hs).
Qed.

(** What an outcome of the Go [request] tells. Bytes come from a response
    with a status below 400, and are its body. An [Error] comes from a
    response with a status of 400 or more other than 401, 404 and 429, and
    is the one built from its body. An error of a library is the one
    building the request, [Do] or reading the body gave. A panic means a
    request was built for a client without an HTTP client. *)
Theorem go_request_inversion c method path params body :
  let r := Go.request url_Parse QueryEscape NewRequest_error Do c method path params body in
  let built := Go.build_request url_Parse QueryEscape NewRequest_error c
                 method path params body in
  (∀ bytes, r.1 = Go.Ok bytes →
     ∃ req h resp payload,
       built = inr req ∧ Go.httpClient c = Some h ∧ Do h req = inr resp ∧
       Go.Body resp = inr payload ∧ Go.Status resp < 400 ∧ bytes = Go.raw payload) ∧
  (∀ e, r.1 = Go.Err (Go.PlainError e) →
     ∃ req h resp payload,
       built = inr req ∧ Go.httpClient c = Some h ∧ Do h req = inr resp ∧
       Go.Body resp = inr payload ∧ 400 ≤ Go.Status resp ∧
       Go.Status resp ≠ 401 ∧ Go.Status resp ≠ 404 ∧ Go.Status resp ≠ 429 ∧
       e = Go.apiErr payload resp) ∧
  (∀ e, r.1 = Go.Err (Go.Foreign e) →
     built = inl e ∨
     ∃ req h, built = inr req ∧ Go.httpClient c = Some h ∧
       (Do h req = inl e ∨ ∃ resp, Do h req = inr resp ∧ Go.Body resp = inl e)) ∧
  (r.1 = Go.Panic ↔ (∃ req, built = inr req) ∧ Go.httpClient c = None).
Proof.
  assert (Hswitch : ∀ payload resp,
            (∀ e, Go.status_switch payload resp = Go.Err (Go.PlainError e) →
               Go.Status resp ≠ 401 ∧ Go.Status resp ≠ 404 ∧ Go.Status resp ≠ 429 ∧
               e = Go.apiErr payload resp) ∧
            (∀ e, Go.status_switch payload resp ≠ Go.Err (Go.Foreign e)) ∧
            (∀ bytes, Go.status_switch payload resp ≠ Go.Ok bytes) ∧
            Go.status_switch payload resp ≠ Go.Panic).
  { intros payload resp. unfold Go.status_switch.
    destruct (Z.eqb_spec (Go.Status resp) 401) as [|H1];
      [repeat split; intros; discriminate|].
    destruct (Z.eqb_spec (Go.Status resp) 404) as [|H2];
      [repeat split; intros; discriminate|].
    destruct (Z.eqb_spec (Go.Status resp) 429) as [|H3];
      [repeat split; intros; discriminate|].
    split; [|repeat split; intros; discriminate].
    by intros e [= <-]. }
  unfold Go.request.
  destruct (Go.build_request _ _ _ _ _ _ _ _) as [err0|req]; cbn zeta.
  { cbn [fst]. split; [|split; [|split; [|split]]]; try (intros; discriminate).
    - intros e [= <-]. by left.
    - intros [[req Hreq] _]. discriminate Hreq. }
  destruct (Go.httpClient c) as [h|] eqn:Hh.
  2:{ cbn [fst]. split; [|split; [|split; [|split]]]; try (intros; discriminate).
      - intros _. split; [by exists req | reflexivity].
      - by intros _. }
  destruct (Do h req) as [err0|resp] eqn:Hdo.
  { cbn [fst]. split; [|split; [|split; [|split]]]; try (intros; discriminate).
    - intros e [= <-]. right. exists req, h. split; [done|].
      split; [done|]. by left.
    - intros [_ H]. discriminate H. }
  destruct (Go.Body resp) as [err0|payload] eqn:Hbody.
  { cbn [fst]. split; [|split; [|split; [|split]]]; try (intros; discriminate).
    - intros e [= <-]. right. exists req, h. split; [done|].
      split; [done|]. right. by exists resp.
    - intros [_ H]. discriminate H. }
  destruct (Hswitch payload resp) as (Hplain & Hforeign & Hok & Hpanic).
  destruct (Z.geb_spec (Go.Status resp) 400) as [Hs|Hs]; cbn [fst];
    (split; [|split; [|split; [|split]]]).
  - intros bytes H. by destruct (Hok bytes).
  - intros e H. destruct (Hplain e H) as (H1 & H2 & H3 & ->).
    exists req, h, resp, payload.
    split; [done|]. split; [done|]. split; [done|].
    split; [done|]. split; [lia|]. by repeat split.
  - intros e H. by destruct (Hforeign e).
  - intros H. by destruct Hpanic.
  - intros [_ H]. discriminate H.
  - intros bytes [= <-]. exists req, h, resp, payload.
    split; [done|]. split; [done|]. split; [done|].
    split; [done|]. split; [lia | reflexivity].
  - intros e H. discriminate H.
  - intros e H. discriminate H.
  - intros H. discriminate H.
  - intros [_ H]. discriminate H.
Qed.

(** An error response whose body is the JSON value [null] is not classified
    by its status: reading [message] off [null] throws, and the call fails
    with the code NETWORK_ERROR and no status. *)
Theorem ts_null_error_body c method path params body url r p :
  TS.build_url URL_new c path params = inr url →
  (∀ e, body ≠ TS.BodyThrows e) →
  network (TS.fetch_init c method url (TS.sent_text body)) = TS.Responds r →
  TS.ok r = false →
  TS.json r = inr p → TS.p_members p = None →
  ∃ e, (TS.request URL_new network c method path params body).1 = TS.ThrowsSdk e ∧
       TS.code e = Some "NETWORK_ERROR" ∧ TS.statusCode e = None.
Proof.
  intros Hurl Hbody Hnet Hok Hjson Hnull.
  rewrite (ts_request_responds _ _ _ _ _ _ _ _ _ Hurl Hbody Hnet), Hok.
  cbn [negb fst]. unfold TS.classify, TS.errorData_of. rewrite Hjson, Hnull.
  eexists. split; [reflexivity|]. by split.
Qed.

(** A body that cannot be serialised fails the call before anything is
    fetched; unless the error is named AbortError, the code is
    NETWORK_ERROR. *)
Theorem ts_body_not_serialisable c method path params url e :
  TS.build_url URL_new c path params = inr url →
  TS.is_Error e && String.eqb (TS.err_name e) "AbortError" = false →
  TS.request URL_new network c method path params (TS.BodyThrows e)
  = (TS.ThrowsSdk (TS.BaseError (TS.err_text e) (Some "NETWORK_ERROR") None),
     [TS.SetTimeout (TS.timeout c); TS.ClearTimeout]).
Proof.
  intros Hurl He. unfold TS.request. rewrite Hurl. cbn [TS.catch]. by rewrite He.
Qed.

End Inversion.

(** ** The further properties on examples *)

(** A listing of events answered with a 503, and a device fetched with a
    200. *)
Lemma go_service_on_response_witness :
  (let resp := {| Go.Status := 503; Go.Header := ∅;
                  Go.Body := inr {| Go.raw := "the error payload";
                                    Go.as_Error := Some ("UNAVAILABLE", "Try later") |} |} in
   (GoServices.EventsService_List go_Parse go_escape go_valid (go_answers resp)
      (λ body, inr body) go_client None).1
   = Go.Err (Go.PlainError {| Go.Code := "UNAVAILABLE"; Go.Message := "Try later";
                              Go.StatusCode := 503 |})) ∧
  (let resp := {| Go.Status := 200; Go.Header := ∅;
                  Go.Body := inr {| Go.raw := "the device"; Go.as_Error := None |} |} in
   (GoServices.DevicesService_Get go_Parse go_escape go_valid (go_answers resp)
      (λ body, inr body) go_client "xyz").1
   = Go.Ok "the device").
Proof.
  set (payload1 := {| Go.raw := "the error payload";
                      Go.as_Error := Some ("UNAVAILABLE", "Try later") |}).
  set (resp1 := {| Go.Status := 503; Go.Header := ∅; Go.Body := inr payload1 |}).
  set (payload2 := {| Go.raw := "the device"; Go.as_Error := None |}).
  set (resp2 := {| Go.Status := 200; Go.Header := ∅; Go.Body := inr payload2 |}).
  set (headers := [ ("Authorization", "Bearer ml-key-1");
                    ("Content-Type", "application/json");
                    ("User-Agent", "meshlogic-go/0.1.0") ]).
  split.
  - exact (f_equal fst
             (proj1 (go_service_on_response go_Parse go_escape go_valid
                       (go_answers resp1) (λ body, inr body))
                go_client None
                {| Go.Method := "GET";
                   Go.Url := {| Go.location := "https://api.meshlogic.ai/v1/events";
                                Go.RawQuery := "limit=100" |};
                   Go.Headers := headers; Go.ReqBody := None |}
                {| Go.Timeout := 30 * Go.second |} resp1 payload1
                eq_refl eq_refl eq_refl eq_refl
                ltac:(discriminate) ltac:(discriminate) ltac:(discriminate))).
  - exact (f_equal fst
             (proj2 (go_service_on_response go_Parse go_escape go_valid
                       (go_answers resp2) (λ body, inr body))
                go_client "xyz"
                {| Go.Method := "GET";
                   Go.Url := {| Go.location := "https://api.meshlogic.ai/v1/devices/xyz";
                                Go.RawQuery := "" |};
                   Go.Headers := headers; Go.ReqBody := None |}
                {| Go.Timeout := 30 * Go.second |} resp2 payload2
                eq_refl eq_refl eq_refl eq_refl
                ltac:(discriminate) ltac:(discriminate) ltac:(discriminate))).
Defined.

(** A client built from the environment's key, a region and a timeout. *)
Lemma go_bearer_token_witness :
  let c := {| Go.apiKey := "ml-key-1"; Go.baseURL := "https://api.eu.meshlogic.ai";
              Go.httpClient := Some {| Go.Timeout := 5000000000 |} |} in
  Go.apiKey c ≠ "" ∧
  (Go.WithAPIKey (Go.apiKey c) ∈ [Go.WithRegion "eu-west-1"; Go.WithTimeout 5000000000] ∨
   ({[ "MESHLOGIC_API_KEY" := "ml-key-1" ]} : gmap string string)
     !! "MESHLOGIC_API_KEY" = Some (Go.apiKey c)) ∧
  (∀ url_Parse QueryEscape NewRequest_error method path params body req,
     Go.build_request url_Parse QueryEscape NewRequest_error c method path params body
     = inr req →
     ("Authorization", "Bearer " +:+ Go.apiKey c) ∈ Go.Headers req).
Proof.
  exact (go_bearer_token {[ "MESHLOGIC_API_KEY" := "ml-key-1" ]}
           [Go.WithRegion "eu-west-1"; Go.WithTimeout 5000000000]
           {| Go.apiKey := "ml-key-1"; Go.baseURL := "https://api.eu.meshlogic.ai";
              Go.httpClient := Some {| Go.Timeout := 5000000000 |} |}
           [Go.Getenv "MESHLOGIC_API_KEY"] eq_refl).
Defined.

Lemma go_base_url_origin_witness :
  (∃ region, Go.endpoints !! region = Some "https://api.eu.meshlogic.ai") ∨
  Go.WithBaseURL "https://api.eu.meshlogic.ai"
  ∈ [Go.WithAPIKey "ml-key-1"; Go.WithRegion "eu-west-1"; Go.WithRegion "mars-1"].
Proof.
  exact (go_base_url_origin ∅
           [Go.WithAPIKey "ml-key-1"; Go.WithRegion "eu-west-1"; Go.WithRegion "mars-1"]
           {| Go.apiKey := "ml-key-1"; Go.baseURL := "https://api.eu.meshlogic.ai";
              Go.httpClient := Some {| Go.Timeout := 30 * Go.second |} |}
           [] eq_refl).
Defined.

Lemma go_panic_free_witness :
  (Go.NewClient ∅ [Go.WithAPIKey "ml-key-1"; Go.WithTimeout 5000000000]).1 ≠ Go.Panic ∧
  (∀ c effects url_Parse QueryEscape NewRequest_error Do method path params body,
     Go.NewClient ∅ [Go.WithAPIKey "ml-key-1"; Go.WithTimeout 5000000000]
     = (Go.Ok c, effects) →
     (Go.request url_Parse QueryEscape NewRequest_error Do c method path params body).1
     ≠ Go.Panic) ∧
  (∀ after,
     Go.NewClient ∅ ([Go.WithAPIKey "ml-key-1"; Go.WithTimeout 5000000000]
                     ++ Go.NilOption :: after)
     = (Go.Panic, [])) ∧
  (∀ timeout,
     Go.NewClient ∅ ([Go.WithAPIKey "ml-key-1"; Go.WithTimeout 5000000000]
                     ++ [Go.WithHTTPClient None; Go.WithTimeout timeout])
     = (Go.Panic, [])).
Proof.
  apply (go_panic_free ∅ [Go.WithAPIKey "ml-key-1"; Go.WithTimeout 5000000000]).
  - intros H. apply elem_of_cons in H as [H|H]; [discriminate H|].
    apply list_elem_of_singleton in H. discriminate H.
  - intros H. apply elem_of_cons in H as [H|H]; [discriminate H|].
    apply list_elem_of_singleton in H. discriminate H.
Defined.

Lemma go_timeout_resolution_witness :
  Go.httpClient
    {| Go.apiKey := "ml-key-1"; Go.baseURL := "https://api.us.meshlogic.ai";
       Go.httpClient := Some {| Go.Timeout := 30000000000 |} |}
  = Some {| Go.Timeout := 30000000000 |} ∧
  Go.httpClient
    {| Go.apiKey := "ml-key-1"; Go.baseURL := "https://api.us.meshlogic.ai";
       Go.httpClient := Some {| Go.Timeout := 5000000000 |} |}
  = Some {| Go.Timeout := 5000000000 |}.
Proof.
  destruct (go_timeout_resolution ∅) as [Hdefault Hlast].
  split.
  - apply (Hdefault [Go.WithAPIKey "ml-key-1"; Go.WithRegion "us-east-1"] _ []);
      [repeat constructor | reflexivity].
  - apply (Hlast [Go.WithAPIKey "ml-key-1"; Go.WithTimeout 1] 5000000000
             [Go.WithRegion "us-east-1"] _ []);
      [repeat constructor | reflexivity].
Defined.

Lemma ts_bearer_token_witness :
  let c := {| TS.apiKey := "ml-key-1";
              TS.baseUrl := TS.UrlString "https://api.meshlogic.ai";
              TS.timeout := 30000 |} in
  TS.apiKey c ≠ "" ∧
  (None = Some (TS.apiKey c) ∨
   ({[ "MESHLOGIC_API_KEY" := "ml-key-1" ]} : gmap string string)
     !! "MESHLOGIC_API_KEY" = Some (TS.apiKey c)) ∧
  (∀ method url body,
     ("Authorization", "Bearer " +:+ TS.apiKey c)
     ∈ TS.f_headers (TS.fetch_init c method url body)) ∧
  (∀ url, ("Authorization", "Bearer " +:+ TS.apiKey c)
          ∈ TS.f_headers (TSResources.export_init c url)).
Proof.
  exact (ts_bearer_token {[ "MESHLOGIC_API_KEY" := "ml-key-1" ]}
           {| TS.cfg_apiKey := None; TS.cfg_region := None;
              TS.cfg_baseUrl := None; TS.cfg_timeout := Some 0 |}
           {| TS.apiKey := "ml-key-1";
              TS.baseUrl := TS.UrlString "https://api.meshlogic.ai";
              TS.timeout := 30000 |}
           [TS.ReadEnv "MESHLOGIC_API_KEY"] eq_refl).
Defined.

(** A timeout of zero and a negative one. *)
Lemma ts_timeout_resolution_witness :
  TS.timeout {| TS.apiKey := "ml-key-1";
                TS.baseUrl := TS.UrlString "https://api.meshlogic.ai";
                TS.timeout := 30000 |} = 30000 ∧
  TS.timeout {| TS.apiKey := "ml-key-1";
                TS.baseUrl := TS.UrlString "https://api.meshlogic.ai";
                TS.timeout := -1 |} = -1.
Proof.
  split.
  - apply (ts_timeout_resolution ∅
             {| TS.cfg_apiKey := Some "ml-key-1"; TS.cfg_region := None;
                TS.cfg_baseUrl := None; TS.cfg_timeout := Some 0 |} _ [] eq_refl).
    by right.
  - apply (proj1 (proj2 (ts_timeout_resolution ∅
             {| TS.cfg_apiKey := Some "ml-key-1"; TS.cfg_region := None;
                TS.cfg_baseUrl := None; TS.cfg_timeout := Some (-1) |} _ [] eq_refl))
             (-1)); [reflexivity | discriminate].
Defined.

(** A path with its own cursor, and a parameter of the same name. *)
Lemma ts_query_distinct_keys_witness :
  ∃ url, TS.build_url URL_with_cursor ts_client "/v1/events?cursor=abc"
           (Some [("limit", Some (TS.SNumber (TS.Int 10)));
                  ("cursor", Some (TS.SString "def"))]) = inr url ∧
         NoDup (TS.searchParams url).*1.
Proof.
  apply (ts_query_distinct_keys URL_with_cursor ts_client "/v1/events?cursor=abc" _
           {| TS.location := "https://api.meshlogic.ai/v1/events";
              TS.searchParams := [("cursor", "abc")] |} eq_refl).
  apply NoDup_singleton.
Defined.

Lemma ts_query_in_order_witness :
  TS.build_url URL_of ts_client "/v1/patterns"
    (Some [("category", None); ("enabled", Some (TS.SBoolean false))])
  = inr {| TS.location := "https://api.meshlogic.ai/v1/patterns";
           TS.searchParams := [("enabled", "false")] |}.
Proof.
  apply (ts_query_in_order URL_of ts_client "/v1/patterns"
           [("category", None); ("enabled", Some (TS.SBoolean false))]
           {| TS.location := "https://api.meshlogic.ai/v1/patterns";
              TS.searchParams := [] |} eq_refl eq_refl).
  apply (bool_decide_unpack _). vm_compute. exact I.
Defined.


(** An export answered with a 401, and one that is never answered. *)
Lemma ts_export_outcomes_witness :
  let p := {| TSResources.ExportParams.format := Some "csv";
              TSResources.ExportParams.eventType := None;
              TSResources.ExportParams.since := None;
              TSResources.ExportParams.until := None |} in
  let r := {| TS.status := 401; TS.headers := ∅; TS.json := inl not_json |} in
  (TSResources.EventsResource_export (Blob := string) URL_of (answers r)
     (λ _, inr "the export") ts_client p).1
  = Some (TS.ThrowsSdk (TS.BaseError "Export failed" (Some "EXPORT_ERROR") (Some 401))) ∧
  (TSResources.EventsResource_export (Json := string) (Blob := string) URL_of
     (λ _, TS.Silent) (λ _, inr "the export") ts_client p).1
  = None.
Proof.
  set (p := {| TSResources.ExportParams.format := Some "csv";
               TSResources.ExportParams.eventType := None;
               TSResources.ExportParams.since := None;
               TSResources.ExportParams.until := None |}).
  set (r := {| TS.status := 401; TS.headers := ∅; TS.json := inl not_json |}).
  set (url := {| TS.location := "https://api.meshlogic.ai/v1/events/export";
                 TS.searchParams := [("format", "csv")] |}).
  split.
  - exact (f_equal fst
             (proj1 (ts_export_outcomes (Blob := string) URL_of (answers r)
                       (λ _, inr "the export") ts_client p url eq_refl)
                r eq_refl eq_refl)).
  - exact (f_equal fst
             (proj2 (proj2 (ts_export_outcomes (Json := string) (Blob := string) URL_of
                              (λ _, TS.Silent) (λ _, inr "the export")
                              ts_client p url eq_refl))
                eq_refl)).
Defined.

(** An export with an empty format and a start time. *)
Lemma ts_export_query_witness :
  TSResources.export_url URL_of ts_client
    {| TSResources.ExportParams.format := Some "";
       TSResources.ExportParams.eventType := None;
       TSResources.ExportParams.since := Some "1h";
       TSResources.ExportParams.until := None |}
  = inr {| TS.location := "https://api.meshlogic.ai/v1/events/export";
           TS.searchParams := [("since", "1h")] |}.
Proof.
  exact (ts_export_query URL_of ts_client
           {| TSResources.ExportParams.format := Some "";
              TSResources.ExportParams.eventType := None;
              TSResources.ExportParams.since := Some "1h";
              TSResources.ExportParams.until := None |}
           {| TS.location := "https://api.meshlogic.ai/v1/events/export";
              TS.searchParams := [] |} eq_refl eq_refl).
Defined.

(** A header that goes on after the number, and one too large for 64
    bits. *)
Lemma retry_delay_is_leading_number_witness :
  TS.parseInt "120, please" = TS.Int 120 ∧
  Go.Sscanf_d "120, please" 60 = 120 ∧
  Go.Sscanf_d "9223372036854775808 seconds" 60 = 60.
Proof.
  split; [|split].
  - apply (proj1 (retry_delay_is_leading_number 120 ", please" eq_refl)). lia.
  - apply (proj1 (proj2 (retry_delay_is_leading_number 120 ", please" eq_refl)) 60).
    lia.
  - apply (proj2 (proj2 (retry_delay_is_leading_number 9223372036854775808
                           " seconds" eq_refl)) 60).
    lia.
Defined.

(** A 500 whose body is [null]. *)
Lemma ts_null_error_body_witness :
  let r := {| TS.status := 500; TS.headers := ∅;
              TS.json := inr {| TS.p_value := "null"; TS.p_members := None |} |} in
  ∃ e, (TS.request URL_of (answers r) ts_client "GET" "/v1/devices" None TS.NoBody).1
       = TS.ThrowsSdk e ∧
       TS.code e = Some "NETWORK_ERROR" ∧ TS.statusCode e = None.
Proof.
  apply (ts_null_error_body URL_of
           (answers {| TS.status := 500; TS.headers := ∅;
                       TS.json := inr {| TS.p_value := "null"; TS.p_members := None |} |})
           ts_client "GET" "/v1/devices" None TS.NoBody
           {| TS.location := "https://api.meshlogic.ai/v1/devices";
              TS.searchParams := [] |}
           {| TS.status := 500; TS.headers := ∅;
              TS.json := inr {| TS.p_value := "null"; TS.p_members := None |} |}
           {| TS.p_value := "null"; TS.p_members := None |});
    [reflexivity | discriminate | reflexivity | reflexivity | reflexivity | reflexivity].
Defined.

(** A body with a circular reference. *)
Lemma ts_body_not_serialisable_witness :
  let e := {| TS.is_Error := true; TS.err_name := "TypeError";
              TS.err_text := "TypeError: Converting circular structure to JSON" |} in
  TS.request URL_of (answers {| TS.status := 200; TS.headers := ∅;
                                TS.json := inl not_json |})
    ts_client "POST" "/v1/events" None (TS.BodyThrows e)
  = (TS.ThrowsSdk (TS.BaseError "TypeError: Converting circular structure to JSON"
                     (Some "NETWORK_ERROR") None),
     [TS.SetTimeout 30000; TS.ClearTimeout]).
Proof.
  exact (ts_body_not_serialisable URL_of
           (answers {| TS.status := 200; TS.headers := ∅; TS.json := inl not_json |})
           ts_client "POST" "/v1/events" None
           {| TS.location := "https://api.meshlogic.ai/v1/events";
              TS.searchParams := [] |}
           {| TS.is_Error := true; TS.err_name := "TypeError";
              TS.err_text := "TypeError: Converting circular structure to JSON" |}
           eq_refl eq_refl).
Defined.

(** A value read back to the 200 it came from, in both variants. *)
Lemma ts_request_inversion_witness :
  let r := {| TS.status := 200; TS.headers := ∅;
              TS.json := inr {| TS.p_value := "the devices";
                                TS.p_members := Some TS.empty_object |} |} in
  ∃ url resp p,
    TS.build_url URL_of ts_client "/v1/devices" None = inr url ∧
    answers r (TS.fetch_init ts_client "GET" url (TS.sent_text TS.NoBody))
    = TS.Responds resp ∧
    TS.ok resp = true ∧ TS.json resp = inr p ∧ TS.p_value p = "the devices".
Proof.
  exact (proj1 (ts_request_inversion URL_of
                  (answers {| TS.status := 200; TS.headers := ∅;
                              TS.json := inr {| TS.p_value := "the devices";
                                                TS.p_members := Some TS.empty_object |} |})
                  ts_client "GET" "/v1/devices" None TS.NoBody)
           "the devices" eq_refl).
Defined.

Lemma go_request_inversion_witness :
  let resp0 := {| Go.Status := 204; Go.Header := ∅;
                  Go.Body := inr {| Go.raw := ""; Go.as_Error := None |} |} in
  ∃ req h resp payload,
    Go.build_request go_Parse go_escape go_valid go_client "GET" "/v1/devices/status"
      None Go.NilBody = inr req ∧
    Go.httpClient go_client = Some h ∧ go_answers resp0 h req = inr resp ∧
    Go.Body resp = inr payload ∧ Go.Status resp < 400 ∧ "" = Go.raw payload.
Proof.
  exact (proj1 (go_request_inversion go_Parse go_escape go_valid
                  (go_answers {| Go.Status := 204; Go.Header := ∅;
                                 Go.Body := inr {| Go.raw := ""; Go.as_Error := None |} |})
                  go_client "GET" "/v1/devices/status" None Go.NilBody)
           "" eq_refl).
Defined.
